(** * SMSReminders: agent loop, reminder tools, conversation store and
      delivery scheduler, embedded from the TypeScript sources.

    Conventions of the embedding.
    - A [Date] is its [getTime()] value, an integer number of milliseconds.
    - An [ObjectId] is a natural number; [new ObjectId(s)] is the parameter
      [parseObjectId], undefined where the constructor throws.
    - A JavaScript string is a [string]; one character of the model stands
      for one UTF-16 code unit, so [length] is the [.length] of the source.
    - A MongoDB collection is the list of its documents in natural
      (insertion) order together with the driver's [_id] generator. A read
      hands out a copy of the stored document: an object built from it is
      changed by the methods called on it and by nothing else, and the
      collection changes only through its own write operations.
    - Code that can throw returns a [Result]; code that also mutates a
      collection or the outside world runs in the state-and-exception
      monad [M].
    - [new Date()] reads the clock of the world, which stands still while
      one operation (a tool call, a scheduler tick, an agent run) lasts. *)

From Stdlib Require Import ZArith List String Ascii Bool Arith Lia.
From Stdlib Require Import Permutation Sorted.
From Stdlib Require DecimalString.
Import ListNotations.

Open Scope string_scope.
Open Scope list_scope.

Definition ObjectId := nat.
Definition Date := Z.

(** ** Optional properties

    The value of a property declared with [?]: absent ([undefined]), [null],
    or a value. An object the program has built and validated never holds
    [null]; a stored document does, where the driver wrote a property that
    was [undefined]. *)

Inductive Optional (A : Type) : Type :=
| undefined
| null
| defined (a : A).
Arguments undefined {A}.
Arguments null {A}.
Arguments defined {A} a.

(** A parameter declared with [?], as a property of an object literal. *)
Definition ofOption {A} (o : option A) : Optional A :=
  match o with
  | Some a => defined a
  | None => undefined
  end.

(** What the driver writes for a property. [MongoClient] is built without
    [ignoreUndefined], so the BSON serializer writes [undefined] as [null]. *)
Definition written {A} (o : Optional A) : Optional A :=
  match o with
  | undefined => null
  | _ => o
  end.


(** ** Exceptions and state *)

Inductive Result (A : Type) : Type :=
| Ok (a : A)
| Throw (message : string).
Arguments Ok {A} a.
Arguments Throw {A} message.

Definition M (S A : Type) : Type := S -> Result A * S.

Definition ret {S A} (a : A) : M S A := fun s => (Ok a, s).
Definition throw {S A} (message : string) : M S A := fun s => (Throw message, s).
Definition bind {S A B} (m : M S A) (k : A -> M S B) : M S B :=
  fun s => match m s with
           | (Ok a, s') => k a s'
           | (Throw e, s') => (Throw e, s')
           end.
Definition get {S} : M S S := fun s => (Ok s, s).
Definition put {S} (s : S) : M S unit := fun _ => (Ok tt, s).
Definition modify {S} (f : S -> S) : M S unit := fun s => (Ok tt, f s).
(** [try { m } catch (error) { h error }] *)
Definition tryCatch {S A} (m : M S A) (h : string -> M S A) : M S A :=
  fun s => match m s with
           | (Ok a, s') => (Ok a, s')
           | (Throw e, s') => h e s'
           end.
Definition liftResult {S A} (r : Result A) : M S A := fun s => (r, s).

Declare Scope monad_scope.
Delimit Scope monad_scope with monad.
Notation "x <- m ;; k" := (bind m (fun x => k))
  (at level 61, m at next level, right associativity) : monad_scope.
Notation "m ;;; k" := (bind m (fun _ => k))
  (at level 61, right associativity) : monad_scope.
Open Scope monad_scope.

(** ** JavaScript strings *)

Definition newline : ascii := "010"%char.
Definition dq : string := String (ascii_of_nat 34) EmptyString.

(** [s.split(sep)] for a one-character separator. *)
Fixpoint split (sep : ascii) (s : string) : list string :=
  match s with
  | EmptyString => [EmptyString]
  | String c r =>
      if Ascii.eqb c sep then EmptyString :: split sep r
      else match split sep r with
           | [] => [String c EmptyString]
           | h :: t => String c h :: t
           end
  end.

(** [xs[0]] on the result of [split], which is never empty. *)
Definition head0 (xs : list string) : string := hd EmptyString xs.

Definition isDigit (c : ascii) : bool :=
  (48 <=? nat_of_ascii c)%nat && (nat_of_ascii c <=? 57)%nat.
Definition isNonZeroDigit (c : ascii) : bool :=
  (49 <=? nat_of_ascii c)%nat && (nat_of_ascii c <=? 57)%nat.

(** The regular expression [/^\+[1-9]\d{1,14}$/]. *)
Definition isE164 (s : string) : bool :=
  match s with
  | String plus (String d rest) =>
      Ascii.eqb plus "+"%char && isNonZeroDigit d
      && forallb isDigit (list_ascii_of_string rest)
      && (1 <=? String.length rest)%nat && (String.length rest <=? 14)%nat
  | _ => false
  end.

(** ** models/Conversation.ts *)

Inductive Role := user | assistant | system.

Definition Role_eqb (a b : Role) : bool :=
  match a, b with
  | user, user | assistant, assistant | system, system => true
  | _, _ => false
  end.

Record Message := mkMessage {
  role : Role;
  content : string;
  timestamp : Date
}.

Module Conversation.

Record t := mk {
  _id : option ObjectId;
  userId : ObjectId;
  phoneNumber : Optional string;
  title : string;
  messages : list Message;
  createdAt : Date;
  updatedAt : Date;
  lastMessageAt : Date
}.

(** [ConversationSchema.parse(this)]: the two fields a typed value can
    still get wrong are the phone number and the title; [.optional()]
    accepts an absent phone number and refuses [null]. *)
Definition schemaOk (c : t) : bool :=
  match phoneNumber c with
  | defined p => isE164 p
  | undefined => true
  | null => false
  end
  && (1 <=? String.length (title c))%nat && (String.length (title c) <=? 200)%nat.

Definition validate (c : t) : Result unit :=
  if schemaOk c then Ok tt else Throw "ZodError".

(** [new Conversation(data)] *)
Definition new (data : t) : Result t :=
  match validate data with
  | Ok _ => Ok data
  | Throw e => Throw e
  end.

Definition fromDocument (doc : t) : Result t := new doc.
Definition toDocument (c : t) : t := c.

Definition generateTitle (firstMessage : string) : string :=
  let title := substring 0 50 (head0 (split newline firstMessage)) in
  if (String.length title <? String.length firstMessage)%nat
  then title ++ "..." else title.

(** [addMessage(role, content)]; [now] is the value of [new Date()]. *)
Definition addMessage (c : t) (r : Role) (text : string) (now : Date) : t :=
  let message := mkMessage r text now in
  let msgs := messages c ++ [message] in
  let title' :=
    if (List.length msgs =? 1)%nat && Role_eqb r user
    then generateTitle text else title c in
  mk (_id c) (userId c) (phoneNumber c) title' msgs
     (createdAt c) (timestamp message) (timestamp message).

Definition getFormattedHistory (c : t) : list (Role * string) :=
  map (fun msg => (role msg, content msg)) (messages c).

Definition updateTimestamp (c : t) (now : Date) : t :=
  mk (_id c) (userId c) (phoneNumber c) (title c) (messages c)
     (createdAt c) now (lastMessageAt c).

End Conversation.

(** ** MongoDB collections *)

Class Document (D : Type) := {
  docId : D -> option ObjectId;
  withId : ObjectId -> D -> D;
  (** the document as the driver writes it *)
  serialize : D -> D
}.

#[export] Instance Conversation_Document : Document Conversation.t := {
  docId := Conversation._id;
  withId := fun i c =>
    Conversation.mk (Some i) (Conversation.userId c) (Conversation.phoneNumber c)
      (Conversation.title c) (Conversation.messages c) (Conversation.createdAt c)
      (Conversation.updatedAt c) (Conversation.lastMessageAt c);
  serialize := fun c =>
    Conversation.mk (Conversation._id c) (Conversation.userId c)
      (written (Conversation.phoneNumber c))
      (Conversation.title c) (Conversation.messages c) (Conversation.createdAt c)
      (Conversation.updatedAt c) (Conversation.lastMessageAt c)
}.

Record Collection (D : Type) := mkCollection {
  docs : list D;
  nextId : ObjectId
}.
Arguments mkCollection {D} docs nextId.
Arguments docs {D} c.
Arguments nextId {D} c.

(** The filter [{ _id: id }]. *)
Definition hasId {D} `{Document D} (id : ObjectId) (d : D) : bool :=
  match docId d with
  | Some i => (i =? id)%nat
  | None => false
  end.

(** [collection.findOne(filter)]: the first match in natural order. *)
Definition coll_findOne {D} (filter : D -> bool) : M (Collection D) (option D) :=
  fun c => (Ok (find filter (docs c)), c).

(** [collection.find(filter).toArray()]: a cursor without [sort] hands out
    the matching documents in an order of the database's choosing, [order]
    of the matches. *)
Definition coll_find {D} (order : list D -> list D) (filter : D -> bool)
  : M (Collection D) (list D) :=
  fun c => (Ok (order (List.filter filter (docs c))), c).

(** [collection.insertOne(doc)]: a document without [_id] receives the next
    generated one; an [_id] already present in the collection is a duplicate
    key error; what is stored is the document as the driver writes it. *)
Definition coll_insertOne {D} `{Document D} (doc : D) : M (Collection D) ObjectId :=
  fun c =>
    let id := match docId doc with Some i => i | None => nextId c end in
    if existsb (hasId id) (docs c)
    then (Throw "E11000 duplicate key error", mkCollection (docs c) (S (nextId c)))
    else (Ok id, mkCollection (docs c ++ [serialize (withId id doc)])
                              (S (nextId c))).

(** Rewrites the first document that matches; the result is its new value. *)
Fixpoint updateFirst {D} (filter : D -> bool) (f : D -> D) (l : list D)
  : option D * list D :=
  match l with
  | [] => (None, [])
  | d :: r =>
      if filter d then (Some (f d), f d :: r)
      else let (o, r') := updateFirst filter f r in (o, d :: r')
  end.

(** [collection.findOneAndUpdate(filter, { $set }, { returnDocument: 'after' })]
    and [collection.updateOne(filter, { $set })]. *)
Definition coll_findOneAndUpdate {D} (filter : D -> bool) (set : D -> D)
  : M (Collection D) (option D) :=
  fun c => let (o, l) := updateFirst filter set (docs c) in
           (Ok o, mkCollection l (nextId c)).

Definition coll_updateOne {D} (filter : D -> bool) (set : D -> D)
  : M (Collection D) unit :=
  _ <- coll_findOneAndUpdate filter set ;; ret tt.

(** [docs.map((doc) => X.fromDocument(doc))], stopping at the first throw. *)
Fixpoint mapResult {A B} (f : A -> Result B) (l : list A) : Result (list B) :=
  match l with
  | [] => Ok []
  | a :: r =>
      match f a with
      | Throw e => Throw e
      | Ok b => match mapResult f r with
                | Throw e => Throw e
                | Ok bs => Ok (b :: bs)
                end
      end
  end.

Definition orElse {A} (o : option A) (d : A) : A :=
  match o with
  | Some a => a
  | None => d
  end.

(** [if (s)] on an optional string. *)
Definition truthy (s : option string) : bool :=
  match s with
  | Some EmptyString | None => false
  | Some _ => true
  end.

(** The filter [{ key: b }] on an optional string property. *)
Definition optString_eqb (a : Optional string) (b : string) : bool :=
  match a with
  | defined x => String.eqb x b
  | _ => false
  end.

(** ** repositories/ConversationRepository.ts

    Every method of the source wraps its body in a [try] whose handler logs
    and rethrows; the handler is the identity on the outcome and is left
    out. *)

Module ConversationRepository.

Definition Coll := Collection Conversation.t.

Definition findOne (filter : Conversation.t -> bool)
  : M Coll (option Conversation.t) :=
  doc <- coll_findOne filter ;;
  match doc with
  | Some d => c <- liftResult (Conversation.fromDocument d) ;; ret (Some c)
  | None => ret None
  end.

Definition findById (id : ObjectId) : M Coll (option Conversation.t) :=
  findOne (hasId id).

Definition findByPhoneNumber (phoneNumber : string)
  : M Coll (option Conversation.t) :=
  findOne (fun d => optString_eqb (Conversation.phoneNumber d) phoneNumber).

Definition create (conversation : Conversation.t) (now : Date)
  : M Coll Conversation.t :=
  let conversation := Conversation.updateTimestamp conversation now in
  insertedId <- coll_insertOne (Conversation.toDocument conversation) ;;
  ret (withId insertedId conversation).

(** The [$set] of [appendMessage]. *)
Definition setAppended (conversation d : Conversation.t) : Conversation.t :=
  Conversation.mk (Conversation._id d) (Conversation.userId d)
    (Conversation.phoneNumber d) (Conversation.title conversation)
    (Conversation.messages conversation) (Conversation.createdAt d)
    (Conversation.updatedAt conversation) (Conversation.lastMessageAt conversation).

Definition appendMessage (id : ObjectId) (r : Role) (text : string) (now : Date)
  : M Coll (option Conversation.t) :=
  found <- findById id ;;
  match found with
  | None => ret None
  | Some conversation =>
      let conversation := Conversation.addMessage conversation r text now in
      coll_updateOne (hasId id) (setAppended conversation) ;;;
      ret (Some conversation)
  end.

Definition getOrCreateForUser (userId : ObjectId) (phoneNumber : option string)
  (now : Date) : M Coll Conversation.t :=
  existing <- (if truthy phoneNumber
               then findByPhoneNumber (orElse phoneNumber EmptyString)
               else ret None) ;;
  match existing with
  | Some c => ret c
  | None =>
      conversation <- liftResult (Conversation.new
        (Conversation.mk None userId (ofOption phoneNumber) "New Conversation" []
           now now now)) ;;
      create conversation now
  end.

End ConversationRepository.

(** ** Statuses and tool arguments *)

Inductive ReminderStatus := PENDING | SENT | CANCELLED.

Definition ReminderStatus_eqb (a b : ReminderStatus) : bool :=
  match a, b with
  | PENDING, PENDING | SENT, SENT | CANCELLED, CANCELLED => true
  | _, _ => false
  end.

(** The value of enum member, as stored and printed. *)
Definition ReminderStatus_value (s : ReminderStatus) : string :=
  match s with
  | PENDING => "pending"
  | SENT => "sent"
  | CANCELLED => "cancelled"
  end.

(** A JSON value as a tool schema sees it: a string, or anything else. *)
Inductive JsonValue :=
| JString (s : string)
| JOther.

(** The [args] object of a tool call, read at the keys the four schemas
    name; [None] is an absent key. *)
Record ToolArgs := mkArgs {
  arg_reminderId : option JsonValue;
  arg_title : option JsonValue;
  arg_description : option JsonValue;
  arg_scheduledFor : option JsonValue;
  arg_status : option JsonValue
}.

(** ** models/Reminder.ts *)

Module Reminder.

Record t := mk {
  _id : option ObjectId;
  userId : ObjectId;
  conversationId : ObjectId;
  phoneNumber : string;
  title : string;
  description : Optional string;
  scheduledFor : Date;
  status : ReminderStatus;
  createdAt : Date;
  updatedAt : Date
}.

(** [ReminderSchema.parse(this)] on a typed value; [.optional()] accepts an
    absent description and refuses [null]. *)
Definition schemaOk (r : t) : bool :=
  isE164 (phoneNumber r)
  && (1 <=? String.length (title r))%nat && (String.length (title r) <=? 200)%nat
  && match description r with
     | defined d => (String.length d <=? 1000)%nat
     | undefined => true
     | null => false
     end.

Definition validate (r : t) : Result unit :=
  if schemaOk r then Ok tt else Throw "ZodError".

Definition new (data : t) : Result t :=
  match validate data with
  | Ok _ => Ok data
  | Throw e => Throw e
  end.

Definition fromDocument (doc : t) : Result t := new doc.
Definition toDocument (r : t) : t := r.

Definition updateTimestamp (r : t) (now : Date) : t :=
  mk (_id r) (userId r) (conversationId r) (phoneNumber r) (title r)
     (description r) (scheduledFor r) (status r) (createdAt r) now.

Definition withStatus (s : ReminderStatus) (r : t) : t :=
  mk (_id r) (userId r) (conversationId r) (phoneNumber r) (title r)
     (description r) (scheduledFor r) s (createdAt r) (updatedAt r).

Definition markAsSent (r : t) (now : Date) : t :=
  updateTimestamp (withStatus SENT r) now.

Definition cancel (r : t) (now : Date) : t :=
  updateTimestamp (withStatus CANCELLED r) now.

Definition isPending (r : t) : bool := ReminderStatus_eqb (status r) PENDING.
Definition isSent (r : t) : bool := ReminderStatus_eqb (status r) SENT.
Definition isCancelled (r : t) : bool := ReminderStatus_eqb (status r) CANCELLED.

Definition isDue (r : t) (currentTime : Date) : bool :=
  isPending r && (scheduledFor r <=? currentTime)%Z.

End Reminder.

#[export] Instance Reminder_Document : Document Reminder.t := {
  docId := Reminder._id;
  withId := fun i r =>
    Reminder.mk (Some i) (Reminder.userId r) (Reminder.conversationId r)
      (Reminder.phoneNumber r) (Reminder.title r) (Reminder.description r)
      (Reminder.scheduledFor r) (Reminder.status r) (Reminder.createdAt r)
      (Reminder.updatedAt r);
  serialize := fun r =>
    Reminder.mk (Reminder._id r) (Reminder.userId r) (Reminder.conversationId r)
      (Reminder.phoneNumber r) (Reminder.title r) (written (Reminder.description r))
      (Reminder.scheduledFor r) (Reminder.status r) (Reminder.createdAt r)
      (Reminder.updatedAt r)
}.

(** [Partial<Reminder>], at the fields the callers set. *)
Record PartialReminder := mkPartial {
  set_title : option string;
  set_description : option string;
  set_scheduledFor : option Date;
  set_status : option ReminderStatus
}.

(** [{ $set: { ...data, updatedAt } }] applied to a document. *)
Definition applySet (data : PartialReminder) (now : Date) (d : Reminder.t)
  : Reminder.t :=
  Reminder.mk (Reminder._id d) (Reminder.userId d) (Reminder.conversationId d)
    (Reminder.phoneNumber d)
    (orElse (set_title data) (Reminder.title d))
    (match set_description data with
     | Some x => defined x
     | None => Reminder.description d
     end)
    (orElse (set_scheduledFor data) (Reminder.scheduledFor d))
    (orElse (set_status data) (Reminder.status d))
    (Reminder.createdAt d) now.

(** Stable insertion by ascending [scheduledFor]: [.sort({ scheduledFor: 1 })]. *)
Fixpoint insertByDate (r : Reminder.t) (l : list Reminder.t) : list Reminder.t :=
  match l with
  | [] => [r]
  | x :: rest =>
      if (Reminder.scheduledFor r <? Reminder.scheduledFor x)%Z
      then r :: x :: rest else x :: insertByDate r rest
  end.

Definition sortByDate (l : list Reminder.t) : list Reminder.t :=
  fold_left (fun acc r => insertByDate r acc) l [].

(** ** The platform

    Pure functions of the JavaScript runtime, of the libraries the sources
    call and of the database, taken as an interface. *)

Class Platform := {
  (** [new Date(s).getTime()], [None] when it is [NaN] *)
  parseDate : string -> option Date;
  (** [new ObjectId(s)], [None] when the constructor throws *)
  parseObjectId : string -> option ObjectId;
  toISOString : Date -> string;
  toLocaleString : Date -> string;
  (** the JSON text of streamed tool-call arguments, [None] when malformed *)
  parseArgs : string -> option ToolArgs;
  (** the template literal of [getSystemMessage], as a function of the
      ISO rendering of the current instant *)
  systemPolicy : string -> string;
  (** the order in which a cursor on the reminders hands out the documents
      that match, given in insertion order: a cursor without [sort]
      promises none, and the collection is indexed on status and date *)
  cursorOrder : list Reminder.t -> list Reminder.t;
  cursorOrder_perm : forall l, Permutation (cursorOrder l) l
}.

(** ** repositories/ReminderRepository.ts *)

Module ReminderRepository.

Definition Coll := Collection Reminder.t.

Definition findOne (filter : Reminder.t -> bool) : M Coll (option Reminder.t) :=
  doc <- coll_findOne filter ;;
  match doc with
  | Some d => r <- liftResult (Reminder.fromDocument d) ;; ret (Some r)
  | None => ret None
  end.

Definition findById (id : ObjectId) : M Coll (option Reminder.t) :=
  findOne (hasId id).

Definition findMany `{Platform} (filter : Reminder.t -> bool)
  : M Coll (list Reminder.t) :=
  found <- coll_find cursorOrder filter ;;
  liftResult (mapResult Reminder.fromDocument (sortByDate found)).

Definition create (reminder : Reminder.t) (now : Date) : M Coll Reminder.t :=
  let reminder := Reminder.updateTimestamp reminder now in
  insertedId <- coll_insertOne (Reminder.toDocument reminder) ;;
  ret (withId insertedId reminder).

Definition update (id : ObjectId) (data : PartialReminder) (now : Date)
  : M Coll (option Reminder.t) :=
  result <- coll_findOneAndUpdate (hasId id) (applySet data now) ;;
  match result with
  | None => ret None
  | Some d => r <- liftResult (Reminder.fromDocument d) ;; ret (Some r)
  end.

Definition findByUserId `{Platform} (userId : ObjectId)
  : M Coll (list Reminder.t) :=
  findMany (fun d => (Reminder.userId d =? userId)%nat).

Definition findDueReminders `{Platform} (currentTime : Date)
  : M Coll (list Reminder.t) :=
  found <- coll_find cursorOrder (fun d =>
             ReminderStatus_eqb (Reminder.status d) PENDING
             && (Reminder.scheduledFor d <=? currentTime)%Z) ;;
  liftResult (mapResult Reminder.fromDocument found).

Definition updateStatus (id : ObjectId) (s : ReminderStatus) (now : Date)
  : M Coll (option Reminder.t) :=
  update id (mkPartial None None None (Some s)) now.

Definition markAsSent (id : ObjectId) (now : Date) : M Coll (option Reminder.t) :=
  updateStatus id SENT now.

Definition cancelReminder (id : ObjectId) (now : Date) : M Coll (option Reminder.t) :=
  updateStatus id CANCELLED now.

End ReminderRepository.

(** ** utils/DateValidator.ts *)

Module DateValidator.

Definition validateISODate `{Platform} (dateString : string) : Result Date :=
  match parseDate dateString with
  | Some date => Ok date
  | None => Throw ("Invalid ISO date string: " ++ dateString)
  end.

Definition isFutureDate (date currentTime : Date) : bool :=
  (currentTime <? date)%Z.

Definition validateFutureISODate `{Platform} (dateString : string)
  (currentTime : Date) : Result Date :=
  match validateISODate dateString with
  | Throw e => Throw e
  | Ok date =>
      if negb (isFutureDate date currentTime)
      then Throw "Reminder date must be in the future"
      else Ok date
  end.

(** [z.string().transform(...)]: a value that is not a string, or on which
    the validator throws, is a parse issue. *)
Definition futureISODateSchema `{Platform} (now : Date) (v : option JsonValue)
  : Result Date :=
  match v with
  | Some (JString val) => validateFutureISODate val now
  | _ => Throw "Expected string"
  end.

End DateValidator.

(** ** zod schemas of the tool arguments *)

Definition zString (v : option JsonValue) : Result string :=
  match v with
  | Some (JString s) => Ok s
  | _ => Throw "Expected string"
  end.

(** [z.string().min(lo).max(hi)] *)
Definition zStringBetween (lo hi : nat) (v : option JsonValue) : Result string :=
  match zString v with
  | Ok s =>
      if (lo <=? String.length s)%nat && (String.length s <=? hi)%nat
      then Ok s else Throw "String length out of bounds"
  | Throw e => Throw e
  end.

(** [schema.optional()] *)
Definition zOptional {A} (schema : option JsonValue -> Result A)
  (v : option JsonValue) : Result (option A) :=
  match v with
  | None => Ok None
  | Some _ => match schema v with
              | Ok a => Ok (Some a)
              | Throw e => Throw e
              end
  end.

(** [z.enum(['pending', 'sent', 'cancelled'])] *)
Definition zStatus (v : option JsonValue) : Result ReminderStatus :=
  match zString v with
  | Ok s =>
      if String.eqb s "pending" then Ok PENDING
      else if String.eqb s "sent" then Ok SENT
      else if String.eqb s "cancelled" then Ok CANCELLED
      else Throw "Invalid enum value"
  | Throw e => Throw e
  end.

(** ** agent/tools/ReminderTools.ts *)

Record ReminderSummary := mkSummary {
  sum_id : option ObjectId;
  sum_title : string;
  sum_description : Optional string;
  sum_scheduledFor : string;
  sum_status : ReminderStatus;
  sum_createdAt : option string
}.

(** The object handed to [JSON.stringify] by a tool. *)
Inductive ToolJson :=
| JsonFailure (error : string)
| JsonCreated (message : string) (reminderId : option ObjectId) (scheduledFor : string)
| JsonList (message : string) (reminders : list ReminderSummary)
| JsonUpdated (message : string) (reminder : ReminderSummary)
| JsonDeleted (message : string).

Definition success (j : ToolJson) : bool :=
  match j with
  | JsonFailure _ => false
  | _ => true
  end.

(** A [DynamicStructuredTool]: [invoke] parses the arguments with the
    schema, throws when they do not match, and calls [func] otherwise. *)
Record DynamicStructuredTool := mkTool {
  name : string;
  Input : Type;
  schema : Date -> ToolArgs -> Result Input;
  func : Input -> Date -> M (Collection Reminder.t) ToolJson
}.

Definition invoke (tool : DynamicStructuredTool) (args : ToolArgs) (now : Date)
  : M (Collection Reminder.t) ToolJson :=
  match schema tool now args with
  | Throw _ => throw "Received tool input did not match expected schema"
  | Ok input => func tool input now
  end.

Definition natToString (n : nat) : string :=
  DecimalString.NilEmpty.string_of_uint (Nat.to_uint n).

Module ReminderTools.

Record CreateInput := mkCreateInput {
  c_title : string;
  c_description : option string;
  c_scheduledFor : Date
}.

Record ListInput := mkListInput { l_status : option ReminderStatus }.

Record UpdateInput := mkUpdateInput {
  u_reminderId : string;
  u_title : option string;
  u_description : option string;
  u_scheduledFor : option Date
}.

Record DeleteInput := mkDeleteInput { d_reminderId : string }.

Definition createSchema `{Platform} (now : Date) (args : ToolArgs)
  : Result CreateInput :=
  match zStringBetween 1 200 (arg_title args),
        zOptional (zStringBetween 0 1000) (arg_description args),
        DateValidator.futureISODateSchema now (arg_scheduledFor args) with
  | Ok t, Ok d, Ok s => Ok (mkCreateInput t d s)
  | Throw e, _, _ | _, Throw e, _ | _, _, Throw e => Throw e
  end.

Definition createFunc `{Platform} (userId conversationId : ObjectId)
  (phoneNumber : string) (input : CreateInput) (now : Date)
  : M (Collection Reminder.t) ToolJson :=
  tryCatch
    (reminder <- liftResult (Reminder.new
        (Reminder.mk None userId conversationId phoneNumber (c_title input)
           (ofOption (c_description input)) (c_scheduledFor input) PENDING
           now now)) ;;
     created <- ReminderRepository.create reminder now ;;
     ret (JsonCreated
            ("Reminder created successfully! I'll send you a reminder " ++ dq
             ++ c_title input ++ dq ++ " on "
             ++ toLocaleString (c_scheduledFor input) ++ ".")
            (Reminder._id created)
            (toISOString (c_scheduledFor input))))
    (fun error => ret (JsonFailure error)).

Definition createReminderTool `{Platform} (userId conversationId : ObjectId)
  (phoneNumber : string) : DynamicStructuredTool :=
  mkTool "create_reminder" CreateInput createSchema
         (createFunc userId conversationId phoneNumber).

Definition listSchema (now : Date) (args : ToolArgs) : Result ListInput :=
  match zOptional zStatus (arg_status args) with
  | Ok s => Ok (mkListInput s)
  | Throw e => Throw e
  end.

Definition summary `{Platform} (r : Reminder.t) : ReminderSummary :=
  mkSummary (Reminder._id r) (Reminder.title r) (Reminder.description r)
    (toISOString (Reminder.scheduledFor r)) (Reminder.status r)
    (Some (toISOString (Reminder.createdAt r))).

Definition listFunc `{Platform} (userId : ObjectId) (input : ListInput)
  (now : Date) : M (Collection Reminder.t) ToolJson :=
  tryCatch
    (all <- ReminderRepository.findByUserId userId ;;
     let reminders :=
       match l_status input with
       | Some s => filter (fun r => ReminderStatus_eqb (Reminder.status r) s) all
       | None => all
       end in
     if (List.length reminders =? 0)%nat
     then ret (JsonList
                 (match l_status input with
                  | Some s => "You don't have any " ++ ReminderStatus_value s
                              ++ " reminders."
                  | None => "You don't have any reminders yet."
                  end) [])
     else ret (JsonList
                 ("Found " ++ natToString (List.length reminders) ++ " reminder(s).")
                 (map summary reminders)))
    (fun error => ret (JsonFailure error)).

Definition listRemindersTool `{Platform} (userId : ObjectId)
  : DynamicStructuredTool :=
  mkTool "list_reminders" ListInput listSchema (listFunc userId).

Definition updateSchema `{Platform} (now : Date) (args : ToolArgs)
  : Result UpdateInput :=
  match zString (arg_reminderId args),
        zOptional (zStringBetween 1 200) (arg_title args),
        zOptional (zStringBetween 0 1000) (arg_description args),
        zOptional (DateValidator.futureISODateSchema now) (arg_scheduledFor args) with
  | Ok i, Ok t, Ok d, Ok s => Ok (mkUpdateInput i t d s)
  | Throw e, _, _, _ | _, Throw e, _, _ | _, _, Throw e, _ | _, _, _, Throw e =>
      Throw e
  end.

(** [new ObjectId(reminderId)] *)
Definition newObjectId `{Platform} {S} (s : string) : M S ObjectId :=
  match parseObjectId s with
  | Some id => ret id
  | None => throw "BSONError"
  end.

(** [if (title) updateData.title = title] *)
Definition ifTruthy (s : option string) : option string :=
  if truthy s then s else None.

Definition updateFunc `{Platform} (userId : ObjectId) (input : UpdateInput)
  (now : Date) : M (Collection Reminder.t) ToolJson :=
  tryCatch
    (reminderObjectId <- newObjectId (u_reminderId input) ;;
     existing <- ReminderRepository.findById reminderObjectId ;;
     match existing with
     | None => ret (JsonFailure "Reminder not found.")
     | Some existing =>
         if negb (Reminder.userId existing =? userId)%nat
         then ret (JsonFailure "You do not have permission to update this reminder.")
         else
           let updateData :=
             mkPartial (ifTruthy (u_title input)) (u_description input)
                       (u_scheduledFor input) None in
           updated <- ReminderRepository.update reminderObjectId updateData now ;;
           match updated with
           | None => ret (JsonFailure "Failed to update reminder.")
           | Some updated =>
               ret (JsonUpdated "Reminder updated successfully!"
                      (mkSummary (Reminder._id updated) (Reminder.title updated)
                         (Reminder.description updated)
                         (toISOString (Reminder.scheduledFor updated))
                         (Reminder.status updated) None))
           end
     end)
    (fun error => ret (JsonFailure error)).

Definition updateReminderTool `{Platform} (userId : ObjectId)
  : DynamicStructuredTool :=
  mkTool "update_reminder" UpdateInput updateSchema (updateFunc userId).

Definition deleteSchema (now : Date) (args : ToolArgs) : Result DeleteInput :=
  match zString (arg_reminderId args) with
  | Ok i => Ok (mkDeleteInput i)
  | Throw e => Throw e
  end.

Definition deleteFunc `{Platform} (userId : ObjectId) (input : DeleteInput)
  (now : Date) : M (Collection Reminder.t) ToolJson :=
  tryCatch
    (reminderObjectId <- newObjectId (d_reminderId input) ;;
     existing <- ReminderRepository.findById reminderObjectId ;;
     match existing with
     | None => ret (JsonFailure "Reminder not found.")
     | Some existing =>
         if negb (Reminder.userId existing =? userId)%nat
         then ret (JsonFailure "You do not have permission to delete this reminder.")
         else
           ReminderRepository.cancelReminder reminderObjectId now ;;;
           ret (JsonDeleted ("Reminder " ++ dq ++ Reminder.title existing ++ dq
                             ++ " has been cancelled."))
     end)
    (fun error => ret (JsonFailure error)).

Definition deleteReminderTool `{Platform} (userId : ObjectId)
  : DynamicStructuredTool :=
  mkTool "delete_reminder" DeleteInput deleteSchema (deleteFunc userId).

Definition getAllTools `{Platform} (userId conversationId : ObjectId)
  (phoneNumber : string) : list DynamicStructuredTool :=
  [ createReminderTool userId conversationId phoneNumber;
    listRemindersTool userId;
    updateReminderTool userId;
    deleteReminderTool userId ].

End ReminderTools.

(** ** Messages exchanged with the Completion Client *)

Record ToolCall := mkToolCall {
  tc_name : string;
  tc_args : ToolArgs;
  tc_id : option string
}.

(** What a tool call leaves in the prompt: [JSON.stringify] of the tool's
    object, or the text [Error: message] of the loop's handler. *)
Inductive ToolOutput :=
| OutJson (j : ToolJson)
| OutError (message : string).

Inductive BaseMessage :=
| SystemMessage (text : string)
| HumanMessage (text : string)
| AIMessage (text : string) (tool_calls : list ToolCall)
| ToolMessage (tool_call_id : option string) (output : ToolOutput).

Record ToolCallChunk := mkToolCallChunk {
  tcc_name : option string;
  tcc_args : option string;
  tcc_id : option string;
  tcc_index : option nat
}.

Record AIMessageChunk := mkChunk {
  chunk_content : string;
  tool_call_chunks : list ToolCallChunk
}.

Definition mergeText (a b : option string) : option string :=
  match a, b with
  | Some x, Some y => Some (x ++ y)%string
  | Some x, None => Some x
  | None, y => y
  end.

Definition sameIndex (a b : ToolCallChunk) : bool :=
  match tcc_index a, tcc_index b with
  | Some i, Some j => (i =? j)%nat
  | _, _ => false
  end.

(** Modelled from the spec: the merge of the Completion Client's library
    ([AIMessageChunk.concat]) is not part of the sources; tool-call deltas
    are merged by call index, concatenating the partial name, id and
    argument fragments, and a delta with a new index opens a new call. *)
Fixpoint mergeToolCallChunk (acc : list ToolCallChunk) (c : ToolCallChunk)
  : list ToolCallChunk :=
  match acc with
  | [] => [c]
  | a :: rest =>
      if sameIndex a c
      then mkToolCallChunk (mergeText (tcc_name a) (tcc_name c))
             (mergeText (tcc_args a) (tcc_args c))
             (mergeText (tcc_id a) (tcc_id c)) (tcc_index a) :: rest
      else a :: mergeToolCallChunk rest c
  end.

(** [gathered.concat(chunk)] *)
Definition concat (gathered chunk : AIMessageChunk) : AIMessageChunk :=
  mkChunk (chunk_content gathered ++ chunk_content chunk)
          (fold_left mergeToolCallChunk (tool_call_chunks chunk)
                     (tool_call_chunks gathered)).

(** Modelled from the spec: [gathered.tool_calls], the accumulated deltas
    whose argument text is complete JSON, in the order proposed. *)
Definition tool_calls_of `{Platform} (g : AIMessageChunk) : list ToolCall :=
  flat_map (fun c =>
              match parseArgs (if truthy (tcc_args c)
                               then orElse (tcc_args c) EmptyString else "{}") with
              | Some a => [mkToolCall (orElse (tcc_name c) EmptyString) a (tcc_id c)]
              | None => []
              end)
           (tool_call_chunks g).

(** One answer of [llm.stream]: the chunks delivered, then a normal end or
    an error. *)
Record StreamOutcome := mkStream {
  chunks : list AIMessageChunk;
  streamError : option string
}.

(** The Completion Client.  The first argument is the number of completion
    calls already made, so that equal prompts may be answered differently. *)
Record CompletionClient := mkClient {
  llm_stream : nat -> list BaseMessage -> StreamOutcome;
  llm_invoke : nat -> list BaseMessage -> Result (string * list ToolCall)
}.

(** ** The world an operation runs in *)

Inductive AgentEvent :=
| conversation_id (data : ObjectId)
| token (data : string)
| tool_start (name : string) (input : ToolArgs)
| tool_end (name : string) (output : ToolOutput).

Record World := mkWorld {
  conversations : Collection Conversation.t;
  reminders : Collection Reminder.t;
  (** the value [new Date()] returns during the current operation *)
  clock : Date;
  (** the calls of [onEvent], oldest first *)
  events : list AgentEvent;
  (** the prompts sent to the Completion Client, oldest first *)
  llmCalls : list (list BaseMessage);
  (** the messages handed to the Notification Channel, oldest first *)
  smsAttempts : list (string * string)
}.

Definition onConversations {A} (m : M (Collection Conversation.t) A) : M World A :=
  fun w => let (r, c) := m (conversations w) in
           (r, mkWorld c (reminders w) (clock w) (events w) (llmCalls w)
                       (smsAttempts w)).

Definition onReminders {A} (m : M (Collection Reminder.t) A) : M World A :=
  fun w => let (r, c) := m (reminders w) in
           (r, mkWorld (conversations w) c (clock w) (events w) (llmCalls w)
                       (smsAttempts w)).

Definition newDate : M World Date := fun w => (Ok (clock w), w).

Definition onEvent (e : AgentEvent) : M World unit :=
  fun w => (Ok tt, mkWorld (conversations w) (reminders w) (clock w)
                           (events w ++ [e]) (llmCalls w) (smsAttempts w)).

Definition logCall (messages : list BaseMessage) : M World nat :=
  fun w => (Ok (List.length (llmCalls w)),
            mkWorld (conversations w) (reminders w) (clock w) (events w)
                    (llmCalls w ++ [messages]) (smsAttempts w)).

(** [for (const x of xs) body(x)] threading an accumulator. *)
Fixpoint forEach {S A B} (xs : list A) (body : B -> A -> M S B) (acc : B) : M S B :=
  match xs with
  | [] => ret acc
  | x :: rest => acc' <- body acc x ;; forEach rest body acc'
  end.

(** ** services/ReminderScheduler.ts *)

Module ReminderScheduler.

(** The bell emoji, as its UTF-8 bytes. *)
Definition bell : string :=
  String (ascii_of_nat 240) (String (ascii_of_nat 159)
    (String (ascii_of_nat 148) (String (ascii_of_nat 148) EmptyString))).

Definition nl : string := String newline EmptyString.

Definition formatReminderMessage `{Platform} (reminder : Reminder.t) : string :=
  let message := (bell ++ " Reminder: " ++ Reminder.title reminder)%string in
  let message :=
    match Reminder.description reminder with
    | defined (String c s) => (message ++ nl ++ nl ++ String c s)%string
    | _ => message
    end in
  (message ++ nl ++ nl ++ "Scheduled for: "
           ++ toLocaleString (Reminder.scheduledFor reminder))%string.

(** [twilioService.sendSMS(to, message)]: [twilio k to message] tells whether
    the channel accepts the [k]-th message handed to it. *)
Definition sendSMS (twilio : nat -> string -> string -> bool)
  (to message : string) : M World unit :=
  fun w =>
    let w' := mkWorld (conversations w) (reminders w) (clock w) (events w)
                      (llmCalls w) (smsAttempts w ++ [(to, message)]) in
    if twilio (List.length (smsAttempts w)) to message
    then (Ok tt, w') else (Throw "Twilio request failed", w').

Definition sendReminder `{Platform} (twilio : nat -> string -> string -> bool)
  (reminder : Reminder.t) : M World unit :=
  tryCatch
    (let message := formatReminderMessage reminder in
     sendSMS twilio (Reminder.phoneNumber reminder) message ;;;
     match Reminder._id reminder with
     | Some id =>
         now <- newDate ;;
         onReminders (ReminderRepository.markAsSent id now) ;;; ret tt
     | None => ret tt
     end)
    (fun error => throw error).

Definition checkAndSendReminders `{Platform}
  (twilio : nat -> string -> string -> bool) : M World unit :=
  tryCatch
    (now <- newDate ;;
     dueReminders <- onReminders (ReminderRepository.findDueReminders now) ;;
     if (List.length dueReminders =? 0)%nat then ret tt
     else
       forEach dueReminders
         (fun _ reminder =>
            tryCatch (sendReminder twilio reminder) (fun _ => ret tt))
         tt)
    (fun _ => ret tt).

End ReminderScheduler.

(** ** agent/AgentService.ts *)

Record AgentResponse := mkResponse {
  response : string;
  conversationId : ObjectId
}.

Module AgentService.

Definition maxIterations : nat := 5.

Definition getSystemMessage `{Platform} : M World BaseMessage :=
  now <- newDate ;;
  ret (SystemMessage (systemPolicy (toISOString now))).

Definition toBaseMessage (msg : Role * string) : BaseMessage :=
  match fst msg with
  | user => HumanMessage (snd msg)
  | assistant => AIMessage (snd msg) []
  | system => SystemMessage (snd msg)
  end.

(** The first half of both entry points: the conversation named by
    [conversationId], or the one of the user's phone number. *)
Definition resolveConversation (userId : ObjectId) (phoneNumber : string)
  (conversationId : option ObjectId) : M World Conversation.t :=
  match conversationId with
  | Some id =>
      existing <- onConversations (ConversationRepository.findById id) ;;
      match existing with
      | None => throw "Conversation not found"
      | Some c => ret c
      end
  | None =>
      now <- newDate ;;
      onConversations
        (ConversationRepository.getOrCreateForUser userId (Some phoneNumber) now)
  end.

(** [conversation._id!] *)
Definition idOf (conversation : Conversation.t) : M World ObjectId :=
  match Conversation._id conversation with
  | Some id => ret id
  | None => throw "TypeError"
  end.

Definition appendMessage (id : ObjectId) (r : Role) (text : string)
  : M World unit :=
  now <- newDate ;;
  onConversations (ConversationRepository.appendMessage id r text now) ;;;
  ret tt.

(** The prompt of the first round, built from the [conversation] object the
    entry point holds. *)
Definition prepareMessages `{Platform} (conversation : Conversation.t)
  (message : string) : M World (list BaseMessage) :=
  systemMessage <- getSystemMessage ;;
  let history := Conversation.getFormattedHistory conversation in
  ret ([systemMessage] ++ map toBaseMessage (removelast history)
         ++ [HumanMessage message]).

Definition findTool (tools : list DynamicStructuredTool) (n : string)
  : option DynamicStructuredTool :=
  find (fun t => String.eqb (name t) n) tools.

Definition emitIf (emit : bool) (e : AgentEvent) : M World unit :=
  if emit then onEvent e else ret tt.

(** The body of [for (const toolCall of tool_calls)]; [emit] is set in the
    streaming loop, which reports [tool_start] and [tool_end]. *)
Definition dispatchToolCall (emit : bool) (tools : list DynamicStructuredTool)
  (messages : list BaseMessage) (toolCall : ToolCall)
  : M World (list BaseMessage) :=
  match findTool tools (tc_name toolCall) with
  | None => ret messages
  | Some tool =>
      emitIf emit (tool_start (tc_name toolCall) (tc_args toolCall)) ;;;
      now <- newDate ;;
      output <- tryCatch
                  (j <- onReminders (invoke tool (tc_args toolCall) now) ;;
                   ret (OutJson j))
                  (fun error => ret (OutError error)) ;;
      emitIf emit (tool_end (tc_name toolCall) output) ;;;
      ret (messages ++ [ToolMessage (tc_id toolCall) output])
  end.

Definition nonEmpty (s : string) : bool :=
  match s with
  | EmptyString => false
  | _ => true
  end.

(** The body of [for await (const chunk of stream)]: the state is
    [(gathered, finalResponse)]. *)
Definition consumeChunk (st : option AIMessageChunk * string)
  (chunk : AIMessageChunk) : M World (option AIMessageChunk * string) :=
  let gathered :=
    match fst st with
    | Some g => concat g chunk
    | None => chunk
    end in
  if nonEmpty (chunk_content chunk)
  then
    (if (List.length (tool_call_chunks chunk) =? 0)%nat
     then onEvent (token (chunk_content chunk)) else ret tt) ;;;
    ret (Some gathered, (snd st ++ chunk_content chunk)%string)
  else ret (Some gathered, snd st).

(** [for (let i = 0; i < maxIterations; i++)] of [processMessageStream],
    with [n] iterations left. *)
Fixpoint streamLoop `{Platform} (llm : CompletionClient)
  (tools : list DynamicStructuredTool) (n : nat) (messages : list BaseMessage)
  (finalResponse : string) : M World string :=
  match n with
  | O => ret finalResponse
  | S n' =>
      k <- logCall messages ;;
      let outcome := llm_stream llm k messages in
      st <- forEach (chunks outcome) consumeChunk (None, finalResponse) ;;
      match streamError outcome with
      | Some e => throw e
      | None =>
          match fst st with
          | None => ret (snd st)
          | Some gathered =>
              let calls := tool_calls_of gathered in
              let messages := messages ++ [AIMessage (chunk_content gathered) calls] in
              if (0 <? List.length calls)%nat
              then
                messages' <- forEach calls (dispatchToolCall true tools) messages ;;
                streamLoop llm tools n' messages' EmptyString
              else ret (snd st)
          end
      end
  end.

Definition processMessageStream `{Platform} (llm : CompletionClient)
  (userId : ObjectId) (phoneNumber message : string)
  (conversationId : option ObjectId) : M World unit :=
  conversation <- resolveConversation userId phoneNumber conversationId ;;
  id <- idOf conversation ;;
  onEvent (conversation_id id) ;;;
  appendMessage id user message ;;;
  let tools := ReminderTools.getAllTools userId id phoneNumber in
  messages <- prepareMessages conversation message ;;
  finalResponse <- streamLoop llm tools maxIterations messages EmptyString ;;
  if nonEmpty finalResponse
  then appendMessage id assistant finalResponse
  else ret tt.

(** [for (let i = 0; i < maxIterations; i++)] of [processMessage]; the
    result is [finalResponse], which stays empty unless a round breaks. *)
Fixpoint invokeLoop (llm : CompletionClient)
  (tools : list DynamicStructuredTool) (n : nat) (messages : list BaseMessage)
  : M World string :=
  match n with
  | O => ret EmptyString
  | S n' =>
      k <- logCall messages ;;
      reply <- liftResult (llm_invoke llm k messages) ;;
      let messages := messages ++ [AIMessage (fst reply) (snd reply)] in
      if (0 <? List.length (snd reply))%nat
      then
        messages' <- forEach (snd reply) (dispatchToolCall false tools) messages ;;
        invokeLoop llm tools n' messages'
      else ret (fst reply)
  end.

Definition processMessage `{Platform} (llm : CompletionClient)
  (userId : ObjectId) (phoneNumber message : string)
  (conversationId : option ObjectId) : M World AgentResponse :=
  conversation <- resolveConversation userId phoneNumber conversationId ;;
  id <- idOf conversation ;;
  appendMessage id user message ;;;
  let tools := ReminderTools.getAllTools userId id phoneNumber in
  messages <- prepareMessages conversation message ;;
  finalResponse <- invokeLoop llm tools maxIterations messages ;;
  appendMessage id assistant finalResponse ;;;
  ret (mkResponse finalResponse id).

End AgentService.

(** ** A platform for the examples

    Dates and ids are printed and read in decimal, and the empty JSON
    object is the only argument text understood by [parseArgs]. *)

Definition readNat (s : string) : option nat :=
  match s with
  | EmptyString => None
  | _ => option_map Nat.of_uint (DecimalString.NilEmpty.uint_of_string s)
  end.

Definition showDate (d : Date) : string := natToString (Z.to_nat d).

Definition noArgs : ToolArgs := mkArgs None None None None None.

Definition examplePlatform : Platform := {|
  parseDate := fun s => option_map Z.of_nat (readNat s);
  parseObjectId := readNat;
  toISOString := showDate;
  toLocaleString := showDate;
  parseArgs := fun s => if String.eqb s "{}" then Some noArgs else None;
  systemPolicy := fun iso => ("Today is " ++ iso ++ ".")%string;
  cursorOrder := fun l => l;
  cursorOrder_perm := fun l => Permutation_refl l
|}.

(** [s.includes(c)] *)
Fixpoint contains (c : ascii) (s : string) : bool :=
  match s with
  | EmptyString => false
  | String x r => Ascii.eqb x c || contains c r
  end.


(** The [_id]s present in a list of documents. *)
Definition idsOf {D} `{Document D} (l : list D) : list ObjectId :=
  flat_map (fun d => match docId d with Some i => [i] | None => [] end) l.

(** ** Data of the examples *)

Definition emptyCollection {D} : Collection D := mkCollection [] 0%nat.

(** A pending reminder of user 7, due at instant 500. *)
Definition reminderOfUser7 : Reminder.t :=
  Reminder.mk (Some 1%nat) 7%nat 3%nat "+15551234567" "water the plants"
              (defined "on the balcony") 500%Z PENDING 100%Z 100%Z.

Definition remindersOfUser7 : Collection Reminder.t :=
  mkCollection [reminderOfUser7] 2%nat.

(** Arguments of [create_reminder] without description. *)
Definition argsCreate (title when : string) : ToolArgs :=
  mkArgs None (Some (JString title)) None (Some (JString when)) None.

(** Arguments of [create_reminder] with a description. *)
Definition argsDescribed (title description when : string) : ToolArgs :=
  mkArgs None (Some (JString title)) (Some (JString description))
         (Some (JString when)) None.

Definition argsId (reminderId : string) : ToolArgs :=
  mkArgs (Some (JString reminderId)) None None None None.

Definition argsReschedule (reminderId when : string) : ToolArgs :=
  mkArgs (Some (JString reminderId)) None None (Some (JString when)) None.

(** ** Operations on the reminder store

    The ways a stored reminder is written: the three mutating tools as the
    agent loop invokes them, and the scheduler. A tick awaits the channel
    and the store for each reminder it has read, and requests are served
    meanwhile: [scheduler_tick] is a tick during which nothing else runs,
    and [scheduler_send] is one iteration of a tick's loop, on a reminder
    the tick has read earlier, run after the operations served since. An
    operation runs at an instant, the value of the clock while it lasts. *)

Inductive Operation :=
| create_reminder (userId conversationId : ObjectId) (phoneNumber : string)
                  (args : ToolArgs)
| update_reminder (userId : ObjectId) (args : ToolArgs)
| delete_reminder (userId : ObjectId) (args : ToolArgs)
| scheduler_tick (twilio : nat -> string -> string -> bool)
| scheduler_send (twilio : nat -> string -> string -> bool) (reminder : Reminder.t).

Definition atInstant (now : Date) (w : World) : World :=
  mkWorld (conversations w) (reminders w) now (events w) (llmCalls w)
          (smsAttempts w).

Definition perform `{Platform} (now : Date) (op : Operation) (w : World) : World :=
  let w := atInstant now w in
  match op with
  | create_reminder u c p args =>
      snd (onReminders (invoke (ReminderTools.createReminderTool u c p) args now) w)
  | update_reminder u args =>
      snd (onReminders (invoke (ReminderTools.updateReminderTool u) args now) w)
  | delete_reminder u args =>
      snd (onReminders (invoke (ReminderTools.deleteReminderTool u) args now) w)
  | scheduler_tick twilio =>
      snd (ReminderScheduler.checkAndSendReminders twilio w)
  | scheduler_send twilio reminder =>
      snd (tryCatch (ReminderScheduler.sendReminder twilio reminder)
                    (fun _ => ret tt) w)
  end.

Definition run `{Platform} (ops : list (Date * Operation)) (w : World) : World :=
  fold_left (fun w x => perform (fst x) (snd x) w) ops w.

Definition statusIn (id : ObjectId) (l : list Reminder.t) : option ReminderStatus :=
  option_map Reminder.status (find (hasId id) l).

Definition statusOf (id : ObjectId) (w : World) : option ReminderStatus :=
  statusIn id (docs (reminders w)).

(** The reminder has been delivered or cancelled. *)
Definition settled (s : ReminderStatus) : bool :=
  negb (ReminderStatus_eqb s PENDING).

Definition emptyWorld : World :=
  mkWorld emptyCollection emptyCollection 0%Z [] [] [].

(** The filter of [findDueReminders]. *)
Definition due (currentTime : Date) (d : Reminder.t) : bool :=
  ReminderStatus_eqb (Reminder.status d) PENDING
  && (Reminder.scheduledFor d <=? currentTime)%Z.

(** What [findDueReminders] hands to the scheduler's loop: the pending
    reminders that have come due, in the order of the cursor. *)
Definition dueReminders `{Platform} (w : World) : list Reminder.t :=
  cursorOrder (filter (due (clock w)) (docs (reminders w))).

(** The [$set] of [markAsSent]. *)
Definition setSent (now : Date) : Reminder.t -> Reminder.t :=
  applySet (mkPartial None None None (Some SENT)) now.

(** The world after one iteration of the scheduler's loop, in closed form. *)
Definition afterSend `{Platform} (twilio : nat -> string -> string -> bool)
  (w : World) (reminder : Reminder.t) : World :=
  let message := ReminderScheduler.formatReminderMessage reminder in
  let accepted :=
    twilio (List.length (smsAttempts w)) (Reminder.phoneNumber reminder) message in
  mkWorld (conversations w)
    (match Reminder._id reminder with
     | Some id =>
         if accepted
         then mkCollection
                (snd (updateFirst (hasId id) (setSent (clock w)) (docs (reminders w))))
                (nextId (reminders w))
         else reminders w
     | None => reminders w
     end)
    (clock w) (events w) (llmCalls w)
    (smsAttempts w ++ [(Reminder.phoneNumber reminder, message)]).

(** [l'] is a later state of the documents [l]: ids stay distinct, no
    reminder disappears and none that was delivered or cancelled is
    pending again. *)
Definition advances (l l' : list Reminder.t) : Prop :=
  NoDup (idsOf l) ->
  NoDup (idsOf l')
  /\ forall id st,
       statusIn id l = Some st ->
       exists st', statusIn id l' = Some st'
                   /\ (settled st = true -> settled st' = true).

(** A channel that refuses the first message handed to it. *)
Definition failFirst : nat -> string -> string -> bool :=
  fun k _ _ => negb (k =? 0)%nat.

Definition alwaysAccept : nat -> string -> string -> bool :=
  fun _ _ _ => true.

(** Two due reminders, one not yet due and one already sent, at instant 1000. *)
Definition tickWorld : World :=
  mkWorld emptyCollection
    (mkCollection
       [ Reminder.mk (Some 1%nat) 7%nat 3%nat "+15551234567" "water the plants"
           (defined "on the balcony") 500%Z PENDING 100%Z 100%Z;
         Reminder.mk (Some 2%nat) 7%nat 3%nat "+15551234567" "call mom"
           (defined "at home") 1000%Z PENDING 100%Z 100%Z;
         Reminder.mk (Some 3%nat) 8%nat 4%nat "+15557654321" "buy milk"
           (defined EmptyString) 1001%Z PENDING 100%Z 100%Z;
         Reminder.mk (Some 4%nat) 8%nat 4%nat "+15557654321" "pay rent"
           (defined "by transfer") 200%Z SENT 100%Z 260%Z ]
       5%nat)
    1000%Z [] [] [].

(** A reminder is created, delivered by the scheduler, and then deleted by
    its owner. *)
Definition createThenTick : list (Date * Operation) :=
  [ (100%Z, create_reminder 7%nat 3%nat "+15551234567"
              (argsDescribed "water the plants" "on the balcony" "500"));
    (1000%Z, scheduler_tick alwaysAccept) ].

Definition thenDelete : list (Date * Operation) :=
  [ (1100%Z, delete_reminder 7%nat (argsId "0")) ].

(** ** Vocabulary of the agent-loop properties *)

(** The computation leaves the component [proj] of the world as it was,
    whether it returns or throws. *)
Definition preserves {X A} (proj : World -> X) (m : M World A) : Prop :=
  forall w, proj (snd (m w)) = proj w.

(** The computation issues at most [n] completion calls. *)
Definition calls {A} (n : nat) (m : M World A) : Prop :=
  forall w, exists l,
    llmCalls (snd (m w)) = llmCalls w ++ l /\ (List.length l <= n)%nat.

(** The messages of the conversation [id], as stored. *)
Definition storedMessages (id : ObjectId) (w : World) : option (list Message) :=
  option_map Conversation.messages (find (hasId id) (docs (conversations w))).

(** A client that answers every prompt with the same text and no tool call. *)
Definition answers (text : string) : CompletionClient :=
  mkClient (fun _ _ => mkStream [mkChunk text []] None)
           (fun _ _ => Ok (text, [])).

(** A client that proposes a call of [list_reminders] in every round. *)
Definition alwaysListing : CompletionClient :=
  mkClient
    (fun _ _ =>
       mkStream
         [mkChunk EmptyString
            [mkToolCallChunk (Some "list_reminders") (Some "{}") (Some "call_1")
               (Some 0%nat)]] None)
    (fun _ _ =>
       Ok (EmptyString, [mkToolCall "list_reminders" noArgs (Some "call_1")])).

(** Conversation 1 of user 7, holding one exchange, at instant 1000. *)
Definition chatWorld : World :=
  mkWorld
    (mkCollection
       [Conversation.mk (Some 1%nat) 7%nat (defined "+15551234567") "a"
          [mkMessage user "a" 10%Z; mkMessage assistant "b" 11%Z] 9%Z 11%Z 11%Z]
       2%nat)
    emptyCollection 1000%Z [] [] [].

(** ** services/TwilioService.ts: phone numbers of the webhook *)

Module TwilioService.

(** [s.replace(/\D/g, '')] *)
Fixpoint digitsOf (s : string) : string :=
  match s with
  | EmptyString => EmptyString
  | String c r => if isDigit c then String c (digitsOf r) else digitsOf r
  end.

(** [s.startsWith(p)] *)
Definition startsWith (s p : string) : bool := String.prefix p s.

Definition formatPhoneNumber (phoneNumber : string) : string :=
  let digits := digitsOf phoneNumber in
  if (String.length digits =? 11)%nat && startsWith digits "1"
  then ("+" ++ digits)%string
  else if (String.length digits =? 10)%nat
  then ("+1" ++ digits)%string
  else if startsWith phoneNumber "+"
  then phoneNumber
  else ("+" ++ digits)%string.

(** The fields of the webhook payload that are read. *)
Record WebhookBody := mkBody {
  From : option string;
  Body : option string
}.

(** [x || ''] on an optional string. *)
Definition orEmpty (s : option string) : string := orElse s EmptyString.

Record WebhookData := mkData {
  from : string;
  message : string
}.

Definition extractWebhookData (body : WebhookBody) : WebhookData :=
  mkData (formatPhoneNumber (orEmpty (From body))) (orEmpty (Body body)).

End TwilioService.

(** ** utils/PasswordHelper.ts *)

Module PasswordHelper.

Definition isUpper (c : ascii) : bool :=
  (65 <=? nat_of_ascii c)%nat && (nat_of_ascii c <=? 90)%nat.
Definition isLower (c : ascii) : bool :=
  (97 <=? nat_of_ascii c)%nat && (nat_of_ascii c <=? 122)%nat.

(** [/[...]/.test(s)] for a character class. *)
Definition test (class : ascii -> bool) (s : string) : bool :=
  existsb class (list_ascii_of_string s).

Record Strength := mkStrength {
  isValid : bool;
  errors : list string
}.

(** [if (cond) errors.push(message)] *)
Definition pushIf (cond : bool) (message : string) (errors : list string)
  : list string :=
  if cond then errors ++ [message] else errors.

Definition validateStrength (password : string) : Strength :=
  let errors := [] in
  let errors := pushIf (String.length password <? 8)%nat
                  "Password must be at least 8 characters long" errors in
  let errors := pushIf (negb (test isUpper password))
                  "Password must contain at least one uppercase letter" errors in
  let errors := pushIf (negb (test isLower password))
                  "Password must contain at least one lowercase letter" errors in
  let errors := pushIf (negb (test isDigit password))
                  "Password must contain at least one number" errors in
  mkStrength (List.length errors =? 0)%nat errors.

End PasswordHelper.

(** ** services/OTPService.ts *)

(** Functions of the runtime the verification-code service calls. *)
Class Host := {
  (** [s.toLowerCase()] *)
  toLowerCase : string -> string;
  (** the value of [d] after [d.setMinutes(d.getMinutes() + n)] *)
  plusMinutes : Date -> Z -> Date
}.

Module OTPService.

Record OTPData := mkOTP {
  otp : string;
  expiresAt : Date;
  attempts : nat
}.

(** The [Map<string, OTPData>], in insertion order. *)
Definition Store := list (string * OTPData).

Definition hasKey (k : string) (kv : string * OTPData) : bool :=
  String.eqb (fst kv) k.

(** [map.get(k)] *)
Definition map_get (k : string) (m : Store) : option OTPData :=
  option_map snd (find (hasKey k) m).

(** [map.set(k, v)]: a present key keeps its place. *)
Fixpoint map_set (k : string) (v : OTPData) (m : Store) : Store :=
  match m with
  | [] => [(k, v)]
  | kv :: r => if hasKey k kv then (k, v) :: r else kv :: map_set k v r
  end.

(** [map.delete(k)] *)
Definition map_delete (k : string) (m : Store) : Store :=
  filter (fun kv => negb (hasKey k kv)) m.

Definition OTP_EXPIRY_MINUTES : Z := 10.
Definition MAX_ATTEMPTS : nat := 5.

Definition storeOTP `{Host} (email code : string) (now : Date) (m : Store) : Store :=
  let expires := plusMinutes now OTP_EXPIRY_MINUTES in
  map_set (toLowerCase email) (mkOTP code expires 0) m.

Record Verification := mkVerification {
  valid : bool;
  error : option string
}.

Definition verifyOTP `{Host} (email code : string) (now : Date) (m : Store)
  : Verification * Store :=
  let emailKey := toLowerCase email in
  match map_get emailKey m with
  | None =>
      (mkVerification false
         (Some "No verification code found. Please request a new one."), m)
  | Some otpData =>
      if (expiresAt otpData <? now)%Z
      then (mkVerification false
              (Some "Verification code has expired. Please request a new one."),
            map_delete emailKey m)
      else if (MAX_ATTEMPTS <=? attempts otpData)%nat
      then (mkVerification false
              (Some "Too many failed attempts. Please request a new verification code."),
            map_delete emailKey m)
      else if negb (String.eqb (otp otpData) code)
      then
        let otpData :=
          mkOTP (otp otpData) (expiresAt otpData) (S (attempts otpData)) in
        (mkVerification false
           (Some ("Invalid verification code. "
                  ++ natToString (MAX_ATTEMPTS - attempts otpData)
                  ++ " attempts remaining.")%string),
         map_set emailKey otpData m)
      else (mkVerification true None, map_delete emailKey m)
  end.

Definition cleanupExpiredOTPs (now : Date) (m : Store) : Store :=
  filter (fun kv => negb (expiresAt (snd kv) <? now)%Z) m.

(** Verification attempts made one after the other, each a code and the
    instant it is tried. *)
Definition verifyEach `{Host} (email : string) (tries : list (string * Date))
  (m : Store) : Store :=
  fold_left (fun m try => snd (verifyOTP email (fst try) (snd try) m)) tries m.

End OTPService.

(** A host with ASCII lower-casing and a clock without time-zone shifts. *)
Definition lowerAscii (c : ascii) : ascii :=
  if PasswordHelper.isUpper c then ascii_of_nat (nat_of_ascii c + 32) else c.

Fixpoint lowerString (s : string) : string :=
  match s with
  | EmptyString => EmptyString
  | String c r => String (lowerAscii c) (lowerString r)
  end.

Definition exampleHost : Host := {|
  toLowerCase := lowerString;
  plusMinutes := fun d n => (d + 60000 * n)%Z
|}.

(** ** Vocabulary of the store properties *)



(** The reminders that do not belong to [userId], in store order. *)
Definition othersOf (userId : ObjectId) (l : list Reminder.t) : list Reminder.t :=
  filter (fun r => negb (Reminder.userId r =? userId)%nat) l.

(** A store the model can read in full: every document has an [_id], the
    ids are distinct, and every document satisfies the reminder schema. *)
Definition wellFormed (l : list Reminder.t) : Prop :=
  NoDup (idsOf l)
  /\ Forall (fun r => Reminder._id r <> None) l
  /\ Forall (fun r => Reminder.schemaOk r = true) l.

(** The events of the agent loop: tokens, and tool calls reported by a
    [tool_start] directly followed by the [tool_end] of the same tool. *)
Inductive loopEvents : list AgentEvent -> Prop :=
| loop_done : loopEvents []
| loop_token (text : string) (rest : list AgentEvent) :
    loopEvents rest -> loopEvents (token text :: rest)
| loop_tool (name0 : string) (input : ToolArgs) (output : ToolOutput)
    (rest : list AgentEvent) :
    loopEvents rest ->
    loopEvents (tool_start name0 input :: tool_end name0 output :: rest).

(** The computation reports events of the agent loop, and nothing else. *)
Definition emits {A} (m : M World A) : Prop :=
  forall w, exists l, events (snd (m w)) = events w ++ l /\ loopEvents l.

(** The reminders of the other users, in a world. *)
Definition othersIn (userId : ObjectId) (w : World) : list Reminder.t :=
  othersOf userId (docs (reminders w)).

(** The reminders a call of [list_reminders] reports: those of the user,
    with the requested status when one is given. *)
Definition listed (userId : ObjectId) (status : option ReminderStatus)
  (r : Reminder.t) : bool :=
  (Reminder.userId r =? userId)%nat
  && match status with
     | Some s => ReminderStatus_eqb (Reminder.status r) s
     | None => true
     end.

(** The operation, when it is a [create_reminder], passes a description. *)
Definition describes (op : Operation) : Prop :=
  match op with
  | create_reminder _ _ _ args => arg_description args <> None
  | _ => True
  end.

(** [a] is scheduled no later than [b]. *)
Definition notAfter (a b : Reminder.t) : Prop :=
  (Reminder.scheduledFor a <= Reminder.scheduledFor b)%Z.

(** A document the model can read. *)
Definition sound (r : Reminder.t) : Prop :=
  Reminder._id r <> None /\ Reminder.schemaOk r = true.



(** ** services/ReminderScheduler.ts: start and stop

    The fields [cronJob] and [isRunning] of the scheduler, together with
    the tasks of the cron library: the handles [cron.schedule] has
    returned, oldest first, and the handles on which [stop] was called. *)

Module SchedulerControl.

Record State := mkState {
  cronJob : option nat;
  isRunning : bool;
  scheduled : list nat;
  stopped : list nat
}.

Definition initial : State := mkState None false [] [].

Definition start (s : State) : State :=
  if isRunning s then s
  else
    let job := List.length (scheduled s) in
    mkState (Some job) true (scheduled s ++ [job]) (stopped s).

Definition stop (s : State) : State :=
  match isRunning s, cronJob s with
  | true, Some job => mkState None false (scheduled s) (stopped s ++ [job])
  | _, _ => s
  end.

Inductive Call := Start | Stop.

Definition call (s : State) (c : Call) : State :=
  match c with
  | Start => start s
  | Stop => stop s
  end.

(** The tasks that fire: scheduled and not stopped. *)
Definition live (s : State) : list nat :=
  filter (fun job => negb (existsb (Nat.eqb job) (stopped s))) (scheduled s).

End SchedulerControl.

(** ** Vocabulary of the tool properties *)

(** The arguments carry [title], a string of 1 to 200 characters. *)
Definition titleAccepted (args : ToolArgs) (title : string) : Prop :=
  arg_title args = Some (JString title)
  /\ (1 <= String.length title <= 200)%nat.

(** The arguments carry no description, or [d], a string of at most 1000
    characters. *)
Definition descriptionAccepted (args : ToolArgs) (description : option string)
  : Prop :=
  match description with
  | None => arg_description args = None
  | Some d => arg_description args = Some (JString d)
              /\ (String.length d <= 1000)%nat
  end.

(** The description of a reminder as [create] stores it. *)
Definition storedDescription (description : option string) : Optional string :=
  match description with
  | Some d => defined d
  | None => null
  end.

(** * Properties *)

(** ** Strings *)




Lemma head_split_app (sep : ascii) (line rest : string) :
  contains sep line = false ->
  head0 (split sep (line ++ String sep rest)) = line.
Proof.
  induction line as [|c r IH]; simpl; intros Hc.
  - rewrite Ascii.eqb_refl. reflexivity.
  - apply orb_false_iff in Hc. destruct Hc as [Hc Hr].
    rewrite Hc. specialize (IH Hr). unfold head0 in IH.
    destruct (split sep (r ++ String sep rest)) as [|h t]; simpl in *; congruence.
Qed.

Lemma substring_0_length (n : nat) (s : string) :
  String.length (substring 0 n s) = Nat.min n (String.length s).
Proof.
  revert s. induction n as [|n IH]; intros s.
  - destruct s; reflexivity.
  - destruct s as [|c r]; simpl; [reflexivity|]. now rewrite IH.
Qed.

Lemma substring_0_all (n : nat) (s : string) :
  (String.length s <= n)%nat -> substring 0 n s = s.
Proof.
  revert s. induction n as [|n IH]; intros s Hs.
  - destruct s; simpl in *; [reflexivity|lia].
  - destruct s as [|c r]; simpl in *; [reflexivity|].
    rewrite IH by lia. reflexivity.
Qed.

Lemma append_length (a b : string) :
  String.length (a ++ b) = (String.length a + String.length b)%nat.
Proof. induction a; simpl; congruence. Qed.

(** ** Title generation *)



Lemma addMessage_first_title (c : Conversation.t) (text : string) (now : Date) :
  Conversation.messages c = [] ->
  Conversation.title (Conversation.addMessage c user text now)
  = Conversation.generateTitle text.
Proof.
  intros Hm. unfold Conversation.addMessage. rewrite Hm. reflexivity.
Qed.






(** C9. A first user message that contains a newline and whose first line
    has at most 50 characters gets that first line followed by "..." as its
    title: the ellipsis marks any proper prefix of the content, a cut at
    the first newline as well as a cut at 50 characters. *)
Theorem C9_ellipsis_after_first_line (c : Conversation.t) (line rest : string)
  (now : Date) :
  Conversation.messages c = [] ->
  contains newline line = false ->
  (String.length line <= 50)%nat ->
  Conversation.title
    (Conversation.addMessage c user (line ++ String newline rest) now)
  = (line ++ "...")%string.
Proof.
  intros Hm Hnl Hlen. rewrite (addMessage_first_title _ _ _ Hm).
  unfold Conversation.generateTitle.
  rewrite (head_split_app _ _ rest Hnl), (substring_0_all _ _ Hlen).
  rewrite append_length. simpl.
  replace (String.length line <? String.length line + S (String.length rest))%nat
    with true; [reflexivity|].
  symmetry. apply Nat.ltb_lt. lia.
Qed.

Lemma C9_ellipsis_after_first_line_witness :
  Conversation.title
    (Conversation.addMessage
       (Conversation.mk (Some 1%nat) 7%nat undefined "New Conversation" []
          0%Z 0%Z 0%Z)
       user ("call mom" ++ String newline "tomorrow at 3pm") 5%Z)
  = "call mom...".
Proof.
  apply (C9_ellipsis_after_first_line _ "call mom" "tomorrow at 3pm" 5%Z);
    [reflexivity|reflexivity|simpl; lia].
Defined.

(** ** Conversation store *)

Lemma isE164_truthy (p : string) : isE164 p = true -> truthy (Some p) = true.
Proof. destruct p; [discriminate|reflexivity]. Qed.

Lemma fromDocument_conversation (d : Conversation.t) :
  Conversation.schemaOk d = true -> Conversation.fromDocument d = Ok d.
Proof.
  intros Hd. unfold Conversation.fromDocument, Conversation.new,
    Conversation.validate. now rewrite Hd.
Qed.





(** ** Collections *)

Ltac unfold_monad :=
  unfold bind, ret, throw, liftResult, tryCatch, get, put, modify in *.

Ltac unfold_monad_goal :=
  unfold bind, ret, throw, liftResult, tryCatch, get, put, modify.



Section UpdateById.

Context {D : Type} `{Document D}.
Variable f : D -> D.
Hypothesis f_keeps_id : forall d, docId (f d) = docId d.

Lemma hasId_keeps (id : ObjectId) (d : D) : hasId id (f d) = hasId id d.
Proof. unfold hasId. now rewrite f_keeps_id. Qed.

Lemma updateFirst_find_same (id : ObjectId) (l : list D) :
  find (hasId id) (snd (updateFirst (hasId id) f l))
  = option_map f (find (hasId id) l).
Proof.
  induction l as [|d r IH]; simpl; [reflexivity|].
  destruct (hasId id d) eqn:E; simpl.
  - now rewrite hasId_keeps, E.
  - destruct (updateFirst (hasId id) f r); simpl in *. now rewrite E.
Qed.

Lemma updateFirst_find_other (id id0 : ObjectId) (l : list D) :
  id <> id0 ->
  find (hasId id) (snd (updateFirst (hasId id0) f l)) = find (hasId id) l.
Proof.
  intros Hne. induction l as [|d r IH]; simpl; [reflexivity|].
  destruct (hasId id0 d) eqn:E0; simpl.
  - rewrite hasId_keeps.
    assert (hasId id d = false) as ->; [|reflexivity].
    unfold hasId in *. destruct (docId d) as [i|]; [|reflexivity].
    apply Nat.eqb_eq in E0. apply Nat.eqb_neq. congruence.
  - destruct (updateFirst (hasId id0) f r); simpl in *. now rewrite IH.
Qed.

Lemma updateFirst_idsOf (p : D -> bool) (l : list D) :
  idsOf (snd (updateFirst p f l)) = idsOf l.
Proof.
  induction l as [|d r IH]; simpl; [reflexivity|].
  destruct (p d); simpl.
  - now rewrite f_keeps_id.
  - destruct (updateFirst p f r); simpl in *. now rewrite IH.
Qed.

End UpdateById.

Lemma idsOf_app {D} `{Document D} (a b : list D) :
  idsOf (a ++ b) = idsOf a ++ idsOf b.
Proof. unfold idsOf. apply flat_map_app. Qed.

Lemma idsOf_In {D} `{Document D} (l : list D) (d : D) (i : ObjectId) :
  In d l -> docId d = Some i -> In i (idsOf l).
Proof.
  intros Hin Hid. unfold idsOf. apply in_flat_map. exists d.
  rewrite Hid. split; [assumption|now left].
Qed.

Lemma find_hasId_id {D} `{Document D} (l : list D) (i : ObjectId) (d : D) :
  find (hasId i) l = Some d -> In d l /\ docId d = Some i.
Proof.
  intros Hf. destruct (find_some _ _ Hf) as [Hin Hh]. split; [assumption|].
  unfold hasId in Hh. destruct (docId d) as [j|]; [|discriminate].
  apply Nat.eqb_eq in Hh. now subst.
Qed.


Lemma find_hasId_unique {D} `{Document D} (l : list D) (i : ObjectId) (d : D) :
  NoDup (idsOf l) -> In d l -> docId d = Some i -> find (hasId i) l = Some d.
Proof.
  induction l as [|x r IH]; intros Hnd Hin Hid; [contradiction|].
  simpl in *. unfold hasId at 1.
  destruct Hin as [->|Hin].
  - rewrite Hid, Nat.eqb_refl. reflexivity.
  - destruct (docId x) as [j|] eqn:Ex.
    + inversion Hnd as [|? ? Hnotin Hnd']; subst.
      destruct (Nat.eqb_spec j i) as [->|Hne].
      * exfalso. apply Hnotin. eapply idsOf_In; eassumption.
      * now apply IH.
    + now apply IH.
Qed.

Lemma existsb_hasId_notin {D} `{Document D} (l : list D) (i : ObjectId) :
  existsb (hasId i) l = false -> ~ In i (idsOf l).
Proof.
  intros He Hin. unfold idsOf in Hin. apply in_flat_map in Hin.
  destruct Hin as [d [Hd Hi]].
  assert (existsb (hasId i) l = true); [|congruence].
  apply existsb_exists. exists d. split; [assumption|].
  unfold hasId. destruct (docId d) as [j|]; simpl in Hi; [|contradiction].
  destruct Hi as [->|[]]. apply Nat.eqb_refl.
Qed.

Lemma find_app_Some {A} (p : A -> bool) (a b : list A) (x : A) :
  find p a = Some x -> find p (a ++ b) = Some x.
Proof.
  induction a as [|y r IH]; simpl; [discriminate|].
  destruct (p y); auto.
Qed.

(** ** Reminder store and tools *)

Lemma fromDocument_reminder (r : Reminder.t) :
  Reminder.schemaOk r = true -> Reminder.fromDocument r = Ok r.
Proof.
  intros Hr. unfold Reminder.fromDocument, Reminder.new, Reminder.validate.
  now rewrite Hr.
Qed.

Lemma fromDocument_reminder_inv (r r' : Reminder.t) :
  Reminder.fromDocument r = Ok r' -> r' = r.
Proof.
  unfold Reminder.fromDocument, Reminder.new, Reminder.validate.
  destruct (Reminder.schemaOk r); [congruence|discriminate].
Qed.

Lemma createSchema_not_future `{Platform} (args : ToolArgs) (s : string)
  (t now : Date) :
  arg_scheduledFor args = Some (JString s) -> parseDate s = Some t ->
  (t <= now)%Z ->
  exists e, ReminderTools.createSchema now args = Throw e.
Proof.
  intros Hs Hp Hle. unfold ReminderTools.createSchema. rewrite Hs. simpl.
  unfold DateValidator.validateFutureISODate, DateValidator.validateISODate,
    DateValidator.isFutureDate.
  rewrite Hp. replace (now <? t)%Z with false by (symmetry; apply Z.ltb_ge; lia).
  simpl.
  destruct (zStringBetween 1 200 (arg_title args));
    destruct (zOptional (zStringBetween 0 1000) (arg_description args));
    eexists; reflexivity.
Qed.

Lemma findTool_create `{Platform} (userId conversationId : ObjectId)
  (phoneNumber : string) :
  AgentService.findTool
    (ReminderTools.getAllTools userId conversationId phoneNumber) "create_reminder"
  = Some (ReminderTools.createReminderTool userId conversationId phoneNumber).
Proof. reflexivity. Qed.

Lemma zStringBetween_inv (lo hi : nat) (v : option JsonValue) (s : string) :
  zStringBetween lo hi v = Ok s ->
  v = Some (JString s) /\ (lo <= String.length s <= hi)%nat.
Proof.
  unfold zStringBetween, zString. destruct v as [[x|]|]; try discriminate.
  destruct (_ && _) eqn:E; [|discriminate]. intros Eq. injection Eq as <-.
  apply andb_prop in E. destruct E as [E1 E2].
  apply Nat.leb_le in E1. apply Nat.leb_le in E2. auto.
Qed.

Lemma zStringBetween_accepts (lo hi : nat) (s : string) :
  (lo <= String.length s <= hi)%nat ->
  zStringBetween lo hi (Some (JString s)) = Ok s.
Proof.
  intros [H1 H2]. unfold zStringBetween, zString.
  apply Nat.leb_le in H1. apply Nat.leb_le in H2. now rewrite H1, H2.
Qed.

Lemma createSchema_inv `{Platform} (now : Date) (args : ToolArgs)
  (input : ReminderTools.CreateInput) :
  ReminderTools.createSchema now args = Ok input ->
  titleAccepted args (ReminderTools.c_title input)
  /\ descriptionAccepted args (ReminderTools.c_description input)
  /\ DateValidator.futureISODateSchema now (arg_scheduledFor args)
     = Ok (ReminderTools.c_scheduledFor input).
Proof.
  unfold ReminderTools.createSchema.
  destruct (zStringBetween 1 200 (arg_title args)) as [t|] eqn:Et;
    destruct (zOptional (zStringBetween 0 1000) (arg_description args))
      as [d|] eqn:Ed;
    destruct (DateValidator.futureISODateSchema now (arg_scheduledFor args))
      as [w|] eqn:Ew;
    intros Heq; inversion Heq; subst.
  cbn [ReminderTools.c_title ReminderTools.c_description
       ReminderTools.c_scheduledFor].
  split; [exact (zStringBetween_inv _ _ _ _ Et)|]. split; [|reflexivity].
  unfold zOptional in Ed. unfold descriptionAccepted.
  destruct (arg_description args) as [v|].
  - destruct (zStringBetween 0 1000 (Some v)) as [x|] eqn:Ex; [|discriminate].
    injection Ed as <-. destruct (zStringBetween_inv _ _ _ _ Ex) as [-> Hl].
    split; [reflexivity|lia].
  - now injection Ed as <-.
Qed.

Lemma createSchema_accepts `{Platform} (now : Date) (args : ToolArgs)
  (title : string) (description : option string) (t : Date) :
  titleAccepted args title ->
  descriptionAccepted args description ->
  DateValidator.futureISODateSchema now (arg_scheduledFor args) = Ok t ->
  ReminderTools.createSchema now args
  = Ok (ReminderTools.mkCreateInput title description t).
Proof.
  intros [Ht Hlen] Hd Hdate. unfold ReminderTools.createSchema.
  rewrite Ht, (zStringBetween_accepts 1 200 title Hlen), Hdate.
  destruct description as [d|]; unfold descriptionAccepted in Hd.
  - destruct Hd as [-> Hl]. unfold zOptional.
    rewrite (zStringBetween_accepts 0 1000 d); [reflexivity|lia].
  - now rewrite Hd.
Qed.

Lemma futureISODateSchema_parsed `{Platform} (now : Date) (s : string) (t : Date) :
  parseDate s = Some t ->
  DateValidator.futureISODateSchema now (Some (JString s))
  = if (now <? t)%Z then Ok t else Throw "Reminder date must be in the future".
Proof.
  intros Hp. cbn [DateValidator.futureISODateSchema].
  unfold DateValidator.validateFutureISODate, DateValidator.validateISODate,
    DateValidator.isFutureDate.
  rewrite Hp. now destruct (now <? t)%Z.
Qed.

(** What [create_reminder] does, in full: a refusal by the schema, one
    reminder stored and reported, or a failure object and nothing stored. *)
Lemma create_outcome `{Platform} (userId conversationId : ObjectId)
  (phoneNumber : string) (args : ToolArgs) (now : Date)
  (coll : Collection Reminder.t) :
  match ReminderTools.createSchema now args with
  | Throw _ =>
      invoke (ReminderTools.createReminderTool userId conversationId phoneNumber)
             args now coll
      = (Throw "Received tool input did not match expected schema", coll)
  | Ok input =>
      if isE164 phoneNumber && negb (existsb (hasId (nextId coll)) (docs coll))
      then
        invoke (ReminderTools.createReminderTool userId conversationId phoneNumber)
               args now coll
        = (Ok (JsonCreated
                 ("Reminder created successfully! I'll send you a reminder " ++ dq
                  ++ ReminderTools.c_title input ++ dq ++ " on "
                  ++ toLocaleString (ReminderTools.c_scheduledFor input) ++ ".")
                 (Some (nextId coll))
                 (toISOString (ReminderTools.c_scheduledFor input))),
           mkCollection
             (docs coll
              ++ [Reminder.mk (Some (nextId coll)) userId conversationId
                    phoneNumber (ReminderTools.c_title input)
                    (storedDescription (ReminderTools.c_description input))
                    (ReminderTools.c_scheduledFor input) PENDING now now])
             (S (nextId coll)))
      else
        exists e c,
          invoke (ReminderTools.createReminderTool userId conversationId
                    phoneNumber) args now coll
          = (Ok (JsonFailure e), c)
          /\ docs c = docs coll
  end.
Proof.
  unfold invoke. cbn [schema func ReminderTools.createReminderTool].
  destruct (ReminderTools.createSchema now args) as [input|e] eqn:Hs;
    [|reflexivity].
  destruct (createSchema_inv now args input Hs) as [[_ [Ht1 Ht2]] [Hd _]].
  assert (Hok : Reminder.schemaOk
                  (Reminder.mk None userId conversationId phoneNumber
                     (ReminderTools.c_title input)
                     (ofOption (ReminderTools.c_description input))
                     (ReminderTools.c_scheduledFor input) PENDING now now)
                = isE164 phoneNumber).
  { unfold Reminder.schemaOk.
    cbn [Reminder.phoneNumber Reminder.title Reminder.description].
    apply Nat.leb_le in Ht1. apply Nat.leb_le in Ht2. rewrite Ht1, Ht2.
    unfold descriptionAccepted in Hd.
    destruct (ReminderTools.c_description input) as [d|]; cbn [ofOption].
    - destruct Hd as [_ Hl]. apply Nat.leb_le in Hl. rewrite Hl.
      now rewrite !andb_true_r.
    - now rewrite !andb_true_r. }
  unfold ReminderTools.createFunc, ReminderRepository.create, coll_insertOne,
    Reminder.new, Reminder.validate.
  unfold_monad. rewrite Hok.
  destruct (isE164 phoneNumber); cbn [andb].
  - cbn [docId Reminder_Document Reminder._id Reminder.updateTimestamp
         Reminder.toDocument fst snd].
    destruct (existsb (hasId (nextId coll)) (docs coll)); cbn [negb].
    + eexists. eexists. split; reflexivity.
    + destruct (ReminderTools.c_description input); reflexivity.
  - eexists. eexists. split; reflexivity.
Qed.

(** C5, as the code has it. A [create_reminder] call whose [scheduledFor]
    parses to an instant not after the current one is rejected: the tool
    throws, nothing is stored, and the agent loop hands the model an error
    text. When the instant is strictly later and, besides, the title is a
    string of 1 to 200 characters, the description is absent or a string of
    at most 1000 characters, the bound phone number is in E.164 form and
    the generated id is not taken, exactly one reminder is appended to the
    store, with status pending; its description is the one given, and
    [null] when none was given. When one of these further conditions
    fails, nothing is stored and no creation is reported. *)
Theorem C5_create_reminder `{Platform} (userId conversationId : ObjectId)
  (phoneNumber : string) (args : ToolArgs) (s : string) (t now : Date)
  (coll : Collection Reminder.t) :
  arg_scheduledFor args = Some (JString s) ->
  parseDate s = Some t ->
  ((t <= now)%Z ->
   invoke (ReminderTools.createReminderTool userId conversationId phoneNumber)
          args now coll
   = (Throw "Received tool input did not match expected schema", coll)
   /\ forall (emit : bool) (messages : list BaseMessage) (id : option string)
             (w : World),
        reminders w = coll -> clock w = now ->
        exists w',
          AgentService.dispatchToolCall emit
            (ReminderTools.getAllTools userId conversationId phoneNumber)
            messages (mkToolCall "create_reminder" args id) w
          = (Ok (messages
                 ++ [ToolMessage id
                       (OutError "Received tool input did not match expected schema")]),
             w')
          /\ reminders w' = coll)
  /\ ((now < t)%Z ->
      (forall (title : string) (description : option string),
          titleAccepted args title ->
          descriptionAccepted args description ->
          isE164 phoneNumber = true ->
          existsb (hasId (nextId coll)) (docs coll) = false ->
          exists message,
            invoke (ReminderTools.createReminderTool userId conversationId
                      phoneNumber) args now coll
            = (Ok (JsonCreated message (Some (nextId coll)) (toISOString t)),
               mkCollection
                 (docs coll
                  ++ [Reminder.mk (Some (nextId coll)) userId conversationId
                        phoneNumber title (storedDescription description) t
                        PENDING now now])
                 (S (nextId coll))))
      /\ (~ ((exists title, titleAccepted args title)
             /\ (exists description, descriptionAccepted args description)
             /\ isE164 phoneNumber = true
             /\ existsb (hasId (nextId coll)) (docs coll) = false) ->
          docs (snd (invoke (ReminderTools.createReminderTool userId conversationId
                               phoneNumber) args now coll))
          = docs coll
          /\ forall message rid iso,
               fst (invoke (ReminderTools.createReminderTool userId conversationId
                              phoneNumber) args now coll)
               <> Ok (JsonCreated message rid iso))).
Proof.
  intros Hs Hp. split.
  - intros Hle.
    destruct (createSchema_not_future args s t now Hs Hp Hle) as [e He].
    assert (Hinv : invoke
              (ReminderTools.createReminderTool userId conversationId phoneNumber)
              args now coll
            = (Throw "Received tool input did not match expected schema", coll)).
    { unfold invoke. simpl. rewrite He. reflexivity. }
    split; [exact Hinv|].
    intros emit messages id w Hw Hc.
    unfold AgentService.dispatchToolCall. simpl tc_name.
    rewrite findTool_create. simpl tc_args. simpl tc_id.
    unfold AgentService.emitIf, onReminders, newDate, onEvent.
    unfold_monad.
    destruct emit; simpl; rewrite Hc, Hw, Hinv; simpl; eexists; split; reflexivity.
  - intros Hlt.
    pose proof (create_outcome userId conversationId phoneNumber args now coll)
      as Hout.
    split.
    + intros title description Ht Hd He164 Hfresh.
      assert (Hdate : DateValidator.futureISODateSchema now (arg_scheduledFor args)
                      = Ok t).
      { rewrite Hs, (futureISODateSchema_parsed now s t Hp).
        apply Z.ltb_lt in Hlt. now rewrite Hlt. }
      rewrite (createSchema_accepts now args title description t Ht Hd Hdate),
        He164, Hfresh in Hout.
      cbn [andb negb ReminderTools.c_title ReminderTools.c_description
           ReminderTools.c_scheduledFor] in Hout.
      eexists. exact Hout.
    + intros Hnot.
      destruct (ReminderTools.createSchema now args) as [input|e] eqn:Hsch.
      * destruct (createSchema_inv now args input Hsch) as [Ht [Hd _]].
        destruct (isE164 phoneNumber && negb (existsb (hasId (nextId coll))
                                                      (docs coll))) eqn:Econd.
        -- exfalso. apply Hnot. apply andb_prop in Econd.
           destruct Econd as [E1 E2]. apply negb_true_iff in E2.
           split; [eexists; exact Ht|]. split; [eexists; exact Hd|]. now split.
        -- destruct Hout as [e [c [Hrun Hdocs]]]. rewrite Hrun. cbn [fst snd].
           split; [exact Hdocs|discriminate].
      * rewrite Hout. cbn [fst snd]. split; [reflexivity|discriminate].
Qed.

Lemma C5_create_reminder_witness :
  invoke (@ReminderTools.createReminderTool examplePlatform 7%nat 3%nat "+15551234567")
         (argsCreate "water the plants" "1000") 1000%Z emptyCollection
  = (Throw "Received tool input did not match expected schema", emptyCollection)
  /\ (exists message,
         invoke (@ReminderTools.createReminderTool examplePlatform 7%nat 3%nat
                   "+15551234567")
                (argsDescribed "water the plants" "on the balcony" "2000") 1000%Z
                emptyCollection
         = (Ok (JsonCreated message (Some 0%nat) "2000"),
            mkCollection
              [Reminder.mk (Some 0%nat) 7%nat 3%nat "+15551234567"
                 "water the plants" (defined "on the balcony") 2000%Z PENDING
                 1000%Z 1000%Z] 1%nat))
  /\ (exists message,
         invoke (@ReminderTools.createReminderTool examplePlatform 7%nat 3%nat
                   "+15551234567")
                (argsCreate "water the plants" "2000") 1000%Z emptyCollection
         = (Ok (JsonCreated message (Some 0%nat) "2000"),
            mkCollection
              [Reminder.mk (Some 0%nat) 7%nat 3%nat "+15551234567"
                 "water the plants" null 2000%Z PENDING 1000%Z 1000%Z] 1%nat)).
Proof.
  split; [|split].
  - apply (@C5_create_reminder examplePlatform 7%nat 3%nat "+15551234567"
             (argsCreate "water the plants" "1000") "1000" 1000%Z 1000%Z
             emptyCollection eq_refl eq_refl).
    lia.
  - apply (proj1 (proj2 (@C5_create_reminder examplePlatform 7%nat 3%nat
                           "+15551234567"
                           (argsDescribed "water the plants" "on the balcony" "2000")
                           "2000" 2000%Z 1000%Z emptyCollection eq_refl eq_refl)
                    ltac:(lia))
             "water the plants" (Some "on the balcony"));
      [split; [reflexivity|simpl; lia]|split; [reflexivity|simpl; lia]
      |reflexivity|reflexivity].
  - apply (proj1 (proj2 (@C5_create_reminder examplePlatform 7%nat 3%nat
                           "+15551234567" (argsCreate "water the plants" "2000")
                           "2000" 2000%Z 1000%Z emptyCollection eq_refl eq_refl)
                    ltac:(lia))
             "water the plants" None);
      [split; [reflexivity|simpl; lia]|reflexivity|reflexivity|reflexivity].
Defined.

(** C5 as stated fails: these two calls carry a [scheduledFor] that parses to
    an instant after the current one, and no reminder is stored. In the
    first the phone number bound to the tool is empty, as it is for a web
    user without one; in the second the title is empty. *)
Lemma C5_future_date_not_persisted :
  @parseDate examplePlatform "2000" = Some 2000%Z
  /\ (1000 < 2000)%Z
  /\ invoke (@ReminderTools.createReminderTool examplePlatform 7%nat 3%nat EmptyString)
            (argsCreate "water the plants" "2000") 1000%Z emptyCollection
     = (Ok (JsonFailure "ZodError"), emptyCollection)
  /\ invoke (@ReminderTools.createReminderTool examplePlatform 7%nat 3%nat
               "+15551234567")
            (argsCreate EmptyString "2000") 1000%Z emptyCollection
     = (Throw "Received tool input did not match expected schema", emptyCollection).
Proof. repeat split. Qed.

Lemma findById_found (coll : Collection Reminder.t) (id : ObjectId)
  (existing : Reminder.t) :
  find (hasId id) (docs coll) = Some existing ->
  Reminder.schemaOk existing = true ->
  ReminderRepository.findById id coll = (Ok (Some existing), coll).
Proof.
  intros Hf Hok.
  unfold ReminderRepository.findById, ReminderRepository.findOne, coll_findOne.
  unfold_monad. rewrite Hf, (fromDocument_reminder _ Hok). reflexivity.
Qed.

Lemma updateSchema_reminderId `{Platform} (now : Date) (args : ToolArgs)
  (input : ReminderTools.UpdateInput) (rid : string) :
  arg_reminderId args = Some (JString rid) ->
  ReminderTools.updateSchema now args = Ok input ->
  ReminderTools.u_reminderId input = rid.
Proof.
  intros Hr. unfold ReminderTools.updateSchema. rewrite Hr. simpl.
  destruct (zOptional (zStringBetween 1 200) (arg_title args));
    destruct (zOptional (zStringBetween 0 1000) (arg_description args));
    destruct (zOptional (DateValidator.futureISODateSchema now)
                (arg_scheduledFor args));
    intros Heq; inversion Heq; reflexivity.
Qed.

Lemma findById_refused (coll : Collection Reminder.t) (id : ObjectId)
  (existing : Reminder.t) :
  find (hasId id) (docs coll) = Some existing ->
  Reminder.schemaOk existing = false ->
  ReminderRepository.findById id coll = (Throw "ZodError", coll).
Proof.
  intros Hf Hok.
  unfold ReminderRepository.findById, ReminderRepository.findOne, coll_findOne.
  unfold_monad. rewrite Hf.
  unfold Reminder.fromDocument, Reminder.new, Reminder.validate.
  now rewrite Hok.
Qed.

Lemma updateSchema_not_future `{Platform} (args : ToolArgs) (s : string)
  (t now : Date) :
  arg_scheduledFor args = Some (JString s) -> parseDate s = Some t ->
  (t <= now)%Z ->
  exists e, ReminderTools.updateSchema now args = Throw e.
Proof.
  intros Hs Hp Hle. unfold ReminderTools.updateSchema. rewrite Hs.
  unfold zOptional at 3. rewrite (futureISODateSchema_parsed now s t Hp).
  replace (now <? t)%Z with false by (symmetry; apply Z.ltb_ge; lia).
  destruct (zString (arg_reminderId args));
    destruct (zOptional (zStringBetween 1 200) (arg_title args));
    destruct (zOptional (zStringBetween 0 1000) (arg_description args));
    eexists; reflexivity.
Qed.

Lemma findTool_update `{Platform} (userId conversationId : ObjectId)
  (phoneNumber : string) :
  AgentService.findTool
    (ReminderTools.getAllTools userId conversationId phoneNumber) "update_reminder"
  = Some (ReminderTools.updateReminderTool userId).
Proof. reflexivity. Qed.

(** C6, as the code has it, for a stored reminder that belongs to another
    user. When that reminder satisfies the reminder schema,
    [delete_reminder] returns the failure object with the permission
    message, and so does [update_reminder] whenever its arguments pass the
    schema. When it does not satisfy the schema, both return a failure
    object with the validation error instead. When the arguments of
    [update_reminder] do not pass the schema, as with a [scheduledFor] that
    is not in the future, the tool throws before it looks at the owner and
    the agent loop hands the model the error text. In every case the
    store, and with it every field of the target, is left as it was. *)
Theorem C6_not_owner `{Platform} (userId : ObjectId) (args : ToolArgs)
  (rid : string) (id : ObjectId) (existing : Reminder.t) (now : Date)
  (coll : Collection Reminder.t) :
  arg_reminderId args = Some (JString rid) ->
  parseObjectId rid = Some id ->
  find (hasId id) (docs coll) = Some existing ->
  Reminder.userId existing <> userId ->
  (Reminder.schemaOk existing = true ->
   invoke (ReminderTools.deleteReminderTool userId) args now coll
   = (Ok (JsonFailure "You do not have permission to delete this reminder."), coll)
   /\ (forall input,
          ReminderTools.updateSchema now args = Ok input ->
          invoke (ReminderTools.updateReminderTool userId) args now coll
          = (Ok (JsonFailure "You do not have permission to update this reminder."),
             coll)))
  /\ (Reminder.schemaOk existing = false ->
      invoke (ReminderTools.deleteReminderTool userId) args now coll
      = (Ok (JsonFailure "ZodError"), coll)
      /\ (forall input,
             ReminderTools.updateSchema now args = Ok input ->
             invoke (ReminderTools.updateReminderTool userId) args now coll
             = (Ok (JsonFailure "ZodError"), coll)))
  /\ ((exists e, ReminderTools.updateSchema now args = Throw e) ->
      invoke (ReminderTools.updateReminderTool userId) args now coll
      = (Throw "Received tool input did not match expected schema", coll)
      /\ forall (emit : bool) (conversationId : ObjectId) (phoneNumber : string)
                (messages : list BaseMessage) (callId : option string) (w : World),
           reminders w = coll -> clock w = now ->
           exists w',
             AgentService.dispatchToolCall emit
               (ReminderTools.getAllTools userId conversationId phoneNumber)
               messages (mkToolCall "update_reminder" args callId) w
             = (Ok (messages
                    ++ [ToolMessage callId
                          (OutError
                             "Received tool input did not match expected schema")]),
                w')
             /\ reminders w' = coll)
  /\ (forall (s : string) (t : Date),
         arg_scheduledFor args = Some (JString s) -> parseDate s = Some t ->
         (t <= now)%Z ->
         exists e, ReminderTools.updateSchema now args = Throw e)
  /\ snd (invoke (ReminderTools.updateReminderTool userId) args now coll) = coll
  /\ snd (invoke (ReminderTools.deleteReminderTool userId) args now coll) = coll.
Proof.
  intros Hr Hp Hf Hne.
  assert (Hdel : forall found,
             ReminderRepository.findById id coll = (found, coll) ->
             found <> Ok None ->
             invoke (ReminderTools.deleteReminderTool userId) args now coll
             = (match found with
                | Ok _ =>
                    Ok (JsonFailure
                          "You do not have permission to delete this reminder.")
                | Throw e => Ok (JsonFailure e)
                end, coll)).
  { intros found Hfound Hsome. unfold invoke. simpl.
    unfold ReminderTools.deleteSchema. rewrite Hr. simpl.
    unfold ReminderTools.deleteFunc, ReminderTools.newObjectId. simpl. rewrite Hp.
    unfold_monad. rewrite Hfound.
    destruct found as [[r|]|e]; [|congruence|reflexivity].
    assert (r = existing) as ->.
    { destruct (Reminder.schemaOk existing) eqn:Hok.
      - rewrite (findById_found _ _ _ Hf Hok) in Hfound. congruence.
      - rewrite (findById_refused _ _ _ Hf Hok) in Hfound. congruence. }
    apply Nat.eqb_neq in Hne. rewrite Hne. reflexivity. }
  assert (Hupd : forall found input,
             ReminderRepository.findById id coll = (found, coll) ->
             found <> Ok None ->
             ReminderTools.updateSchema now args = Ok input ->
             invoke (ReminderTools.updateReminderTool userId) args now coll
             = (match found with
                | Ok _ =>
                    Ok (JsonFailure
                          "You do not have permission to update this reminder.")
                | Throw e => Ok (JsonFailure e)
                end, coll)).
  { intros found input Hfound Hsome Hin. unfold invoke. simpl. rewrite Hin.
    unfold ReminderTools.updateFunc, ReminderTools.newObjectId.
    rewrite (updateSchema_reminderId now args input rid Hr Hin), Hp.
    unfold_monad. rewrite Hfound.
    destruct found as [[r|]|e]; [|congruence|reflexivity].
    assert (r = existing) as ->.
    { destruct (Reminder.schemaOk existing) eqn:Hok.
      - rewrite (findById_found _ _ _ Hf Hok) in Hfound. congruence.
      - rewrite (findById_refused _ _ _ Hf Hok) in Hfound. congruence. }
    apply Nat.eqb_neq in Hne. rewrite Hne. reflexivity. }
  assert (Hthrow : (exists e, ReminderTools.updateSchema now args = Throw e) ->
             invoke (ReminderTools.updateReminderTool userId) args now coll
             = (Throw "Received tool input did not match expected schema", coll)).
  { intros [e He]. unfold invoke. simpl. now rewrite He. }
  destruct (Reminder.schemaOk existing) eqn:Hok.
  - pose proof (findById_found _ _ _ Hf Hok) as Hfound.
    pose proof (Hdel _ Hfound ltac:(discriminate)) as Hd.
    assert (Hu : forall input,
               ReminderTools.updateSchema now args = Ok input ->
               invoke (ReminderTools.updateReminderTool userId) args now coll
               = (Ok (JsonFailure
                        "You do not have permission to update this reminder."),
                  coll)).
    { intros input Hin. exact (Hupd _ input Hfound ltac:(discriminate) Hin). }
    split; [intros _; split; [exact Hd|exact Hu]|].
    split; [discriminate|].
    split; [|split; [|split]].
    + intros Hex. split; [now apply Hthrow|].
      intros emit conversationId phoneNumber messages callId w Hw Hc.
      unfold AgentService.dispatchToolCall. simpl tc_name.
      rewrite findTool_update. simpl tc_args. simpl tc_id.
      unfold AgentService.emitIf, onReminders, newDate, onEvent.
      unfold_monad.
      destruct emit; simpl; rewrite Hc, Hw, (Hthrow Hex); simpl; eexists;
        split; reflexivity.
    + intros s t. apply updateSchema_not_future.
    + destruct (ReminderTools.updateSchema now args) as [input|e] eqn:E.
      * now rewrite (Hu input eq_refl).
      * rewrite Hthrow; [reflexivity|now exists e].
    + now rewrite Hd.
  - pose proof (findById_refused _ _ _ Hf Hok) as Hfound.
    pose proof (Hdel _ Hfound ltac:(discriminate)) as Hd.
    assert (Hu : forall input,
               ReminderTools.updateSchema now args = Ok input ->
               invoke (ReminderTools.updateReminderTool userId) args now coll
               = (Ok (JsonFailure "ZodError"), coll)).
    { intros input Hin. exact (Hupd _ input Hfound ltac:(discriminate) Hin). }
    split; [discriminate|].
    split; [intros _; split; [exact Hd|exact Hu]|].
    split; [|split; [|split]].
    + intros Hex. split; [now apply Hthrow|].
      intros emit conversationId phoneNumber messages callId w Hw Hc.
      unfold AgentService.dispatchToolCall. simpl tc_name.
      rewrite findTool_update. simpl tc_args. simpl tc_id.
      unfold AgentService.emitIf, onReminders, newDate, onEvent.
      unfold_monad.
      destruct emit; simpl; rewrite Hc, Hw, (Hthrow Hex); simpl; eexists;
        split; reflexivity.
    + intros s t. apply updateSchema_not_future.
    + destruct (ReminderTools.updateSchema now args) as [input|e] eqn:E.
      * now rewrite (Hu input eq_refl).
      * rewrite Hthrow; [reflexivity|now exists e].
    + now rewrite Hd.
Qed.

Lemma C6_not_owner_witness :
  invoke (@ReminderTools.deleteReminderTool examplePlatform 8%nat) (argsId "1")
         1000%Z remindersOfUser7
  = (Ok (JsonFailure "You do not have permission to delete this reminder."),
     remindersOfUser7)
  /\ invoke (@ReminderTools.updateReminderTool examplePlatform 8%nat)
            (argsReschedule "1" "2000") 1000%Z remindersOfUser7
     = (Ok (JsonFailure "You do not have permission to update this reminder."),
        remindersOfUser7).
Proof.
  split.
  - apply (@C6_not_owner examplePlatform 8%nat (argsId "1") "1" 1%nat
             reminderOfUser7 1000%Z remindersOfUser7);
      [reflexivity|reflexivity|reflexivity|discriminate|reflexivity].
  - destruct (@C6_not_owner examplePlatform 8%nat (argsReschedule "1" "2000") "1"
                1%nat reminderOfUser7 1000%Z remindersOfUser7)
      as [Hvalid _];
      [reflexivity|reflexivity|reflexivity|discriminate|].
    apply (proj2 (Hvalid eq_refl)
             (ReminderTools.mkUpdateInput "1" None None (Some 2000%Z))).
    reflexivity.
Defined.

(** C6 as stated fails twice. User 8 asks to move the reminder of user 7
    to an instant that is already past: the tool throws on the schema
    before it looks at the owner, and the agent loop hands the model the
    error text rather than a permission failure. And user 8 asks to delete
    a reminder that user 7 created without description: it is stored with
    a [null] description, loading it throws, and the failure object
    carries the validation error rather than a permission message. *)
Lemma C6_update_raises_before_ownership_check :
  (find (hasId 1%nat) (docs remindersOfUser7) = Some reminderOfUser7
   /\ Reminder.userId reminderOfUser7 <> 8%nat
   /\ @parseObjectId examplePlatform "1" = Some 1%nat
   /\ invoke (@ReminderTools.updateReminderTool examplePlatform 8%nat)
             (argsReschedule "1" "400") 1000%Z remindersOfUser7
      = (Throw "Received tool input did not match expected schema",
         remindersOfUser7)
   /\ fst (AgentService.dispatchToolCall false
             (@ReminderTools.getAllTools examplePlatform 8%nat 3%nat "+15550000000")
             [] (mkToolCall "update_reminder" (argsReschedule "1" "400") None)
             (mkWorld emptyCollection remindersOfUser7 1000%Z [] [] []))
      = Ok [ToolMessage None
              (OutError "Received tool input did not match expected schema")])
  /\ (let created :=
        snd (invoke (@ReminderTools.createReminderTool examplePlatform 7%nat 3%nat
                       "+15551234567")
               (argsCreate "water the plants" "2000") 1000%Z emptyCollection) in
      docs created
      = [Reminder.mk (Some 0%nat) 7%nat 3%nat "+15551234567" "water the plants"
           null 2000%Z PENDING 1000%Z 1000%Z]
      /\ invoke (@ReminderTools.deleteReminderTool examplePlatform 8%nat)
                (argsId "0") 1100%Z created
         = (Ok (JsonFailure "ZodError"), created)
      /\ invoke (@ReminderTools.updateReminderTool examplePlatform 8%nat)
                (argsReschedule "0" "3000") 1100%Z created
         = (Ok (JsonFailure "ZodError"), created)).
Proof. repeat split. discriminate. Qed.


(** ** Scheduler *)

Lemma update_world (id : ObjectId) (data : PartialReminder) (now : Date)
  (coll : Collection Reminder.t) :
  snd (ReminderRepository.update id data now coll)
  = mkCollection (snd (updateFirst (hasId id) (applySet data now) (docs coll)))
                 (nextId coll).
Proof.
  unfold ReminderRepository.update, coll_findOneAndUpdate. unfold_monad.
  destruct (updateFirst (hasId id) (applySet data now) (docs coll)) as [o l].
  destruct o as [d|]; [|reflexivity].
  destruct (Reminder.fromDocument d); reflexivity.
Qed.

Lemma world_eta (w : World) :
  mkWorld (conversations w) (reminders w) (clock w) (events w) (llmCalls w)
          (smsAttempts w) = w.
Proof. now destruct w. Qed.


Lemma sendReminder_effect `{Platform} (twilio : nat -> string -> string -> bool)
  (reminder : Reminder.t) (w : World) :
  tryCatch (ReminderScheduler.sendReminder twilio reminder) (fun _ => ret tt) w
  = (Ok tt, afterSend twilio w reminder).
Proof.
  unfold ReminderScheduler.sendReminder, ReminderScheduler.sendSMS, afterSend,
    newDate, onReminders.
  unfold_monad. cbv beta.
  destruct (twilio (List.length (smsAttempts w)) (Reminder.phoneNumber reminder)
              (ReminderScheduler.formatReminderMessage reminder)).
  - destruct (Reminder._id reminder) as [id|]; simpl; [|reflexivity].
    unfold ReminderRepository.markAsSent, ReminderRepository.updateStatus.
    pose proof (update_world id (mkPartial None None None (Some SENT)) (clock w)
                  (reminders w)) as Hu.
    destruct (ReminderRepository.update id (mkPartial None None None (Some SENT))
                (clock w) (reminders w)) as [r c].
    simpl in Hu. subst c. destruct r; reflexivity.
  - destruct (Reminder._id reminder); reflexivity.
Qed.

Lemma scheduler_loop `{Platform} (twilio : nat -> string -> string -> bool)
  (rest : list Reminder.t) (w : World) :
  forEach rest
    (fun _ reminder =>
       tryCatch (ReminderScheduler.sendReminder twilio reminder) (fun _ => ret tt))
    tt w
  = (Ok tt, fold_left (afterSend twilio) rest w).
Proof.
  revert w. induction rest as [|r rest IH]; intros w; [reflexivity|].
  simpl. unfold bind at 1. rewrite sendReminder_effect. apply IH.
Qed.

Lemma mapResult_fromDocument (l l' : list Reminder.t) :
  mapResult Reminder.fromDocument l = Ok l' -> l' = l.
Proof.
  revert l'. induction l as [|r l IH]; simpl; intros l' Hl; [congruence|].
  destruct (Reminder.fromDocument r) as [r'|] eqn:Er; [|discriminate].
  destruct (mapResult Reminder.fromDocument l) as [rs|]; [|discriminate].
  apply fromDocument_reminder_inv in Er. inversion Hl; subst.
  now rewrite (IH rs eq_refl).
Qed.

Lemma mapResult_fromDocument_valid (l : list Reminder.t) :
  Forall (fun r => Reminder.schemaOk r = true) l ->
  mapResult Reminder.fromDocument l = Ok l.
Proof.
  induction 1 as [|r l Hr _ IH]; simpl; [reflexivity|].
  now rewrite (fromDocument_reminder _ Hr), IH.
Qed.

Lemma dueReminders_perm `{Platform} (w : World) :
  Permutation (dueReminders w) (filter (due (clock w)) (docs (reminders w))).
Proof. apply cursorOrder_perm. Qed.

Lemma dueReminders_In `{Platform} (w : World) (r : Reminder.t) :
  In r (dueReminders w) <-> In r (docs (reminders w)) /\ due (clock w) r = true.
Proof.
  rewrite <- filter_In. split; apply Permutation_in;
    [|apply Permutation_sym]; apply dueReminders_perm.
Qed.

(** The tick in closed form: either nothing is selected, because one of the
    due documents is refused by the model, or the loop runs over the due
    reminders in the order of the cursor. *)
Lemma tick_world `{Platform} (twilio : nat -> string -> string -> bool)
  (w : World) :
  ReminderScheduler.checkAndSendReminders twilio w = (Ok tt, w)
  \/ ReminderScheduler.checkAndSendReminders twilio w
     = (Ok tt, fold_left (afterSend twilio) (dueReminders w) w).
Proof.
  unfold ReminderScheduler.checkAndSendReminders,
    ReminderRepository.findDueReminders, coll_find, newDate, onReminders.
  set (body := fun (_ : unit) reminder =>
                 tryCatch (ReminderScheduler.sendReminder twilio reminder)
                          (fun _ => ret tt)).
  unfold_monad_goal. cbv beta. fold (due (clock w)). fold (dueReminders w).
  rewrite world_eta.
  destruct (mapResult Reminder.fromDocument (dueReminders w)) as [l|e] eqn:E;
    [|now left].
  apply mapResult_fromDocument in E. subst l.
  destruct (dueReminders w) as [|r rest] eqn:Ef; [now left|].
  right. cbn [List.length Nat.eqb]. subst body. now rewrite scheduler_loop.
Qed.

(** When one of the due documents is refused by the model, the tick reads
    nothing and leaves the world as it was. *)
Lemma tick_world_refused `{Platform} (twilio : nat -> string -> string -> bool)
  (w : World) (r : Reminder.t) :
  In r (docs (reminders w)) -> due (clock w) r = true ->
  Reminder.schemaOk r = false ->
  ReminderScheduler.checkAndSendReminders twilio w = (Ok tt, w).
Proof.
  intros Hin Hdue Hbad.
  assert (Hr : In r (dueReminders w)) by now apply dueReminders_In.
  unfold ReminderScheduler.checkAndSendReminders,
    ReminderRepository.findDueReminders, coll_find, newDate, onReminders.
  unfold_monad_goal. cbv beta. fold (due (clock w)). fold (dueReminders w).
  rewrite world_eta.
  destruct (mapResult Reminder.fromDocument (dueReminders w)) as [l|e] eqn:E;
    [|reflexivity].
  exfalso. revert l E Hr. generalize (dueReminders w).
  induction l as [|d l IH]; intros l' E Hr; [destruct Hr|].
  simpl in E.
  destruct (Reminder.fromDocument d) as [d'|] eqn:Ed; [|discriminate].
  destruct (mapResult Reminder.fromDocument l) as [rs|] eqn:El; [|discriminate].
  destruct Hr as [->|Hr]; [|exact (IH rs eq_refl Hr)].
  unfold Reminder.fromDocument, Reminder.new, Reminder.validate in Ed.
  rewrite Hbad in Ed. discriminate.
Qed.

Lemma tick_world_due_valid `{Platform} (twilio : nat -> string -> string -> bool)
  (w : World) :
  (forall r, In r (docs (reminders w)) -> due (clock w) r = true ->
             Reminder.schemaOk r = true) ->
  ReminderScheduler.checkAndSendReminders twilio w
  = (Ok tt, fold_left (afterSend twilio) (dueReminders w) w).
Proof.
  intros Hv.
  assert (Hf : Forall (fun r => Reminder.schemaOk r = true) (dueReminders w)).
  { apply Forall_forall. intros r Hr. apply dueReminders_In in Hr.
    now apply Hv. }
  unfold ReminderScheduler.checkAndSendReminders,
    ReminderRepository.findDueReminders, coll_find, newDate, onReminders.
  set (body := fun (_ : unit) reminder =>
                 tryCatch (ReminderScheduler.sendReminder twilio reminder)
                          (fun _ => ret tt)).
  unfold_monad_goal. cbv beta. fold (due (clock w)). fold (dueReminders w).
  rewrite world_eta, (mapResult_fromDocument_valid _ Hf).
  destruct (dueReminders w) as [|r rest] eqn:Ef; [reflexivity|].
  cbn [List.length Nat.eqb]. subst body. now rewrite scheduler_loop.
Qed.

Lemma tick_world_valid `{Platform} (twilio : nat -> string -> string -> bool)
  (w : World) :
  Forall (fun r => Reminder.schemaOk r = true) (docs (reminders w)) ->
  ReminderScheduler.checkAndSendReminders twilio w
  = (Ok tt, fold_left (afterSend twilio) (dueReminders w) w).
Proof.
  intros Hv. apply tick_world_due_valid. intros r Hr _.
  exact (proj1 (Forall_forall _ _) Hv r Hr).
Qed.

Lemma applySet_keeps_id (data : PartialReminder) (now : Date) (d : Reminder.t) :
  docId (applySet data now d) = docId d.
Proof. reflexivity. Qed.

Lemma afterSend_find_other `{Platform} (twilio : nat -> string -> string -> bool)
  (w : World) (r : Reminder.t) (i : ObjectId) :
  Reminder._id r <> Some i ->
  find (hasId i) (docs (reminders (afterSend twilio w r)))
  = find (hasId i) (docs (reminders w)).
Proof.
  intros Hne. unfold afterSend. simpl.
  destruct (Reminder._id r) as [i0|]; [|reflexivity].
  destruct (twilio _ _ _); [|reflexivity]. simpl.
  apply updateFirst_find_other; [apply applySet_keeps_id|congruence].
Qed.

Lemma afterSend_find_same `{Platform} (twilio : nat -> string -> string -> bool)
  (w : World) (r : Reminder.t) (i : ObjectId) :
  Reminder._id r = Some i ->
  find (hasId i) (docs (reminders (afterSend twilio w r)))
  = if twilio (List.length (smsAttempts w)) (Reminder.phoneNumber r)
         (ReminderScheduler.formatReminderMessage r)
    then option_map (setSent (clock w)) (find (hasId i) (docs (reminders w)))
    else find (hasId i) (docs (reminders w)).
Proof.
  intros Hid. unfold afterSend. simpl. rewrite Hid.
  destruct (twilio _ _ _); [|reflexivity]. simpl.
  apply updateFirst_find_same. apply applySet_keeps_id.
Qed.

Lemma loop_frame `{Platform} (twilio : nat -> string -> string -> bool)
  (rest : list Reminder.t) (w : World) :
  let w' := fold_left (afterSend twilio) rest w in
  conversations w' = conversations w
  /\ clock w' = clock w
  /\ events w' = events w
  /\ llmCalls w' = llmCalls w
  /\ smsAttempts w'
     = smsAttempts w
       ++ map (fun r => (Reminder.phoneNumber r,
                         ReminderScheduler.formatReminderMessage r)) rest.
Proof.
  revert w. induction rest as [|r rest IH]; intros w; simpl.
  - now rewrite app_nil_r.
  - destruct (IH (afterSend twilio w r)) as [Hc [Hk [He [Hl Hs]]]].
    simpl in *. rewrite Hc, Hk, He, Hl, Hs, <- app_assoc. repeat split.
Qed.

Lemma loop_find `{Platform} (twilio : nat -> string -> string -> bool)
  (rest : list Reminder.t) (w : World) :
  NoDup (idsOf rest) ->
  let w' := fold_left (afterSend twilio) rest w in
  (forall i, ~ In i (idsOf rest) ->
             find (hasId i) (docs (reminders w'))
             = find (hasId i) (docs (reminders w)))
  /\ (forall k r i,
         nth_error rest k = Some r -> Reminder._id r = Some i ->
         find (hasId i) (docs (reminders w'))
         = if twilio (List.length (smsAttempts w) + k)%nat (Reminder.phoneNumber r)
                (ReminderScheduler.formatReminderMessage r)
           then option_map (setSent (clock w)) (find (hasId i) (docs (reminders w)))
           else find (hasId i) (docs (reminders w))).
Proof.
  revert w. induction rest as [|r0 rest IH]; intros w Hnd; simpl.
  - split; [reflexivity|]. intros k r i Hk. destruct k; discriminate.
  - assert (Hnd' : NoDup (idsOf rest)).
    { simpl in Hnd. apply NoDup_app_remove_l in Hnd. exact Hnd. }
    destruct (IH (afterSend twilio w r0) Hnd') as [Hother Hnth].
    split.
    + intros i Hi. rewrite Hother.
      * apply afterSend_find_other. intros Hid. apply Hi.
        apply in_or_app. left. simpl. rewrite Hid. now left.
      * intros Hin. apply Hi. apply in_or_app. now right.
    + intros k r i Hk Hid. destruct k as [|k].
      * simpl in Hk. injection Hk as ->. rewrite Nat.add_0_r.
        rewrite Hother; [now apply afterSend_find_same|].
        simpl in Hnd. change (docId r) with (Reminder._id r) in Hnd.
        rewrite Hid in Hnd. simpl in Hnd. now inversion Hnd.
      * simpl in Hk. rewrite (Hnth k r i Hk Hid).
        assert (Hne : Reminder._id r0 <> Some i).
        { intros Hid0. simpl in Hnd. change (docId r0) with (Reminder._id r0) in Hnd.
          rewrite Hid0 in Hnd. simpl in Hnd. inversion Hnd as [|? ? Hnotin _]; subst.
          apply Hnotin. apply (idsOf_In rest r i); [|exact Hid].
          eapply nth_error_In; eassumption. }
        rewrite (afterSend_find_other twilio w r0 i Hne).
        unfold afterSend at 1 2. simpl. rewrite length_app. simpl.
        replace (List.length (smsAttempts w) + 1 + k)%nat
          with (List.length (smsAttempts w) + S k)%nat by lia.
        reflexivity.
Qed.

Lemma idsOf_filter_NoDup {D} `{Document D} (p : D -> bool) (l : list D) :
  NoDup (idsOf l) -> NoDup (idsOf (filter p l)).
Proof.
  induction l as [|d r IH]; simpl; intros Hnd; [constructor|].
  assert (Hr : NoDup (idsOf r)) by (apply NoDup_app_remove_l in Hnd; exact Hnd).
  destruct (p d); [|now apply IH].
  simpl. destruct (docId d) as [i|]; simpl in *; [|now apply IH].
  inversion Hnd as [|? ? Hnotin _]; subst. constructor; [|now apply IH].
  intros Hin. apply Hnotin. unfold idsOf in *. apply in_flat_map in Hin.
  destruct Hin as [x [Hx Hi]]. apply filter_In in Hx.
  apply in_flat_map. exists x. split; [apply Hx|exact Hi].
Qed.


Lemma nth_error_dueReminders `{Platform} (w : World) (k : nat) (r : Reminder.t) :
  nth_error (dueReminders w) k = Some r ->
  In r (docs (reminders w)) /\ due (clock w) r = true.
Proof.
  intros Hk. apply dueReminders_In. eapply nth_error_In; eassumption.
Qed.

Lemma dueReminders_NoDup `{Platform} (w : World) :
  NoDup (idsOf (docs (reminders w))) -> NoDup (idsOf (dueReminders w)).
Proof.
  intros Hnd.
  apply (Permutation_NoDup
           (l := idsOf (filter (due (clock w)) (docs (reminders w))))).
  - unfold idsOf. apply Permutation_flat_map. apply Permutation_sym.
    apply dueReminders_perm.
  - now apply idsOf_filter_NoDup.
Qed.

(** C7 fails on a reminder the code has stored itself. User 7 creates a
    reminder without description and one with a description. The first is
    written with a [null] description, which the model refuses on reading.
    Once both are due, a tick whose channel accepts every message reads
    nothing: no send is attempted, and both reminders stay pending, also
    the one that could be read. *)
Lemma C7_unreadable_reminder_blocks_the_tick :
  let created :=
    @run examplePlatform
      [ (1000%Z, create_reminder 7%nat 3%nat "+15551234567"
                   (argsCreate "water the plants" "2000"));
        (1100%Z, create_reminder 7%nat 3%nat "+15551234567"
                   (argsDescribed "pay the rent" "by transfer" "2500")) ]
      emptyWorld in
  let after := @perform examplePlatform 3000%Z (scheduler_tick alwaysAccept) created in
  docs (reminders created)
  = [ Reminder.mk (Some 0%nat) 7%nat 3%nat "+15551234567" "water the plants"
        null 2000%Z PENDING 1000%Z 1000%Z;
      Reminder.mk (Some 1%nat) 7%nat 3%nat "+15551234567" "pay the rent"
        (defined "by transfer") 2500%Z PENDING 1100%Z 1100%Z ]
  /\ filter (fun r => Reminder.isDue r 3000%Z) (docs (reminders created))
     = docs (reminders created)
  /\ smsAttempts after = []
  /\ docs (reminders after) = docs (reminders created)
  /\ statusOf 0%nat after = Some PENDING
  /\ statusOf 1%nat after = Some PENDING.
Proof. repeat split. Qed.

(** The scheduler tick, on a store with distinct ids in which every
    reminder that is due satisfies the reminder schema. The reminders
    handed to the Notification Channel are those that are pending with
    [scheduledFor <= now], each once, in the order of the cursor, which is
    some arrangement of them; a reminder that was not selected is left as
    it was; a selected reminder is marked sent when its send succeeded and
    is left as it was, pending, when its send failed, and in both cases
    the reminders after it are still sent. *)
Theorem scheduler_tick_on_readable_reminders `{Platform}
  (twilio : nat -> string -> string -> bool) (w : World) :
  NoDup (idsOf (docs (reminders w))) ->
  (forall r, In r (docs (reminders w)) -> Reminder.isDue r (clock w) = true ->
             Reminder.schemaOk r = true) ->
  exists w',
    ReminderScheduler.checkAndSendReminders twilio w = (Ok tt, w')
    /\ Permutation (dueReminders w)
         (filter (fun r => Reminder.isDue r (clock w)) (docs (reminders w)))
    /\ smsAttempts w'
       = smsAttempts w
         ++ map (fun r => (Reminder.phoneNumber r,
                           ReminderScheduler.formatReminderMessage r))
                (dueReminders w)
    /\ (forall r i,
           In r (docs (reminders w)) -> Reminder._id r = Some i ->
           Reminder.isDue r (clock w) = false ->
           find (hasId i) (docs (reminders w')) = Some r)
    /\ (forall k r i,
           nth_error (dueReminders w) k = Some r ->
           Reminder._id r = Some i ->
           In r (docs (reminders w))
           /\ Reminder.status r = PENDING
           /\ (Reminder.scheduledFor r <= clock w)%Z
           /\ find (hasId i) (docs (reminders w'))
              = Some (if twilio (List.length (smsAttempts w) + k)%nat
                           (Reminder.phoneNumber r)
                           (ReminderScheduler.formatReminderMessage r)
                      then Reminder.markAsSent r (clock w)
                      else r)).
Proof.
  intros Hnd Hvalid.
  change (fun r => Reminder.isDue r (clock w)) with (due (clock w)).
  exists (fold_left (afterSend twilio) (dueReminders w) w).
  split; [now apply tick_world_due_valid|].
  split; [apply dueReminders_perm|].
  destruct (loop_frame twilio (dueReminders w) w) as [_ [_ [_ [_ Hsms]]]].
  destruct (loop_find twilio (dueReminders w) w (dueReminders_NoDup w Hnd))
    as [Hother Hnth].
  split; [exact Hsms|]. split.
  - intros r i Hin Hid Hdue. rewrite Hother.
    + now apply find_hasId_unique.
    + intros Hi. unfold idsOf in Hi. apply in_flat_map in Hi.
      destruct Hi as [x [Hx Hxi]]. apply dueReminders_In in Hx.
      destruct Hx as [Hx Hxdue].
      assert (x = r).
      { destruct (docId x) as [j|] eqn:Ej; simpl in Hxi; [|contradiction].
        destruct Hxi as [<-|[]].
        pose proof (find_hasId_unique _ j x Hnd Hx Ej) as H1.
        pose proof (find_hasId_unique _ j r Hnd Hin Hid) as H2. congruence. }
      subst x. unfold Reminder.isDue, Reminder.isPending in Hdue.
      unfold due in Hxdue. congruence.
  - intros k r i Hk Hid.
    destruct (nth_error_dueReminders w k r Hk) as [Hin Hdue].
    unfold due in Hdue. apply andb_prop in Hdue. destruct Hdue as [Hst Hwhen].
    split; [exact Hin|].
    split; [destruct (Reminder.status r); (reflexivity || discriminate)|].
    split; [now apply Z.leb_le|].
    rewrite (Hnth k r i Hk Hid), (find_hasId_unique _ i r Hnd Hin Hid).
    destruct (twilio _ _ _); reflexivity.
Qed.

Lemma scheduler_tick_on_readable_reminders_witness :
  exists w',
    @ReminderScheduler.checkAndSendReminders examplePlatform failFirst tickWorld
    = (Ok tt, w')
    /\ List.length (smsAttempts w') = 2%nat
    /\ statusOf 1%nat w' = Some PENDING
    /\ statusOf 2%nat w' = Some SENT
    /\ statusOf 3%nat w' = Some PENDING
    /\ statusOf 4%nat w' = Some SENT.
Proof.
  destruct (@scheduler_tick_on_readable_reminders examplePlatform failFirst tickWorld)
    as [w' [Hrun [_ [Hsms [Hnot Hdue]]]]].
  - repeat constructor; simpl; intuition discriminate.
  - intros r Hin _. simpl in Hin.
    destruct Hin as [<-|[<-|[<-|[<-|[]]]]]; reflexivity.
  - exists w'. split; [exact Hrun|]. split; [now rewrite Hsms|].
    unfold statusOf, statusIn.
    destruct (Hdue 0%nat _ 1%nat eq_refl eq_refl) as [_ [_ [_ ->]]].
    destruct (Hdue 1%nat _ 2%nat eq_refl eq_refl) as [_ [_ [_ ->]]].
    rewrite (Hnot _ 3%nat (or_intror (or_intror (or_introl eq_refl))) eq_refl eq_refl).
    rewrite (Hnot _ 4%nat
               (or_intror (or_intror (or_intror (or_introl eq_refl)))) eq_refl eq_refl).
    repeat split.
Defined.

(** ** Status order *)

Lemma advances_refl (l : list Reminder.t) : advances l l.
Proof.
  intros Hnd. split; [assumption|].
  intros id st Hst. exists st. split; [assumption|auto].
Qed.

Lemma advances_trans (a b c : list Reminder.t) :
  advances a b -> advances b c -> advances a c.
Proof.
  intros Hab Hbc Hnd. destruct (Hab Hnd) as [Hb Hsab].
  destruct (Hbc Hb) as [Hc Hsbc]. split; [assumption|].
  intros id st Hst. destruct (Hsab id st Hst) as [st1 [H1 Hr1]].
  destruct (Hsbc id st1 H1) as [st2 [H2 Hr2]]. exists st2. split; [assumption|auto].
Qed.

Lemma advances_updateFirst (f : Reminder.t -> Reminder.t) (i : ObjectId)
  (l : list Reminder.t) :
  (forall d, docId (f d) = docId d) ->
  (NoDup (idsOf l) ->
   forall d, find (hasId i) l = Some d ->
             settled (Reminder.status d) = true ->
             settled (Reminder.status (f d)) = true) ->
  advances l (snd (updateFirst (hasId i) f l)).
Proof.
  intros Hid Hrank Hnd. split.
  - now rewrite updateFirst_idsOf.
  - intros id st Hst. unfold statusIn in *.
    destruct (Nat.eq_dec id i) as [->|Hne].
    + rewrite (updateFirst_find_same f Hid).
      destruct (find (hasId i) l) as [d|] eqn:E; [|discriminate].
      simpl in *. injection Hst as <-. eexists. split; [reflexivity|].
      now apply Hrank.
    + rewrite (updateFirst_find_other f Hid _ _ _ Hne).
      exists st. split; [assumption|auto].
Qed.

Lemma NoDup_snoc {A} (l : list A) (a : A) :
  NoDup l -> ~ In a l -> NoDup (l ++ [a]).
Proof.
  induction l as [|x r IH]; simpl; intros Hnd Hn.
  - constructor; [intros []|constructor].
  - inversion Hnd; subst. constructor.
    + intros Hin. apply in_app_or in Hin. destruct Hin as [Hin|[->|[]]]; intuition.
    + apply IH; intuition.
Qed.

Lemma advances_append (l : list Reminder.t) (d : Reminder.t) (i : ObjectId) :
  docId d = Some i -> existsb (hasId i) l = false -> advances l (l ++ [d]).
Proof.
  intros Hid Hfresh Hnd. split.
  - rewrite idsOf_app. simpl in *. rewrite Hid. simpl.
    apply NoDup_snoc; [assumption|now apply existsb_hasId_notin].
  - intros id st Hst. unfold statusIn in *.
    destruct (find (hasId id) l) as [x|] eqn:E; [|discriminate].
    rewrite (find_app_Some _ _ [d] _ E). exists st. split; [assumption|auto].
Qed.

Lemma create_advances `{Platform} (userId conversationId : ObjectId)
  (phoneNumber : string) (args : ToolArgs) (now : Date)
  (coll : Collection Reminder.t) :
  advances (docs coll)
    (docs (snd (invoke (ReminderTools.createReminderTool userId conversationId
                          phoneNumber) args now coll))).
Proof.
  unfold invoke. simpl.
  destruct (ReminderTools.createSchema now args) as [input|e];
    [|apply advances_refl].
  unfold ReminderTools.createFunc, ReminderRepository.create, coll_insertOne.
  unfold_monad.
  destruct (Reminder.new _) as [r|e] eqn:Er; simpl; [|apply advances_refl].
  unfold Reminder.new in Er. destruct (Reminder.validate _); [|discriminate].
  injection Er as <-. simpl.
  destruct (existsb (hasId (nextId coll)) (docs coll)) eqn:Ex; simpl;
    [apply advances_refl|].
  eapply advances_append; [reflexivity|exact Ex].
Qed.

Lemma update_advances `{Platform} (userId : ObjectId) (args : ToolArgs)
  (now : Date) (coll : Collection Reminder.t) :
  advances (docs coll)
    (docs (snd (invoke (ReminderTools.updateReminderTool userId) args now coll))).
Proof.
  unfold invoke. simpl.
  destruct (ReminderTools.updateSchema now args) as [input|e];
    [|apply advances_refl].
  unfold ReminderTools.updateFunc, ReminderTools.newObjectId.
  destruct (parseObjectId (ReminderTools.u_reminderId input)) as [id|];
    [|apply advances_refl].
  unfold_monad.
  destruct (ReminderRepository.findById id coll) as [found c] eqn:Ef.
  assert (c = coll) as ->.
  { unfold ReminderRepository.findById, ReminderRepository.findOne, coll_findOne in Ef.
    unfold_monad. destruct (find (hasId id) (docs coll)) as [d|];
      [destruct (Reminder.fromDocument d)|]; now inversion Ef. }
  destruct found as [[existing|]|e]; simpl; try apply advances_refl.
  destruct (negb (Reminder.userId existing =? userId)%nat); simpl;
    [apply advances_refl|].
  match goal with
  | |- context [ReminderRepository.update ?i ?d ?n ?c] =>
      pose proof (update_world i d n c) as Hu;
      destruct (ReminderRepository.update i d n c) as [res c'] eqn:Eu
  end.
  simpl in Hu. subst c'.
  assert (Hadv : advances (docs coll)
            (snd (updateFirst (hasId id)
                    (applySet (mkPartial (ReminderTools.ifTruthy
                                            (ReminderTools.u_title input))
                                 (ReminderTools.u_description input)
                                 (ReminderTools.u_scheduledFor input) None) now)
                    (docs coll)))).
  { apply advances_updateFirst; [apply applySet_keeps_id|].
    intros _ d _. simpl. auto. }
  destruct res as [[updated|]|e]; simpl; exact Hadv.
Qed.

Lemma delete_advances `{Platform} (userId : ObjectId) (args : ToolArgs)
  (now : Date) (coll : Collection Reminder.t) :
  advances (docs coll)
    (docs (snd (invoke (ReminderTools.deleteReminderTool userId) args now coll))).
Proof.
  unfold invoke. simpl.
  destruct (ReminderTools.deleteSchema now args) as [input|e];
    [|apply advances_refl].
  unfold ReminderTools.deleteFunc, ReminderTools.newObjectId.
  destruct (parseObjectId (ReminderTools.d_reminderId input)) as [id|];
    [|apply advances_refl].
  unfold_monad.
  destruct (ReminderRepository.findById id coll) as [found c] eqn:Ef.
  assert (c = coll) as ->.
  { unfold ReminderRepository.findById, ReminderRepository.findOne, coll_findOne in Ef.
    unfold_monad. destruct (find (hasId id) (docs coll)) as [d|];
      [destruct (Reminder.fromDocument d)|]; now inversion Ef. }
  destruct found as [[existing|]|e]; simpl; try apply advances_refl.
  destruct (negb (Reminder.userId existing =? userId)%nat); simpl;
    [apply advances_refl|].
  unfold ReminderRepository.cancelReminder, ReminderRepository.updateStatus.
  match goal with
  | |- context [ReminderRepository.update ?i ?d ?n ?c] =>
      pose proof (update_world i d n c) as Hu;
      destruct (ReminderRepository.update i d n c) as [res c'] eqn:Eu
  end.
  simpl in Hu. subst c'.
  assert (Hadv : advances (docs coll)
            (snd (updateFirst (hasId id)
                    (applySet (mkPartial None None None (Some CANCELLED)) now)
                    (docs coll)))).
  { apply advances_updateFirst; [apply applySet_keeps_id|].
    intros _ d _ _. reflexivity. }
  destruct res as [r|e]; simpl; exact Hadv.
Qed.

Lemma loop_idsOf `{Platform} (twilio : nat -> string -> string -> bool)
  (rest : list Reminder.t) (w : World) :
  idsOf (docs (reminders (fold_left (afterSend twilio) rest w)))
  = idsOf (docs (reminders w)).
Proof.
  revert w. induction rest as [|r rest IH]; intros w; simpl; [reflexivity|].
  rewrite IH. unfold afterSend. simpl.
  destruct (Reminder._id r); [|reflexivity].
  destruct (twilio _ _ _); [|reflexivity]. simpl.
  apply updateFirst_idsOf. apply applySet_keeps_id.
Qed.

Lemma afterSend_advances `{Platform} (twilio : nat -> string -> string -> bool)
  (w : World) (r : Reminder.t) :
  advances (docs (reminders w)) (docs (reminders (afterSend twilio w r))).
Proof.
  unfold afterSend. simpl.
  destruct (Reminder._id r) as [i|]; [|apply advances_refl].
  destruct (twilio _ _ _); [|apply advances_refl]. simpl.
  apply advances_updateFirst; [apply applySet_keeps_id|].
  intros _ d _ _. reflexivity.
Qed.

Lemma loop_advances `{Platform} (twilio : nat -> string -> string -> bool)
  (rest : list Reminder.t) (w : World) :
  advances (docs (reminders w))
    (docs (reminders (fold_left (afterSend twilio) rest w))).
Proof.
  revert w. induction rest as [|r rest IH]; intros w; [apply advances_refl|].
  simpl. eapply advances_trans; [apply afterSend_advances|apply IH].
Qed.

Lemma tick_advances `{Platform} (twilio : nat -> string -> string -> bool)
  (w : World) :
  advances (docs (reminders w))
    (docs (reminders (snd (ReminderScheduler.checkAndSendReminders twilio w)))).
Proof.
  destruct (tick_world twilio w) as [E|E]; rewrite E; simpl;
    [apply advances_refl|apply loop_advances].
Qed.

Lemma perform_advances `{Platform} (now : Date) (op : Operation) (w : World) :
  advances (docs (reminders w)) (docs (reminders (perform now op w))).
Proof.
  unfold perform. destruct op as [u c p args|u args|u args|twilio|twilio r].
  - pose proof (create_advances u c p args now (reminders w)) as Ha.
    unfold onReminders. simpl.
    destruct (invoke _ args now (reminders w)); exact Ha.
  - pose proof (update_advances u args now (reminders w)) as Ha.
    unfold onReminders. simpl.
    destruct (invoke _ args now (reminders w)); exact Ha.
  - pose proof (delete_advances u args now (reminders w)) as Ha.
    unfold onReminders. simpl.
    destruct (invoke _ args now (reminders w)); exact Ha.
  - apply (tick_advances twilio (atInstant now w)).
  - rewrite sendReminder_effect. cbn [snd].
    apply (afterSend_advances twilio (atInstant now w) r).
Qed.

Lemma run_advances `{Platform} (ops : list (Date * Operation)) (w : World) :
  advances (docs (reminders w)) (docs (reminders (run ops w))).
Proof.
  revert w. induction ops as [|[now op] ops IH]; intros w; [apply advances_refl|].
  unfold run in *. simpl.
  eapply advances_trans; [apply perform_advances|apply IH].
Qed.






(** ** Frame rules of the monad *)

Section Frame.

Context {X : Type} (proj : World -> X).

Lemma preserves_ret {A} (a : A) : preserves proj (ret a).
Proof. intros w. reflexivity. Qed.

Lemma preserves_throw {A} (e : string) : preserves proj (@throw World A e).
Proof. intros w. reflexivity. Qed.

Lemma preserves_liftResult {A} (r : Result A) : preserves proj (liftResult r).
Proof. intros w. reflexivity. Qed.

Lemma preserves_newDate : preserves proj newDate.
Proof. intros w. reflexivity. Qed.

Lemma preserves_bind {A B} (m : M World A) (k : A -> M World B) :
  preserves proj m -> (forall a, preserves proj (k a)) -> preserves proj (bind m k).
Proof.
  intros Hm Hk w. unfold bind. specialize (Hm w).
  destruct (m w) as [[a|e] w1]; simpl in *; [|assumption].
  now rewrite Hk.
Qed.

Lemma preserves_tryCatch {A} (m : M World A) (h : string -> M World A) :
  preserves proj m -> (forall e, preserves proj (h e)) ->
  preserves proj (tryCatch m h).
Proof.
  intros Hm Hh w. unfold tryCatch. specialize (Hm w).
  destruct (m w) as [[a|e] w1]; simpl in *; [assumption|].
  now rewrite Hh.
Qed.

Lemma preserves_forEach {A B} (xs : list A) (body : B -> A -> M World B) (acc : B) :
  (forall b a, preserves proj (body b a)) -> preserves proj (forEach xs body acc).
Proof.
  intros Hb. revert acc. induction xs as [|x xs IH]; intros acc; simpl.
  - apply preserves_ret.
  - apply preserves_bind; [apply Hb|apply IH].
Qed.

End Frame.

Lemma onReminders_conversations {A} (m : M (Collection Reminder.t) A) :
  preserves conversations (onReminders m).
Proof. intros w. unfold onReminders. now destruct (m (reminders w)). Qed.

Lemma onReminders_llmCalls {A} (m : M (Collection Reminder.t) A) :
  preserves llmCalls (onReminders m).
Proof. intros w. unfold onReminders. now destruct (m (reminders w)). Qed.

Lemma onConversations_llmCalls {A} (m : M (Collection Conversation.t) A) :
  preserves llmCalls (onConversations m).
Proof. intros w. unfold onConversations. now destruct (m (conversations w)). Qed.

Lemma onEvent_conversations (e : AgentEvent) : preserves conversations (onEvent e).
Proof. intros w. reflexivity. Qed.

Lemma onEvent_llmCalls (e : AgentEvent) : preserves llmCalls (onEvent e).
Proof. intros w. reflexivity. Qed.

Lemma logCall_conversations (messages : list BaseMessage) :
  preserves conversations (logCall messages).
Proof. intros w. reflexivity. Qed.

Create HintDb frame.

#[local] Hint Resolve preserves_ret preserves_throw preserves_liftResult
  preserves_newDate onReminders_conversations onReminders_llmCalls
  onConversations_llmCalls onEvent_conversations onEvent_llmCalls
  logCall_conversations : frame.

Ltac frame :=
  repeat first
    [ solve [auto with frame]
    | apply preserves_bind; [|intros ?]
    | apply preserves_tryCatch; [|intros ?]
    | apply preserves_forEach; intros ? ?
    | match goal with
      | |- preserves _ (match ?x with _ => _ end) => destruct x
      end ].

Lemma dispatchToolCall_preserves {X} (proj : World -> X) :
  (forall A (m : M (Collection Reminder.t) A), preserves proj (onReminders m)) ->
  (forall e, preserves proj (onEvent e)) ->
  forall emit tools messages toolCall,
    preserves proj (AgentService.dispatchToolCall emit tools messages toolCall).
Proof.
  intros Hr He emit tools messages toolCall.
  unfold AgentService.dispatchToolCall, AgentService.emitIf.
  destruct (AgentService.findTool tools (tc_name toolCall)); [|apply preserves_ret].
  apply preserves_bind; [destruct emit; [apply He|apply preserves_ret]|intros _].
  apply preserves_bind; [apply preserves_newDate|intros now].
  apply preserves_bind.
  - apply preserves_tryCatch; [|intros e; apply preserves_ret].
    apply preserves_bind; [apply Hr|intros j; apply preserves_ret].
  - intros output.
    apply preserves_bind; [destruct emit; [apply He|apply preserves_ret]|intros _].
    apply preserves_ret.
Qed.

Lemma consumeChunk_preserves {X} (proj : World -> X) :
  (forall e, preserves proj (onEvent e)) ->
  forall st chunk, preserves proj (AgentService.consumeChunk st chunk).
Proof.
  intros He st chunk. unfold AgentService.consumeChunk.
  destruct (AgentService.nonEmpty (chunk_content chunk)); [|apply preserves_ret].
  apply preserves_bind; [|intros _; apply preserves_ret].
  destruct (_ =? _)%nat; [apply He|apply preserves_ret].
Qed.

Lemma appendMessage_llmCalls (id : ObjectId) (r : Role) (text : string) :
  preserves llmCalls (AgentService.appendMessage id r text).
Proof. unfold AgentService.appendMessage. frame. Qed.

Lemma resolveConversation_llmCalls (userId : ObjectId) (phoneNumber : string)
  (conversationId : option ObjectId) :
  preserves llmCalls
    (AgentService.resolveConversation userId phoneNumber conversationId).
Proof. unfold AgentService.resolveConversation. frame. Qed.

Lemma idOf_preserves {X} (proj : World -> X) (c : Conversation.t) :
  preserves proj (AgentService.idOf c).
Proof. unfold AgentService.idOf. destruct (Conversation._id c); frame. Qed.

Lemma prepareMessages_preserves `{Platform} {X} (proj : World -> X)
  (c : Conversation.t) (message : string) :
  preserves proj (AgentService.prepareMessages c message).
Proof.
  unfold AgentService.prepareMessages, AgentService.getSystemMessage. frame.
Qed.

(** ** Completion calls *)

Lemma calls_preserves {A} (n : nat) (m : M World A) :
  preserves llmCalls m -> calls n m.
Proof.
  intros Hm w. exists []. rewrite app_nil_r. split; [apply Hm|simpl; lia].
Qed.


Lemma calls_bind {A B} (a b : nat) (m : M World A) (k : A -> M World B) :
  calls a m -> (forall x, calls b (k x)) -> calls (a + b) (bind m k).
Proof.
  intros Hm Hk w. unfold bind. destruct (Hm w) as [l [Hl Hlen]].
  destruct (m w) as [[x|e] w1]; simpl in *.
  - destruct (Hk x w1) as [l' [Hl' Hlen']]. exists (l ++ l').
    rewrite Hl', Hl, app_assoc, length_app. split; [reflexivity|lia].
  - exists l. split; [assumption|lia].
Qed.

Lemma calls_logCall (messages : list BaseMessage) : calls 1 (logCall messages).
Proof. intros w. exists [messages]. split; [reflexivity|simpl; lia]. Qed.

Lemma dispatch_calls (emit : bool) (tools : list DynamicStructuredTool)
  (calls0 : list ToolCall) (messages : list BaseMessage) :
  calls 0 (forEach calls0 (AgentService.dispatchToolCall emit tools) messages).
Proof.
  apply calls_preserves. apply preserves_forEach. intros b a.
  apply dispatchToolCall_preserves;
    [intros; apply onReminders_llmCalls|apply onEvent_llmCalls].
Qed.

Lemma streamLoop_calls `{Platform} (llm : CompletionClient)
  (tools : list DynamicStructuredTool) (n : nat) :
  forall messages finalResponse,
    calls n (AgentService.streamLoop llm tools n messages finalResponse).
Proof.
  induction n as [|n IH]; intros messages finalResponse; simpl.
  - apply calls_preserves, preserves_ret.
  - apply (calls_bind 1 n); [apply calls_logCall|intros k].
    apply (calls_bind 0 n).
    { apply calls_preserves, preserves_forEach. intros b a.
      apply consumeChunk_preserves, onEvent_llmCalls. }
    intros st.
    destruct (streamError (llm_stream llm k messages));
      [apply calls_preserves, preserves_throw|].
    destruct (fst st) as [gathered|]; [|apply calls_preserves, preserves_ret].
    destruct (0 <? _)%nat; [|apply calls_preserves, preserves_ret].
    apply (calls_bind 0 n); [apply dispatch_calls|intros messages'; apply IH].
Qed.

Lemma invokeLoop_calls (llm : CompletionClient)
  (tools : list DynamicStructuredTool) (n : nat) :
  forall messages, calls n (AgentService.invokeLoop llm tools n messages).
Proof.
  induction n as [|n IH]; intros messages; simpl.
  - apply calls_preserves, preserves_ret.
  - apply (calls_bind 1 n); [apply calls_logCall|intros k].
    apply (calls_bind 0 n); [apply calls_preserves, preserves_liftResult|].
    intros reply.
    destruct (0 <? _)%nat; [|apply calls_preserves, preserves_ret].
    apply (calls_bind 0 n); [apply dispatch_calls|intros messages'; apply IH].
Qed.

Lemma processMessageStream_calls `{Platform} (llm : CompletionClient)
  (userId : ObjectId) (phoneNumber message : string)
  (conversationId : option ObjectId) :
  calls 5 (AgentService.processMessageStream llm userId phoneNumber message
             conversationId).
Proof.
  unfold AgentService.processMessageStream.
  apply (calls_bind 0 5);
    [apply calls_preserves, resolveConversation_llmCalls|intros conversation].
  apply (calls_bind 0 5); [apply calls_preserves, idOf_preserves|intros id].
  apply (calls_bind 0 5); [apply calls_preserves, onEvent_llmCalls|intros _].
  apply (calls_bind 0 5); [apply calls_preserves, appendMessage_llmCalls|intros _].
  apply (calls_bind 0 5);
    [apply calls_preserves, prepareMessages_preserves|intros messages].
  apply (calls_bind 5 0); [apply streamLoop_calls|intros finalResponse].
  apply calls_preserves.
  destruct (AgentService.nonEmpty finalResponse);
    [apply appendMessage_llmCalls|apply preserves_ret].
Qed.

Lemma processMessage_calls `{Platform} (llm : CompletionClient)
  (userId : ObjectId) (phoneNumber message : string)
  (conversationId : option ObjectId) :
  calls 5 (AgentService.processMessage llm userId phoneNumber message
             conversationId).
Proof.
  unfold AgentService.processMessage.
  apply (calls_bind 0 5);
    [apply calls_preserves, resolveConversation_llmCalls|intros conversation].
  apply (calls_bind 0 5); [apply calls_preserves, idOf_preserves|intros id].
  apply (calls_bind 0 5); [apply calls_preserves, appendMessage_llmCalls|intros _].
  apply (calls_bind 0 5);
    [apply calls_preserves, prepareMessages_preserves|intros messages].
  apply (calls_bind 5 0); [apply invokeLoop_calls|intros finalResponse].
  apply (calls_bind 0 0); [apply calls_preserves, appendMessage_llmCalls|intros _].
  apply calls_preserves, preserves_ret.
Qed.

(** C4. Whatever the Completion Client answers, one run of the agent loop,
    streaming or not, adds at most 5 prompts to those sent to the client;
    a client that proposes a tool call in every round is asked exactly 5
    times and the run then ends without a sixth call. *)
Theorem C4_at_most_five_completion_calls :
  (forall (P : Platform) (llm : CompletionClient) (userId : ObjectId)
          (phoneNumber message : string) (conversationId : option ObjectId)
          (w : World),
      exists sent,
        llmCalls (snd (AgentService.processMessageStream llm userId phoneNumber
                         message conversationId w))
        = llmCalls w ++ sent
        /\ (List.length sent <= 5)%nat)
  /\ (forall (P : Platform) (llm : CompletionClient) (userId : ObjectId)
             (phoneNumber message : string) (conversationId : option ObjectId)
             (w : World),
         exists sent,
           llmCalls (snd (AgentService.processMessage llm userId phoneNumber
                            message conversationId w))
           = llmCalls w ++ sent
           /\ (List.length sent <= 5)%nat)
  /\ (fst (@AgentService.processMessageStream examplePlatform alwaysListing
             7%nat "+15551234567" "c" (Some 1%nat) chatWorld) = Ok tt
      /\ List.length
           (llmCalls (snd (@AgentService.processMessageStream examplePlatform
                             alwaysListing 7%nat "+15551234567" "c" (Some 1%nat)
                             chatWorld))) = 5%nat)
  /\ (fst (@AgentService.processMessage examplePlatform alwaysListing
             7%nat "+15551234567" "c" (Some 1%nat) chatWorld)
      = Ok (mkResponse EmptyString 1%nat)
      /\ List.length
           (llmCalls (snd (@AgentService.processMessage examplePlatform
                             alwaysListing 7%nat "+15551234567" "c" (Some 1%nat)
                             chatWorld))) = 5%nat).
Proof.
  split; [|split; [|split]].
  - intros P llm userId phoneNumber message conversationId w.
    apply processMessageStream_calls.
  - intros P llm userId phoneNumber message conversationId w.
    apply processMessage_calls.
  - split; vm_compute; reflexivity.
  - split; vm_compute; reflexivity.
Qed.

(** ** First round of the loop *)

Lemma resolve_found (userId : ObjectId) (phoneNumber : string) (id : ObjectId)
  (d : Conversation.t) (w : World) :
  find (hasId id) (docs (conversations w)) = Some d ->
  Conversation.schemaOk d = true ->
  AgentService.resolveConversation userId phoneNumber (Some id) w = (Ok d, w).
Proof.
  intros Hf Hok.
  unfold AgentService.resolveConversation, onConversations,
    ConversationRepository.findById, ConversationRepository.findOne, coll_findOne.
  unfold_monad. rewrite Hf, (fromDocument_conversation _ Hok). simpl.
  now rewrite world_eta.
Qed.

Lemma appendMessage_frame (id : ObjectId) (r : Role) (text : string) (w : World) :
  let w' := snd (AgentService.appendMessage id r text w) in
  llmCalls w' = llmCalls w /\ clock w' = clock w /\ reminders w' = reminders w.
Proof.
  unfold AgentService.appendMessage, onConversations, newDate. unfold_monad.
  destruct (ConversationRepository.appendMessage id r text (clock w)
              (conversations w)) as [[o|e] c]; simpl; repeat split.
Qed.

Lemma appendMessage_found (id : ObjectId) (r : Role) (text : string)
  (d : Conversation.t) (w : World) :
  find (hasId id) (docs (conversations w)) = Some d ->
  Conversation.schemaOk d = true ->
  fst (AgentService.appendMessage id r text w) = Ok tt
  /\ storedMessages id (snd (AgentService.appendMessage id r text w))
     = Some (Conversation.messages d ++ [mkMessage r text (clock w)]).
Proof.
  intros Hf Hok.
  unfold AgentService.appendMessage, onConversations, newDate,
    ConversationRepository.appendMessage, ConversationRepository.findById,
    ConversationRepository.findOne, coll_findOne, coll_updateOne,
    coll_findOneAndUpdate.
  unfold_monad. rewrite Hf, (fromDocument_conversation _ Hok). simpl.
  pose proof (updateFirst_find_same
                (ConversationRepository.setAppended
                   (Conversation.addMessage d r text (clock w)))
                (fun _ => eq_refl) id (docs (conversations w))) as Hu.
  destruct (updateFirst (hasId id)
              (ConversationRepository.setAppended
                 (Conversation.addMessage d r text (clock w)))
              (docs (conversations w))) as [o l].
  simpl in *. split; [reflexivity|].
  unfold storedMessages. simpl. rewrite Hu, Hf. reflexivity.
Qed.

Lemma prepareMessages_run `{Platform} (c : Conversation.t) (message : string)
  (w : World) :
  AgentService.prepareMessages c message w
  = (Ok ([SystemMessage (systemPolicy (toISOString (clock w)))]
         ++ map AgentService.toBaseMessage
              (removelast (Conversation.getFormattedHistory c))
         ++ [HumanMessage message]), w).
Proof. reflexivity. Qed.

Lemma streamLoop_first `{Platform} (llm : CompletionClient)
  (tools : list DynamicStructuredTool) (n : nat) (messages : list BaseMessage)
  (finalResponse : string) (w : World) :
  exists later,
    llmCalls (snd (AgentService.streamLoop llm tools (S n) messages finalResponse w))
    = llmCalls w ++ messages :: later.
Proof.
  pose proof (streamLoop_calls llm tools n) as Hn.
  cbn [AgentService.streamLoop]. unfold bind at 1. unfold logCall at 1.
  match goal with
  | |- context [snd (?k ?w1)] =>
      assert (Hk : calls n k); [|destruct (Hk w1) as [l [Hl _]]]
  end.
  - apply (calls_bind 0 n).
    { apply calls_preserves, preserves_forEach. intros b a.
      apply consumeChunk_preserves, onEvent_llmCalls. }
    intros st.
    destruct (streamError _); [apply calls_preserves, preserves_throw|].
    destruct (fst st) as [gathered|]; [|apply calls_preserves, preserves_ret].
    destruct (0 <? _)%nat; [|apply calls_preserves, preserves_ret].
    apply (calls_bind 0 n); [apply dispatch_calls|intros messages'; apply Hn].
  - exists l. rewrite Hl. simpl. now rewrite <- app_assoc.
Qed.

Lemma invokeLoop_first (llm : CompletionClient)
  (tools : list DynamicStructuredTool) (n : nat) (messages : list BaseMessage)
  (w : World) :
  exists later,
    llmCalls (snd (AgentService.invokeLoop llm tools (S n) messages w))
    = llmCalls w ++ messages :: later.
Proof.
  pose proof (invokeLoop_calls llm tools n) as Hn.
  cbn [AgentService.invokeLoop]. unfold bind at 1. unfold logCall at 1.
  match goal with
  | |- context [snd (?k ?w1)] =>
      assert (Hk : calls n k); [|destruct (Hk w1) as [l [Hl _]]]
  end.
  - apply (calls_bind 0 n); [apply calls_preserves, preserves_liftResult|].
    intros reply.
    destruct (0 <? _)%nat; [|apply calls_preserves, preserves_ret].
    apply (calls_bind 0 n); [apply dispatch_calls|intros messages'; apply Hn].
  - exists l. rewrite Hl. simpl. now rewrite <- app_assoc.
Qed.

(** The prompt both entry points send in the first round, on a stored
    conversation: the history is read from the copy loaded before the user
    message was stored, and its last entry is dropped. *)
Lemma first_round_prompt `{Platform} (llm : CompletionClient) (userId : ObjectId)
  (phoneNumber message : string) (id : ObjectId) (d : Conversation.t) (w : World) :
  find (hasId id) (docs (conversations w)) = Some d ->
  Conversation.schemaOk d = true ->
  (exists later,
      llmCalls (snd (AgentService.processMessageStream llm userId phoneNumber
                       message (Some id) w))
      = llmCalls w
        ++ ([SystemMessage (systemPolicy (toISOString (clock w)))]
            ++ map AgentService.toBaseMessage
                 (removelast (Conversation.getFormattedHistory d))
            ++ [HumanMessage message]) :: later)
  /\ (exists later,
         llmCalls (snd (AgentService.processMessage llm userId phoneNumber
                          message (Some id) w))
         = llmCalls w
           ++ ([SystemMessage (systemPolicy (toISOString (clock w)))]
               ++ map AgentService.toBaseMessage
                    (removelast (Conversation.getFormattedHistory d))
               ++ [HumanMessage message]) :: later).
Proof.
  intros Hf Hok.
  destruct (find_hasId_id _ _ _ Hf) as [_ Hid]. simpl in Hid.
  split.
  - unfold AgentService.processMessageStream.
    unfold bind at 1. rewrite (resolve_found _ _ _ _ _ Hf Hok).
    unfold bind at 1. unfold AgentService.idOf. rewrite Hid. unfold ret at 1.
    unfold bind at 1. unfold onEvent at 1.
    set (w0 := mkWorld _ _ _ _ _ _).
    assert (Hf0 : find (hasId id) (docs (conversations w0)) = Some d) by exact Hf.
    destruct (appendMessage_found id user message d w0 Hf0 Hok) as [Hr _].
    destruct (appendMessage_frame id user message w0) as [Hl [Hc _]].
    unfold bind at 1.
    destruct (AgentService.appendMessage id user message w0) as [r w1].
    simpl in Hr, Hl, Hc. subst r.
    unfold bind at 1. rewrite prepareMessages_run.
    unfold AgentService.maxIterations. unfold bind at 1.
    destruct (streamLoop_first llm
                (ReminderTools.getAllTools userId id phoneNumber) 4
                ([SystemMessage (systemPolicy (toISOString (clock w1)))]
                 ++ map AgentService.toBaseMessage
                      (removelast (Conversation.getFormattedHistory d))
                 ++ [HumanMessage message]) EmptyString w1) as [later Hlater].
    destruct (AgentService.streamLoop _ _ _ _ _ w1) as [[text|e] w2];
      simpl in Hlater; exists later.
    + rewrite Hc, Hl in Hlater.
      destruct (AgentService.nonEmpty text); [|exact Hlater].
      now rewrite appendMessage_llmCalls.
    + rewrite Hc, Hl in Hlater. exact Hlater.
  - unfold AgentService.processMessage.
    unfold bind at 1. rewrite (resolve_found _ _ _ _ _ Hf Hok).
    unfold bind at 1. unfold AgentService.idOf. rewrite Hid. unfold ret at 1.
    destruct (appendMessage_found id user message d w Hf Hok) as [Hr _].
    destruct (appendMessage_frame id user message w) as [Hl [Hc _]].
    unfold bind at 1.
    destruct (AgentService.appendMessage id user message w) as [r w1].
    simpl in Hr, Hl, Hc. subst r.
    unfold bind at 1. rewrite prepareMessages_run.
    unfold AgentService.maxIterations. unfold bind at 1.
    destruct (invokeLoop_first llm
                (ReminderTools.getAllTools userId id phoneNumber) 4
                ([SystemMessage (systemPolicy (toISOString (clock w1)))]
                 ++ map AgentService.toBaseMessage
                      (removelast (Conversation.getFormattedHistory d))
                 ++ [HumanMessage message]) w1) as [later Hlater].
    destruct (AgentService.invokeLoop _ _ _ _ w1) as [[text|e] w2];
      simpl in Hlater; exists later.
    + rewrite Hc, Hl in Hlater.
      unfold bind at 1.
      pose proof (appendMessage_llmCalls id assistant text w2) as Ha.
      destruct (AgentService.appendMessage id assistant text w2) as [[u|e] w3];
        simpl in *; congruence.
    + rewrite Hc, Hl in Hlater. exact Hlater.
Qed.

(** C1 fails on the code. Conversation 1 holds the exchange "a" (user),
    "b" (assistant) when the message "c" arrives: the specification has the first
    prompt carry the whole history before "c", and both entry points send
    the history without its last message "b". *)
Theorem C1_first_prompt_drops_last_stored_message :
  storedMessages 1%nat chatWorld
  = Some [mkMessage user "a" 10%Z; mkMessage assistant "b" 11%Z]
  /\ hd_error
       (llmCalls (snd (@AgentService.processMessageStream examplePlatform
                         (answers "ok") 7%nat "+15551234567" "c" (Some 1%nat)
                         chatWorld)))
     = Some [SystemMessage "Today is 1000."; HumanMessage "a"; HumanMessage "c"]
  /\ hd_error
       (llmCalls (snd (@AgentService.processMessage examplePlatform
                         (answers "ok") 7%nat "+15551234567" "c" (Some 1%nat)
                         chatWorld)))
     = Some [SystemMessage "Today is 1000."; HumanMessage "a"; HumanMessage "c"]
  /\ [SystemMessage "Today is 1000."; HumanMessage "a"; HumanMessage "c"]
     <> [SystemMessage "Today is 1000."; HumanMessage "a"; AIMessage "b" [];
         HumanMessage "c"].
Proof.
  split; [reflexivity|]. split; [vm_compute; reflexivity|].
  split; [vm_compute; reflexivity|]. discriminate.
Qed.

(** ** What a run stores in the conversation *)

Lemma logCall_clock (messages : list BaseMessage) : preserves clock (logCall messages).
Proof. intros w. reflexivity. Qed.

Lemma onEvent_clock (e : AgentEvent) : preserves clock (onEvent e).
Proof. intros w. reflexivity. Qed.

Lemma onReminders_clock {A} (m : M (Collection Reminder.t) A) :
  preserves clock (onReminders m).
Proof. intros w. unfold onReminders. now destruct (m (reminders w)). Qed.

Lemma streamLoop_preserves `{Platform} {X} (proj : World -> X)
  (llm : CompletionClient) (tools : list DynamicStructuredTool) :
  (forall A (m : M (Collection Reminder.t) A), preserves proj (onReminders m)) ->
  (forall e, preserves proj (onEvent e)) ->
  (forall messages, preserves proj (logCall messages)) ->
  forall n messages finalResponse,
    preserves proj (AgentService.streamLoop llm tools n messages finalResponse).
Proof.
  intros Hr He Hl. induction n as [|n IH]; intros messages finalResponse; simpl.
  - apply preserves_ret.
  - apply preserves_bind; [apply Hl|intros k].
    apply preserves_bind.
    { apply preserves_forEach. intros b a. now apply consumeChunk_preserves. }
    intros st. destruct (streamError _); [apply preserves_throw|].
    destruct (fst st); [|apply preserves_ret].
    destruct (0 <? _)%nat; [|apply preserves_ret].
    apply preserves_bind; [|intros messages'; apply IH].
    apply preserves_forEach. intros ? ?. now apply dispatchToolCall_preserves.
Qed.

Lemma appendMessage_cases (id : ObjectId) (r : Role) (text : string) (w : World) :
  conversations (snd (AgentService.appendMessage id r text w)) = conversations w
  \/ exists d,
       find (hasId id) (docs (conversations w)) = Some d
       /\ storedMessages id (snd (AgentService.appendMessage id r text w))
          = Some (Conversation.messages d ++ [mkMessage r text (clock w)]).
Proof.
  destruct (find (hasId id) (docs (conversations w))) as [d|] eqn:Hf.
  - destruct (Conversation.schemaOk d) eqn:Hok.
    + right. exists d. split; [reflexivity|].
      now apply appendMessage_found.
    + left.
      unfold AgentService.appendMessage, onConversations, newDate,
        ConversationRepository.appendMessage, ConversationRepository.findById,
        ConversationRepository.findOne, coll_findOne.
      unfold_monad. rewrite Hf.
      unfold Conversation.fromDocument, Conversation.new, Conversation.validate.
      rewrite Hok. reflexivity.
  - left.
    unfold AgentService.appendMessage, onConversations, newDate,
      ConversationRepository.appendMessage, ConversationRepository.findById,
      ConversationRepository.findOne, coll_findOne.
    unfold_monad. rewrite Hf. reflexivity.
Qed.

(** The streaming entry point stores the assistant's reply only when its
    text is not empty. *)
Lemma stream_stores_no_empty_reply `{Platform} (llm : CompletionClient)
  (userId : ObjectId) (phoneNumber message : string) (id : ObjectId)
  (d : Conversation.t) (w : World) :
  find (hasId id) (docs (conversations w)) = Some d ->
  Conversation.schemaOk d = true ->
  storedMessages id
    (snd (AgentService.processMessageStream llm userId phoneNumber message
            (Some id) w))
  = Some (Conversation.messages d ++ [mkMessage user message (clock w)])
  \/ exists text,
       text <> EmptyString
       /\ storedMessages id
            (snd (AgentService.processMessageStream llm userId phoneNumber
                    message (Some id) w))
          = Some ((Conversation.messages d ++ [mkMessage user message (clock w)])
                  ++ [mkMessage assistant text (clock w)]).
Proof.
  intros Hf Hok.
  destruct (find_hasId_id _ _ _ Hf) as [_ Hid]. simpl in Hid.
  remember (snd (AgentService.processMessageStream llm userId phoneNumber message
                   (Some id) w)) as w' eqn:Hw'.
  unfold AgentService.processMessageStream in Hw'.
  unfold bind at 1 in Hw'. rewrite (resolve_found _ _ _ _ _ Hf Hok) in Hw'.
  unfold bind at 1 in Hw'. unfold AgentService.idOf in Hw'. rewrite Hid in Hw'.
  unfold ret at 1 in Hw'.
  unfold bind at 1 in Hw'. unfold onEvent at 1 in Hw'.
  set (w0 := mkWorld _ _ _ _ _ _) in Hw'.
  assert (Hf0 : find (hasId id) (docs (conversations w0)) = Some d) by exact Hf.
  destruct (appendMessage_found id user message d w0 Hf0 Hok) as [Hr Hm].
  destruct (appendMessage_frame id user message w0) as [_ [Hc _]].
  unfold bind at 1 in Hw'.
  destruct (AgentService.appendMessage id user message w0) as [r w1].
  simpl in Hr, Hm, Hc. subst r. change (clock w0) with (clock w) in *.
  unfold bind at 1 in Hw'. rewrite prepareMessages_run in Hw'.
  unfold bind at 1 in Hw'.
  pose proof (streamLoop_preserves conversations llm
                (ReminderTools.getAllTools userId id phoneNumber)
                (@onReminders_conversations) onEvent_conversations
                logCall_conversations AgentService.maxIterations
                ([SystemMessage (systemPolicy (toISOString (clock w1)))]
                 ++ map AgentService.toBaseMessage
                      (removelast (Conversation.getFormattedHistory d))
                 ++ [HumanMessage message]) EmptyString w1) as Hconv.
  pose proof (streamLoop_preserves clock llm
                (ReminderTools.getAllTools userId id phoneNumber)
                (@onReminders_clock) onEvent_clock logCall_clock
                AgentService.maxIterations
                ([SystemMessage (systemPolicy (toISOString (clock w1)))]
                 ++ map AgentService.toBaseMessage
                      (removelast (Conversation.getFormattedHistory d))
                 ++ [HumanMessage message]) EmptyString w1) as Hclock.
  destruct (AgentService.streamLoop _ _ _ _ _ w1) as [[text|e] w2];
    simpl in Hconv, Hclock.
  - destruct text as [|c text]; unfold AgentService.nonEmpty in Hw';
      cbv beta iota in Hw'.
    + left. subst w'. unfold storedMessages in *. simpl. now rewrite Hconv.
    + destruct (appendMessage_cases id assistant (String c text) w2)
        as [Hsame|[d' [Hf' Hstored]]].
      * left. subst w'. unfold storedMessages in *. now rewrite Hsame, Hconv.
      * right. exists (String c text). split; [discriminate|].
        subst w'. rewrite Hstored. unfold storedMessages in Hm.
        rewrite <- Hconv, Hf' in Hm. simpl in Hm. injection Hm as ->.
        now rewrite Hclock, Hc.
  - left. subst w'. unfold storedMessages in *. simpl. now rewrite Hconv.
Qed.

(** C3 fails on the code. The client proposes a tool call in each of the
    five rounds, so both loops end with an empty final text. The streaming
    entry point leaves the conversation as it was once the user message "c"
    was stored; the non-streaming entry point appends an assistant message
    with empty content. *)
Theorem C3_non_streaming_stores_empty_reply :
  storedMessages 1%nat
    (snd (@AgentService.processMessageStream examplePlatform alwaysListing
            7%nat "+15551234567" "c" (Some 1%nat) chatWorld))
  = Some [mkMessage user "a" 10%Z; mkMessage assistant "b" 11%Z;
          mkMessage user "c" 1000%Z]
  /\ fst (@AgentService.processMessage examplePlatform alwaysListing
            7%nat "+15551234567" "c" (Some 1%nat) chatWorld)
     = Ok (mkResponse EmptyString 1%nat)
  /\ storedMessages 1%nat
       (snd (@AgentService.processMessage examplePlatform alwaysListing
               7%nat "+15551234567" "c" (Some 1%nat) chatWorld))
     = Some [mkMessage user "a" 10%Z; mkMessage assistant "b" 11%Z;
             mkMessage user "c" 1000%Z; mkMessage assistant EmptyString 1000%Z].
Proof. repeat split; vm_compute; reflexivity. Qed.

(** ** Phone numbers of the webhook *)

Lemma prefix_char (a : ascii) (s : string) :
  String.prefix (String a EmptyString) s = true -> exists rest, s = String a rest.
Proof.
  destruct s as [|c r]; [discriminate|].
  change (String.prefix (String a EmptyString) (String c r))
    with (match ascii_dec a c with
          | left _ => String.prefix EmptyString r
          | right _ => false
          end).
  destruct (ascii_dec a c) as [<-|]; intros Hp; [now exists r|discriminate].
Qed.

Lemma digitsOf_digits (s : string) :
  forallb isDigit (list_ascii_of_string (TwilioService.digitsOf s)) = true.
Proof.
  induction s as [|c r IH]; simpl; [reflexivity|].
  destruct (isDigit c) eqn:E; simpl; [now rewrite E|assumption].
Qed.

Lemma digitsOf_all_digits (s : string) :
  forallb isDigit (list_ascii_of_string s) = true -> TwilioService.digitsOf s = s.
Proof.
  induction s as [|c r IH]; simpl; [reflexivity|]. intros Hd.
  apply andb_prop in Hd. destruct Hd as [Hc Hr]. now rewrite Hc, IH.
Qed.

Lemma isNonZeroDigit_isDigit (c : ascii) : isNonZeroDigit c = true -> isDigit c = true.
Proof.
  unfold isNonZeroDigit, isDigit. intros Hc. apply andb_prop in Hc.
  destruct Hc as [H1 H2]. apply Nat.leb_le in H1. rewrite H2, andb_true_r.
  apply Nat.leb_le. lia.
Qed.

Lemma isE164_shape (s : string) :
  isE164 s = true ->
  exists d rest,
    s = String "+" (String d rest)
    /\ isNonZeroDigit d = true
    /\ forallb isDigit (list_ascii_of_string rest) = true
    /\ (1 <= String.length rest <= 14)%nat.
Proof.
  destruct s as [|p [|d rest]]; simpl; try discriminate. intros Hs.
  repeat (apply andb_prop in Hs; destruct Hs as [Hs ?]).
  apply Ascii.eqb_eq in Hs. subst p. exists d, rest.
  repeat split; try assumption; now apply Nat.leb_le.
Qed.

Lemma isE164_plus_digits (d : ascii) (rest : string) :
  isNonZeroDigit d = true ->
  forallb isDigit (list_ascii_of_string rest) = true ->
  (1 <= String.length rest <= 14)%nat ->
  isE164 (String "+" (String d rest)) = true.
Proof.
  intros Hd Hr [H1 H2]. unfold isE164. rewrite Ascii.eqb_refl, Hd, Hr.
  apply Nat.leb_le in H1. apply Nat.leb_le in H2. now rewrite H1, H2.
Qed.

(** X1. Whatever it is given, [formatPhoneNumber] returns a string that
    starts with "+"; the sender [extractWebhookData] reports is therefore
    never empty, and it is the bare "+" when the payload has no [From]. *)
Theorem X1_formatted_number_starts_with_plus :
  (forall phoneNumber,
      exists rest, TwilioService.formatPhoneNumber phoneNumber = String "+" rest)
  /\ (forall body,
         TwilioService.from (TwilioService.extractWebhookData body) <> EmptyString)
  /\ (forall text,
         TwilioService.from
           (TwilioService.extractWebhookData (TwilioService.mkBody None text))
         = "+").
Proof.
  assert (Hplus : forall phoneNumber,
             exists rest,
               TwilioService.formatPhoneNumber phoneNumber = String "+" rest).
  { intros p. unfold TwilioService.formatPhoneNumber, TwilioService.startsWith.
    destruct (_ && _); [eexists; reflexivity|].
    destruct (_ =? 10)%nat; [eexists; reflexivity|].
    destruct (String.prefix "+" p) eqn:E; [|eexists; reflexivity].
    now apply prefix_char. }
  split; [exact Hplus|]. split; [|reflexivity].
  intros body. unfold TwilioService.extractWebhookData. simpl.
  destruct (Hplus (TwilioService.orEmpty (TwilioService.From body))) as [r ->].
  discriminate.
Qed.

(** X2. A number written with exactly ten digits, whatever else it
    contains, becomes "+1" followed by those digits, and one written with
    eleven digits of which the first is 1 becomes "+" followed by them; in
    both cases the result has the E.164 form the models require. *)
Theorem X2_north_american_numbers (phoneNumber : string) :
  ((String.length (TwilioService.digitsOf phoneNumber) = 10)%nat ->
   TwilioService.formatPhoneNumber phoneNumber
   = ("+1" ++ TwilioService.digitsOf phoneNumber)%string
   /\ isE164 (TwilioService.formatPhoneNumber phoneNumber) = true)
  /\ ((String.length (TwilioService.digitsOf phoneNumber) = 11)%nat ->
      TwilioService.startsWith (TwilioService.digitsOf phoneNumber) "1" = true ->
      TwilioService.formatPhoneNumber phoneNumber
      = ("+" ++ TwilioService.digitsOf phoneNumber)%string
      /\ isE164 (TwilioService.formatPhoneNumber phoneNumber) = true).
Proof.
  pose proof (digitsOf_digits phoneNumber) as Hd.
  unfold TwilioService.formatPhoneNumber. split.
  - intros Hlen. rewrite Hlen. simpl. split; [reflexivity|].
    apply (isE164_plus_digits "1"); [reflexivity|exact Hd|lia].
  - intros Hlen Hone. rewrite Hlen, Hone. simpl. split; [reflexivity|].
    unfold TwilioService.startsWith in Hone.
    destruct (prefix_char _ _ Hone) as [r Hr]. rewrite Hr in *.
    simpl in Hd, Hlen.
    apply (isE164_plus_digits "1"); [reflexivity|exact Hd|lia].
Qed.

Lemma X2_north_american_numbers_witness :
  TwilioService.formatPhoneNumber "(555) 123-4567" = "+15551234567"
  /\ isE164 (TwilioService.formatPhoneNumber "(555) 123-4567") = true.
Proof.
  apply (proj1 (X2_north_american_numbers "(555) 123-4567")). reflexivity.
Defined.

(** X3. On a number that already has the E.164 form, [formatPhoneNumber]
    is the identity, except when the number has exactly ten digits: then
    "+1" is put before the digits and the number is changed. *)
Theorem X3_format_of_E164 (phoneNumber : string) :
  isE164 phoneNumber = true ->
  (String.length phoneNumber <> 11%nat ->
   TwilioService.formatPhoneNumber phoneNumber = phoneNumber)
  /\ (String.length phoneNumber = 11%nat ->
      TwilioService.formatPhoneNumber phoneNumber
      = ("+1" ++ substring 1 10 phoneNumber)%string
      /\ TwilioService.formatPhoneNumber phoneNumber <> phoneNumber).
Proof.
  intros He. destruct (isE164_shape _ He) as [d [rest [-> [Hd [Hr Hlen]]]]].
  assert (Hdig : TwilioService.digitsOf (String "+" (String d rest)) = String d rest).
  { simpl. rewrite (isNonZeroDigit_isDigit _ Hd).
    now rewrite (digitsOf_all_digits _ Hr). }
  unfold TwilioService.formatPhoneNumber. rewrite Hdig. split.
  - intros Hn. simpl in Hn.
    destruct ((String.length (String d rest) =? 11)%nat
              && TwilioService.startsWith (String d rest) "1"); [reflexivity|].
    replace (String.length (String d rest) =? 10)%nat with false
      by (symmetry; apply Nat.eqb_neq; simpl; lia).
    reflexivity.
  - intros Hn. simpl in Hn.
    replace (String.length (String d rest) =? 11)%nat with false
      by (symmetry; apply Nat.eqb_neq; simpl; lia).
    replace (String.length (String d rest) =? 10)%nat with true
      by (symmetry; apply Nat.eqb_eq; simpl; lia).
    cbn [andb]. split.
    + f_equal. cbn [substring]. f_equal.
      symmetry. apply substring_0_all. lia.
    + intros Heq. apply (f_equal String.length) in Heq. simpl in Heq. lia.
Qed.

Lemma X3_format_of_E164_witness :
  TwilioService.formatPhoneNumber "+442071234567" = "+442071234567"
  /\ TwilioService.formatPhoneNumber "+4512345678" = "+14512345678".
Proof.
  split.
  - apply (proj1 (X3_format_of_E164 "+442071234567" eq_refl)). simpl. lia.
  - destruct (proj2 (X3_format_of_E164 "+4512345678" eq_refl) eq_refl) as [-> _].
    reflexivity.
Defined.

(** ** Password rules *)

(** X4. [validateStrength] accepts a password exactly when it has at least
    eight characters, an upper-case letter, a lower-case letter and a digit,
    and exactly then it reports no error; it never reports more than four. *)
Theorem X4_password_strength (password : string) :
  (PasswordHelper.isValid (PasswordHelper.validateStrength password) = true
   <-> ((8 <= String.length password)%nat
        /\ PasswordHelper.test PasswordHelper.isUpper password = true
        /\ PasswordHelper.test PasswordHelper.isLower password = true
        /\ PasswordHelper.test isDigit password = true))
  /\ (PasswordHelper.isValid (PasswordHelper.validateStrength password) = true
      <-> PasswordHelper.errors (PasswordHelper.validateStrength password) = [])
  /\ (List.length (PasswordHelper.errors (PasswordHelper.validateStrength password))
      <= 4)%nat.
Proof.
  unfold PasswordHelper.validateStrength, PasswordHelper.pushIf.
  destruct (Nat.ltb_spec (String.length password) 8) as [Hl|Hl];
    destruct (PasswordHelper.test PasswordHelper.isUpper password);
    destruct (PasswordHelper.test PasswordHelper.isLower password);
    destruct (PasswordHelper.test isDigit password);
    simpl; repeat split; intros; try discriminate; try lia; try tauto;
    try (exfalso; intuition (discriminate || lia)).
Qed.

Lemma X4_password_strength_witness :
  PasswordHelper.isValid (PasswordHelper.validateStrength "Reminder2024") = true.
Proof.
  apply (proj2 (proj1 (X4_password_strength "Reminder2024"))).
  repeat split. simpl. lia.
Defined.

(** ** Verification codes *)

Import OTPService.

Lemma map_get_set_same (k : string) (v : OTPData) (m : Store) :
  map_get k (map_set k v m) = Some v.
Proof.
  unfold map_get. induction m as [|kv r IH]; simpl.
  - unfold hasKey. simpl. now rewrite String.eqb_refl.
  - destruct (hasKey k kv) eqn:E; simpl.
    + unfold hasKey. simpl. now rewrite String.eqb_refl.
    + now rewrite E.
Qed.

Lemma map_get_delete_same (k : string) (m : Store) :
  map_get k (map_delete k m) = None.
Proof.
  unfold map_get, map_delete. induction m as [|kv r IH]; simpl; [reflexivity|].
  destruct (hasKey k kv) eqn:E; simpl; [assumption|now rewrite E].
Qed.

Lemma verifyEach_wrong `{Host} (email code : string) (expires : Date)
  (tries : list (string * Date)) :
  Forall (fun try => fst try <> code /\ (snd try <= expires)%Z) tries ->
  forall (a : nat) (m : Store),
    map_get (toLowerCase email) m = Some (mkOTP code expires a) ->
    (a + List.length tries <= MAX_ATTEMPTS)%nat ->
    map_get (toLowerCase email) (verifyEach email tries m)
    = Some (mkOTP code expires (a + List.length tries)).
Proof.
  induction 1 as [|[guess t] tries [Hwrong Htime] _ IH]; intros a m Hget Hle.
  - simpl. now rewrite Nat.add_0_r.
  - simpl in *. unfold verifyEach in *. simpl.
    rewrite <- Nat.add_succ_comm.
    apply IH; [|lia].
    unfold verifyOTP. rewrite Hget. cbn [expiresAt attempts otp].
    replace (expires <? t)%Z with false by (symmetry; apply Z.ltb_ge; lia).
    replace (MAX_ATTEMPTS <=? a)%nat with false
      by (symmetry; apply Nat.leb_gt; unfold MAX_ATTEMPTS in *; lia).
    replace (String.eqb code guess) with false
      by (symmetry; apply String.eqb_neq; congruence).
    cbn [negb snd]. apply map_get_set_same.
Qed.

(** X5. A stored code verifies once: given with an address that
    lower-cases to the same key, at any instant up to and including its
    expiry, it is accepted whatever the store held before, and the same
    code is refused afterwards because the entry is gone. *)
Theorem X5_code_verifies_once `{Host} (m : Store) (email email' code : string)
  (now t t' : Date) :
  toLowerCase email' = toLowerCase email ->
  (t <= plusMinutes now OTP_EXPIRY_MINUTES)%Z ->
  fst (verifyOTP email' code t (storeOTP email code now m))
  = mkVerification true None
  /\ fst (verifyOTP email' code t'
            (snd (verifyOTP email' code t (storeOTP email code now m))))
     = mkVerification false
         (Some "No verification code found. Please request a new one.").
Proof.
  intros Hkey Ht.
  assert (Hfirst : verifyOTP email' code t (storeOTP email code now m)
                   = (mkVerification true None,
                      map_delete (toLowerCase email) (storeOTP email code now m))).
  { unfold verifyOTP, storeOTP. rewrite Hkey, map_get_set_same.
    cbn [expiresAt attempts otp].
    replace (plusMinutes now OTP_EXPIRY_MINUTES <? t)%Z with false
      by (symmetry; apply Z.ltb_ge; lia).
    now rewrite String.eqb_refl. }
  rewrite Hfirst. split; [reflexivity|]. simpl.
  unfold verifyOTP. now rewrite Hkey, map_get_delete_same.
Qed.

Lemma X5_code_verifies_once_witness :
  fst (@verifyOTP exampleHost "ANA@example.com" "482913" 600000%Z
         (@storeOTP exampleHost "Ana@Example.com" "482913" 0%Z []))
  = mkVerification true None.
Proof.
  apply (@X5_code_verifies_once exampleHost [] "Ana@Example.com" "ANA@example.com"
           "482913" 0%Z 600000%Z 600000%Z).
  - reflexivity.
  - simpl. lia.
Defined.

(** X6. Wrong guesses are counted: while fewer than five wrong codes have
    been tried, the right code is still accepted; once five have been
    tried, the right code is refused as well, the entry is deleted and the
    next attempt finds no code at all. *)
Theorem X6_five_wrong_guesses_lock_the_code `{Host} (m : Store)
  (email code : string) (now t t' : Date) (tries : list (string * Date)) :
  Forall (fun try => fst try <> code
                     /\ (snd try <= plusMinutes now OTP_EXPIRY_MINUTES)%Z) tries ->
  (t <= plusMinutes now OTP_EXPIRY_MINUTES)%Z ->
  ((List.length tries < 5)%nat ->
   fst (verifyOTP email code t
          (verifyEach email tries (storeOTP email code now m)))
   = mkVerification true None)
  /\ ((List.length tries = 5)%nat ->
      fst (verifyOTP email code t
             (verifyEach email tries (storeOTP email code now m)))
      = mkVerification false
          (Some "Too many failed attempts. Please request a new verification code.")
      /\ fst (verifyOTP email code t'
                (snd (verifyOTP email code t
                        (verifyEach email tries (storeOTP email code now m)))))
         = mkVerification false
             (Some "No verification code found. Please request a new one.")).
Proof.
  intros Htries Ht.
  assert (Hget : (List.length tries <= 5)%nat ->
                 map_get (toLowerCase email)
                   (verifyEach email tries (storeOTP email code now m))
                 = Some (mkOTP code (plusMinutes now OTP_EXPIRY_MINUTES)
                               (List.length tries))).
  { intros Hle.
    apply (verifyEach_wrong email code _ tries Htries 0%nat); [|exact Hle].
    unfold storeOTP. apply map_get_set_same. }
  split.
  - intros Hlt. unfold verifyOTP. rewrite Hget by lia.
    cbn [expiresAt attempts otp].
    replace (plusMinutes now OTP_EXPIRY_MINUTES <? t)%Z with false
      by (symmetry; apply Z.ltb_ge; lia).
    apply Nat.leb_gt in Hlt. unfold MAX_ATTEMPTS. rewrite Hlt.
    now rewrite String.eqb_refl.
  - intros Heq.
    assert (Hv : verifyOTP email code t
                   (verifyEach email tries (storeOTP email code now m))
                 = (mkVerification false
                      (Some "Too many failed attempts. Please request a new verification code."),
                    map_delete (toLowerCase email)
                      (verifyEach email tries (storeOTP email code now m)))).
    { unfold verifyOTP. rewrite Hget by lia. cbn [expiresAt attempts otp].
      replace (plusMinutes now OTP_EXPIRY_MINUTES <? t)%Z with false
        by (symmetry; apply Z.ltb_ge; lia).
      now rewrite Heq. }
    rewrite Hv. split; [reflexivity|]. simpl.
    unfold verifyOTP. now rewrite map_get_delete_same.
Qed.

Lemma X6_five_wrong_guesses_lock_the_code_witness :
  fst (@verifyOTP exampleHost "ana@example.com" "482913" 50%Z
         (@verifyEach exampleHost "ana@example.com"
            [("000000", 10%Z); ("111111", 20%Z); ("222222", 30%Z);
             ("333333", 40%Z); ("444444", 45%Z)]
            (@storeOTP exampleHost "ana@example.com" "482913" 0%Z [])))
  = mkVerification false
      (Some "Too many failed attempts. Please request a new verification code.").
Proof.
  apply (proj2 (@X6_five_wrong_guesses_lock_the_code exampleHost []
                  "ana@example.com" "482913" 0%Z 50%Z 60%Z
                  [("000000", 10%Z); ("111111", 20%Z); ("222222", 30%Z);
                   ("333333", 40%Z); ("444444", 45%Z)]
                  ltac:(repeat constructor; simpl; (discriminate || lia))
                  ltac:(simpl; lia))).
  reflexivity.
Defined.

(** X7. After its expiry a code is refused even when it is the right one:
    the attempt reports the expiry and removes the entry. *)
Theorem X7_expired_code_is_refused `{Host} (m : Store)
  (email code guess : string) (now t : Date) :
  (plusMinutes now OTP_EXPIRY_MINUTES < t)%Z ->
  fst (verifyOTP email guess t (storeOTP email code now m))
  = mkVerification false
      (Some "Verification code has expired. Please request a new one.")
  /\ map_get (toLowerCase email)
       (snd (verifyOTP email guess t (storeOTP email code now m)))
     = None.
Proof.
  intros Ht. unfold verifyOTP, storeOTP. rewrite map_get_set_same.
  cbn [expiresAt attempts otp].
  apply Z.ltb_lt in Ht. rewrite Ht. split; [reflexivity|]. cbn [snd].
  apply map_get_delete_same.
Qed.

Lemma X7_expired_code_is_refused_witness :
  fst (@verifyOTP exampleHost "ana@example.com" "482913" 600001%Z
         (@storeOTP exampleHost "ana@example.com" "482913" 0%Z []))
  = mkVerification false
      (Some "Verification code has expired. Please request a new one.").
Proof.
  apply (@X7_expired_code_is_refused exampleHost [] "ana@example.com" "482913"
           "482913" 0%Z 600001%Z).
  simpl. lia.
Defined.

Lemma map_get_filter (p : OTPData -> bool) (k : string) (m : Store) :
  NoDup (map fst m) ->
  map_get k (filter (fun kv => p (snd kv)) m)
  = match map_get k m with
    | Some d => if p d then Some d else None
    | None => None
    end.
Proof.
  unfold map_get. induction m as [|[k' d] r IH]; intros Hnd; [reflexivity|].
  inversion Hnd as [|? ? Hnotin Hnd']; subst.
  cbn [filter find snd].
  destruct (hasKey k (k', d)) eqn:E.
  - assert (k' = k) as -> by (apply String.eqb_eq; exact E).
    cbn [option_map snd].
    destruct (p d); cbn [find]; [now rewrite E|].
    destruct (find (hasKey k) (filter (fun kv => p (snd kv)) r))
      as [[k2 d2]|] eqn:F; [|reflexivity].
    exfalso. apply find_some in F. destruct F as [Hin Hk].
    apply filter_In in Hin. destruct Hin as [Hin _].
    assert (k2 = k) as -> by (apply String.eqb_eq; exact Hk).
    apply Hnotin. change k with (fst (k, d2)). now apply in_map.
  - destruct (p d); cbn [find]; [rewrite E|]; now apply IH.
Qed.

(** X8. Cleaning up never changes a verdict: on a store with one entry per
    key, a verification made after [cleanupExpiredOTPs] is accepted exactly
    when it would have been accepted without it; the clean-up keeps every
    entry that has not expired and leaves none that has. *)
Theorem X8_cleanup_keeps_verdicts `{Host} (m : Store) (email code : string)
  (now t : Date) :
  NoDup (map fst m) ->
  (now <= t)%Z ->
  valid (fst (verifyOTP email code t (cleanupExpiredOTPs now m)))
  = valid (fst (verifyOTP email code t m))
  /\ (forall k d,
         map_get k m = Some d -> (now <= expiresAt d)%Z ->
         map_get k (cleanupExpiredOTPs now m) = Some d)
  /\ (forall k d,
         map_get k (cleanupExpiredOTPs now m) = Some d -> (now <= expiresAt d)%Z).
Proof.
  intros Hnd Ht.
  assert (Hget : forall k,
             map_get k (cleanupExpiredOTPs now m)
             = match map_get k m with
               | Some d => if negb (expiresAt d <? now)%Z then Some d else None
               | None => None
               end).
  { intros k. unfold cleanupExpiredOTPs.
    apply (map_get_filter (fun d => negb (expiresAt d <? now)%Z) k m Hnd). }
  split; [|split].
  - unfold verifyOTP. rewrite Hget.
    destruct (map_get (toLowerCase email) m) as [d|]; [|reflexivity].
    destruct (Z.ltb_spec (expiresAt d) now) as [Hexp|Hlive]; cbn [negb].
    + replace (expiresAt d <? t)%Z with true
        by (symmetry; apply Z.ltb_lt; lia).
      reflexivity.
    + destruct (expiresAt d <? t)%Z; [reflexivity|].
      destruct (MAX_ATTEMPTS <=? attempts d)%nat; [reflexivity|].
      destruct (negb (String.eqb (otp d) code)); reflexivity.
  - intros k d Hk Hlive. rewrite Hget, Hk.
    replace (expiresAt d <? now)%Z with false
      by (symmetry; apply Z.ltb_ge; lia).
    reflexivity.
  - intros k d Hk. rewrite Hget in Hk.
    destruct (map_get k m) as [d'|]; [|discriminate].
    destruct (Z.ltb_spec (expiresAt d') now) as [Hexp|Hlive];
      cbn [negb] in Hk; [discriminate|].
    injection Hk as <-. exact Hlive.
Qed.

Lemma X8_cleanup_keeps_verdicts_witness :
  valid (fst (@verifyOTP exampleHost "ana@example.com" "482913" 700000%Z
                (cleanupExpiredOTPs 650000%Z
                   (@storeOTP exampleHost "bob@example.com" "135790" 100000%Z
                      (@storeOTP exampleHost "ana@example.com" "482913" 0%Z [])))))
  = false.
Proof.
  rewrite (proj1 (@X8_cleanup_keeps_verdicts exampleHost
                    (@storeOTP exampleHost "bob@example.com" "135790" 100000%Z
                       (@storeOTP exampleHost "ana@example.com" "482913" 0%Z []))
                    "ana@example.com" "482913" 650000%Z 700000%Z
                    ltac:(repeat constructor; simpl; intuition discriminate)
                    ltac:(lia))).
  reflexivity.
Defined.

(** ** Conversation store: creation, appends *)

(** X9. With a phone number in E.164 form that no stored conversation has,
    [getOrCreateForUser] stores one new conversation, owned by the caller,
    titled "New Conversation" and without messages; a second call with the
    same phone number, by any user, returns that conversation and stores
    nothing. *)
Theorem X9_getOrCreateForUser_creates_once (coll : Collection Conversation.t)
  (userId userId' : ObjectId) (phone : string) (now now' : Date) :
  isE164 phone = true ->
  find (fun d => optString_eqb (Conversation.phoneNumber d) phone) (docs coll) = None ->
  existsb (hasId (nextId coll)) (docs coll) = false ->
  ConversationRepository.getOrCreateForUser userId (Some phone) now coll
  = (Ok (Conversation.mk (Some (nextId coll)) userId (defined phone)
           "New Conversation" [] now now now),
     mkCollection
       (docs coll
        ++ [Conversation.mk (Some (nextId coll)) userId (defined phone)
              "New Conversation" [] now now now])
       (S (nextId coll)))
  /\ ConversationRepository.getOrCreateForUser userId' (Some phone) now'
       (snd (ConversationRepository.getOrCreateForUser userId (Some phone) now coll))
     = (Ok (Conversation.mk (Some (nextId coll)) userId (defined phone)
              "New Conversation" [] now now now),
        snd (ConversationRepository.getOrCreateForUser userId (Some phone) now coll)).
Proof.
  intros He Hnone Hfresh.
  assert (Hfirst :
    ConversationRepository.getOrCreateForUser userId (Some phone) now coll
    = (Ok (Conversation.mk (Some (nextId coll)) userId (defined phone)
             "New Conversation" [] now now now),
       mkCollection
         (docs coll
          ++ [Conversation.mk (Some (nextId coll)) userId (defined phone)
                "New Conversation" [] now now now])
         (S (nextId coll)))).
  { unfold ConversationRepository.getOrCreateForUser.
    rewrite (isE164_truthy _ He).
    unfold orElse, ConversationRepository.findByPhoneNumber,
      ConversationRepository.findOne, coll_findOne,
      ConversationRepository.create, coll_insertOne,
      Conversation.new, Conversation.validate, Conversation.schemaOk.
    unfold_monad. rewrite Hnone.
    cbn [Conversation.phoneNumber Conversation.title ofOption]. rewrite He.
    cbn -[existsb]. rewrite Hfresh. reflexivity. }
  rewrite Hfirst. split; [reflexivity|]. cbn [snd].
  unfold ConversationRepository.getOrCreateForUser.
  rewrite (isE164_truthy _ He).
  unfold orElse, ConversationRepository.findByPhoneNumber,
    ConversationRepository.findOne, coll_findOne.
  unfold_monad. cbn [docs].
  assert (Hfind :
    find (fun d => optString_eqb (Conversation.phoneNumber d) phone)
      (docs coll
       ++ [Conversation.mk (Some (nextId coll)) userId (defined phone)
             "New Conversation" [] now now now])
    = Some (Conversation.mk (Some (nextId coll)) userId (defined phone)
              "New Conversation" [] now now now)).
  { clear Hfirst Hfresh. induction (docs coll) as [|d r IH]; simpl in *.
    - now rewrite String.eqb_refl.
    - destruct (optString_eqb (Conversation.phoneNumber d) phone);
        [discriminate|now apply IH]. }
  rewrite Hfind.
  unfold Conversation.fromDocument, Conversation.new, Conversation.validate,
    Conversation.schemaOk.
  cbn [Conversation.phoneNumber Conversation.title]. rewrite He. reflexivity.
Qed.

Lemma X9_getOrCreateForUser_creates_once_witness :
  ConversationRepository.getOrCreateForUser 7%nat (Some "+15551234567") 50%Z
    emptyCollection
  = (Ok (Conversation.mk (Some 0%nat) 7%nat (defined "+15551234567")
           "New Conversation" [] 50%Z 50%Z 50%Z),
     mkCollection
       [Conversation.mk (Some 0%nat) 7%nat (defined "+15551234567")
          "New Conversation" [] 50%Z 50%Z 50%Z] 1%nat).
Proof.
  apply (proj1 (X9_getOrCreateForUser_creates_once emptyCollection 7%nat 8%nat
                  "+15551234567" 50%Z 60%Z eq_refl eq_refl eq_refl)).
Defined.

Lemma getOrCreateForUser_bad_phone (coll : Collection Conversation.t)
  (userId : ObjectId) (phone : string) (now : Date) :
  isE164 phone = false ->
  Forall (fun d => Conversation.schemaOk d = true) (docs coll) ->
  ConversationRepository.getOrCreateForUser userId (Some phone) now coll
  = (Throw "ZodError", coll).
Proof.
  intros He Hvalid.
  assert (Hnone : find (fun d => optString_eqb (Conversation.phoneNumber d) phone)
                    (docs coll) = None).
  { destruct (find _ (docs coll)) as [d|] eqn:E; [|reflexivity].
    destruct (find_some _ _ E) as [Hin Hm].
    pose proof (proj1 (Forall_forall _ _) Hvalid d Hin) as Hok.
    unfold Conversation.schemaOk in Hok.
    destruct (Conversation.phoneNumber d) as [| |p]; try discriminate.
    simpl in Hm. apply String.eqb_eq in Hm. subst p.
    rewrite He in Hok. discriminate. }
  unfold ConversationRepository.getOrCreateForUser, orElse,
    ConversationRepository.findByPhoneNumber, ConversationRepository.findOne,
    coll_findOne, Conversation.new, Conversation.validate, Conversation.schemaOk.
  unfold_monad.
  destruct (truthy (Some phone)); cbv beta iota; try rewrite Hnone;
    cbn [Conversation.phoneNumber Conversation.title ofOption]; rewrite He;
    reflexivity.
Qed.

(** X10. A run without conversation id for a phone number that is not in
    E.164 form, the empty string the web chat passes for a user without
    phone included, cannot create its conversation: on a store of valid
    conversations both entry points throw the validation error at once and
    leave the whole world as it was, with no event emitted, no message
    stored and no completion requested. *)
Theorem X10_run_without_valid_phone `{Platform} (llm : CompletionClient)
  (userId : ObjectId) (phoneNumber message : string) (w : World) :
  isE164 phoneNumber = false ->
  Forall (fun d => Conversation.schemaOk d = true) (docs (conversations w)) ->
  AgentService.processMessageStream llm userId phoneNumber message None w
  = (Throw "ZodError", w)
  /\ AgentService.processMessage llm userId phoneNumber message None w
     = (Throw "ZodError", w).
Proof.
  intros He Hvalid.
  assert (Hres : AgentService.resolveConversation userId phoneNumber None w
                 = (Throw "ZodError", w)).
  { unfold AgentService.resolveConversation, onConversations, newDate.
    unfold bind at 1. cbv beta iota.
    rewrite (getOrCreateForUser_bad_phone _ _ _ _ He Hvalid).
    now rewrite world_eta. }
  unfold AgentService.processMessageStream, AgentService.processMessage.
  unfold bind at 1. rewrite Hres. split; [reflexivity|].
  unfold bind at 1. now rewrite Hres.
Qed.

Lemma X10_run_without_valid_phone_witness :
  @AgentService.processMessageStream examplePlatform (answers "ok") 7%nat
    EmptyString "remind me to call mom" None chatWorld
  = (Throw "ZodError", chatWorld).
Proof.
  apply (proj1 (@X10_run_without_valid_phone examplePlatform (answers "ok") 7%nat
                  EmptyString "remind me to call mom" chatWorld eq_refl
                  ltac:(repeat constructor))).
Defined.

(** X11. A run on a conversation id that is not stored throws
    "Conversation not found" from both entry points and leaves the whole
    world as it was. *)
Theorem X11_run_on_unknown_conversation `{Platform} (llm : CompletionClient)
  (userId : ObjectId) (phoneNumber message : string) (id : ObjectId) (w : World) :
  find (hasId id) (docs (conversations w)) = None ->
  AgentService.processMessageStream llm userId phoneNumber message (Some id) w
  = (Throw "Conversation not found", w)
  /\ AgentService.processMessage llm userId phoneNumber message (Some id) w
     = (Throw "Conversation not found", w).
Proof.
  intros Hnone.
  assert (Hres : AgentService.resolveConversation userId phoneNumber (Some id) w
                 = (Throw "Conversation not found", w)).
  { unfold AgentService.resolveConversation, onConversations,
      ConversationRepository.findById, ConversationRepository.findOne,
      coll_findOne.
    unfold_monad. rewrite Hnone. simpl. now rewrite world_eta. }
  unfold AgentService.processMessageStream, AgentService.processMessage.
  unfold bind at 1. rewrite Hres. split; [reflexivity|].
  unfold bind at 1. now rewrite Hres.
Qed.

Lemma X11_run_on_unknown_conversation_witness :
  @AgentService.processMessage examplePlatform (answers "ok") 7%nat
    "+15551234567" "remind me to call mom" (Some 9%nat) chatWorld
  = (Throw "Conversation not found", chatWorld).
Proof.
  apply (proj2 (@X11_run_on_unknown_conversation examplePlatform (answers "ok")
                  7%nat "+15551234567" "remind me to call mom" 9%nat chatWorld
                  eq_refl)).
Defined.



Lemma repo_appendMessage_found (id : ObjectId) (r : Role) (text : string)
  (now : Date) (coll : Collection Conversation.t) (d : Conversation.t) :
  find (hasId id) (docs coll) = Some d ->
  Conversation.schemaOk d = true ->
  ConversationRepository.appendMessage id r text now coll
  = (Ok (Some (Conversation.addMessage d r text now)),
     mkCollection
       (snd (updateFirst (hasId id)
               (ConversationRepository.setAppended
                  (Conversation.addMessage d r text now)) (docs coll)))
       (nextId coll)).
Proof.
  intros Hf Hok.
  unfold ConversationRepository.appendMessage, ConversationRepository.findById,
    ConversationRepository.findOne, coll_findOne, coll_updateOne,
    coll_findOneAndUpdate.
  unfold_monad. rewrite Hf, (fromDocument_conversation _ Hok).
  destruct (updateFirst _ _ (docs coll)); reflexivity.
Qed.

Lemma setAppended_keeps_id (c d : Conversation.t) :
  docId (ConversationRepository.setAppended c d) = docId d.
Proof. reflexivity. Qed.




Lemma generateTitle_bounds (text : string) :
  text <> EmptyString ->
  (1 <= String.length (Conversation.generateTitle text) <= 53)%nat.
Proof.
  intros Hne. unfold Conversation.generateTitle.
  pose proof (substring_0_length 50 (head0 (split newline text))) as Hlen.
  destruct (Nat.ltb_spec
              (String.length (substring 0 50 (head0 (split newline text))))
              (String.length text)) as [Hlt|Hge].
  - rewrite append_length. simpl. lia.
  - assert (1 <= String.length text)%nat
      by (destruct text; [congruence|simpl; lia]).
    lia.
Qed.

(** X13. An append with non-empty content keeps a valid stored
    conversation valid, so it can be loaded again. An empty first user
    message is stored with an empty title, and from then on loading the
    conversation throws the validation error. *)
Theorem X13_append_and_schema (id : ObjectId) (r : Role) (text : string)
  (now : Date) (coll : Collection Conversation.t) (d : Conversation.t) :
  find (hasId id) (docs coll) = Some d ->
  Conversation.schemaOk d = true ->
  (text <> EmptyString ->
   exists d',
     find (hasId id)
       (docs (snd (ConversationRepository.appendMessage id r text now coll)))
     = Some d'
     /\ Conversation.schemaOk d' = true)
  /\ (text = EmptyString -> r = user -> Conversation.messages d = [] ->
      ConversationRepository.findById id
        (snd (ConversationRepository.appendMessage id r text now coll))
      = (Throw "ZodError",
         snd (ConversationRepository.appendMessage id r text now coll))).
Proof.
  intros Hf Hok. rewrite (repo_appendMessage_found _ _ _ _ _ _ Hf Hok).
  cbn [snd docs].
  pose proof (updateFirst_find_same
                (ConversationRepository.setAppended
                   (Conversation.addMessage d r text now))
                (setAppended_keeps_id _) id (docs coll)) as Hu.
  rewrite Hf in Hu. simpl option_map in Hu. split.
  - intros Hne. eexists. split; [exact Hu|].
    unfold Conversation.schemaOk in *.
    cbn [ConversationRepository.setAppended Conversation.phoneNumber
         Conversation.title].
    apply andb_prop in Hok. destruct Hok as [Hok H200].
    apply andb_prop in Hok. destruct Hok as [Hphone H1].
    rewrite Hphone. unfold Conversation.addMessage. cbn [Conversation.title].
    destruct ((List.length (Conversation.messages d ++ [mkMessage r text now]) =? 1)%nat
              && Role_eqb r user).
    + destruct (generateTitle_bounds text Hne) as [Hlo Hhi].
      apply Nat.leb_le in Hlo. rewrite Hlo.
      replace (String.length (Conversation.generateTitle text) <=? 200)%nat
        with true by (symmetry; apply Nat.leb_le; lia).
      reflexivity.
    + now rewrite H1, H200.
  - intros -> -> Hm.
    unfold ConversationRepository.findById, ConversationRepository.findOne,
      coll_findOne.
    unfold_monad. cbn [docs]. rewrite Hu.
    unfold Conversation.fromDocument, Conversation.new, Conversation.validate,
      Conversation.schemaOk, Conversation.addMessage.
    cbn [ConversationRepository.setAppended Conversation.phoneNumber
         Conversation.title Conversation.messages].
    rewrite Hm. cbn. now rewrite andb_false_r.
Qed.

Lemma X13_append_and_schema_witness :
  ConversationRepository.findById 0%nat
    (snd (ConversationRepository.appendMessage 0%nat user EmptyString 60%Z
            (mkCollection
               [Conversation.mk (Some 0%nat) 7%nat (defined "+15551234567")
                  "New Conversation" [] 50%Z 50%Z 50%Z] 1%nat)))
  = (Throw "ZodError",
     snd (ConversationRepository.appendMessage 0%nat user EmptyString 60%Z
            (mkCollection
               [Conversation.mk (Some 0%nat) 7%nat (defined "+15551234567")
                  "New Conversation" [] 50%Z 50%Z 50%Z] 1%nat))).
Proof.
  apply (proj2 (X13_append_and_schema 0%nat user EmptyString 60%Z
                  (mkCollection
                     [Conversation.mk (Some 0%nat) 7%nat (defined "+15551234567")
                        "New Conversation" [] 50%Z 50%Z 50%Z] 1%nat)
                  (Conversation.mk (Some 0%nat) 7%nat (defined "+15551234567")
                     "New Conversation" [] 50%Z 50%Z 50%Z)
                  eq_refl eq_refl));
    reflexivity.
Defined.

(** ** Outcome of a run *)






(** ** Reminders of other users *)

Lemma findById_reads (id : ObjectId) (coll : Collection Reminder.t) :
  snd (ReminderRepository.findById id coll) = coll.
Proof.
  unfold ReminderRepository.findById, ReminderRepository.findOne, coll_findOne.
  unfold_monad. destruct (find (hasId id) (docs coll)) as [d|]; [|reflexivity].
  destruct (Reminder.fromDocument d); reflexivity.
Qed.

Lemma findById_result (id : ObjectId) (coll : Collection Reminder.t)
  (existing : Reminder.t) :
  fst (ReminderRepository.findById id coll) = Ok (Some existing) ->
  find (hasId id) (docs coll) = Some existing.
Proof.
  unfold ReminderRepository.findById, ReminderRepository.findOne, coll_findOne.
  unfold_monad. destruct (find (hasId id) (docs coll)) as [d|]; [|discriminate].
  destruct (Reminder.fromDocument d) as [r|e] eqn:Ed; cbn [fst]; [|discriminate].
  intros E. injection E as <-. now rewrite (fromDocument_reminder_inv _ _ Ed).
Qed.

Lemma findMany_reads `{Platform} (p : Reminder.t -> bool)
  (coll : Collection Reminder.t) :
  snd (ReminderRepository.findMany p coll) = coll.
Proof.
  unfold ReminderRepository.findMany, coll_find. unfold_monad.
  destruct (mapResult _ _); reflexivity.
Qed.

Lemma listFunc_reads `{Platform} (userId : ObjectId)
  (input : ReminderTools.ListInput) (now : Date) (coll : Collection Reminder.t) :
  snd (ReminderTools.listFunc userId input now coll) = coll.
Proof.
  unfold ReminderTools.listFunc, ReminderRepository.findByUserId.
  pose proof (findMany_reads (fun d => (Reminder.userId d =? userId)%nat) coll) as Hr.
  unfold_monad.
  destruct (ReminderRepository.findMany _ coll) as [[all|e] c]; cbn [snd] in Hr;
    subst c; [|reflexivity].
  destruct (_ =? 0)%nat; reflexivity.
Qed.

Lemma othersOf_snoc (u : ObjectId) (l : list Reminder.t) (r : Reminder.t) :
  Reminder.userId r = u -> othersOf u (l ++ [r]) = othersOf u l.
Proof.
  intros Hu. unfold othersOf. rewrite filter_app. cbn [filter].
  rewrite Hu, Nat.eqb_refl. cbn [negb]. apply app_nil_r.
Qed.

Lemma othersOf_updateFirst (u id : ObjectId) (f : Reminder.t -> Reminder.t)
  (l : list Reminder.t) (existing : Reminder.t) :
  (forall d, Reminder.userId (f d) = Reminder.userId d) ->
  find (hasId id) l = Some existing -> Reminder.userId existing = u ->
  othersOf u (snd (updateFirst (hasId id) f l)) = othersOf u l.
Proof.
  intros Hf. induction l as [|d r IH]; intros Hfind Hu; [discriminate|].
  cbn [updateFirst find] in *.
  destruct (hasId id d) eqn:E.
  - injection Hfind as ->. cbn [snd]. unfold othersOf. cbn [filter].
    rewrite Hf, Hu, Nat.eqb_refl. reflexivity.
  - destruct (updateFirst (hasId id) f r) as [o r'] eqn:U. cbn [snd] in *.
    unfold othersOf in *. cbn [filter]. now rewrite (IH Hfind Hu).
Qed.

Lemma applySet_keeps_owner (data : PartialReminder) (now : Date) (d : Reminder.t) :
  Reminder.userId (applySet data now d) = Reminder.userId d.
Proof. reflexivity. Qed.

Lemma create_keeps_others `{Platform} (userId conversationId : ObjectId)
  (phoneNumber : string) (args : ToolArgs) (now : Date)
  (coll : Collection Reminder.t) :
  othersOf userId
    (docs (snd (invoke (ReminderTools.createReminderTool userId conversationId
                          phoneNumber) args now coll)))
  = othersOf userId (docs coll).
Proof.
  unfold invoke. simpl.
  destruct (ReminderTools.createSchema now args) as [input|e]; [|reflexivity].
  unfold ReminderTools.createFunc, ReminderRepository.create, coll_insertOne.
  unfold_monad.
  destruct (Reminder.new _) as [r|e] eqn:Er; simpl; [|reflexivity].
  unfold Reminder.new in Er. destruct (Reminder.validate _); [|discriminate].
  injection Er as <-. simpl.
  destruct (existsb (hasId (nextId coll)) (docs coll)) eqn:Ex; simpl;
    [reflexivity|].
  now apply othersOf_snoc.
Qed.

Lemma list_keeps_store `{Platform} (userId : ObjectId) (args : ToolArgs)
  (now : Date) (coll : Collection Reminder.t) :
  snd (invoke (ReminderTools.listRemindersTool userId) args now coll) = coll.
Proof.
  unfold invoke. simpl.
  destruct (ReminderTools.listSchema now args) as [input|e]; [|reflexivity].
  apply listFunc_reads.
Qed.

Lemma update_keeps_others `{Platform} (userId : ObjectId) (args : ToolArgs)
  (now : Date) (coll : Collection Reminder.t) :
  othersOf userId
    (docs (snd (invoke (ReminderTools.updateReminderTool userId) args now coll)))
  = othersOf userId (docs coll).
Proof.
  unfold invoke. simpl.
  destruct (ReminderTools.updateSchema now args) as [input|e]; [|reflexivity].
  unfold ReminderTools.updateFunc, ReminderTools.newObjectId.
  destruct (parseObjectId (ReminderTools.u_reminderId input)) as [id|];
    [|reflexivity].
  unfold_monad.
  pose proof (findById_reads id coll) as Hr.
  pose proof (findById_result id coll) as Hres.
  destruct (ReminderRepository.findById id coll) as [found c].
  cbn [fst snd] in Hr, Hres. subst c.
  destruct found as [[existing|]|e]; simpl; try reflexivity.
  destruct (Reminder.userId existing =? userId)%nat eqn:Eo; simpl; [|reflexivity].
  apply Nat.eqb_eq in Eo.
  match goal with
  | |- context [ReminderRepository.update ?i ?d ?n ?c] =>
      pose proof (update_world i d n c) as Hu;
      destruct (ReminderRepository.update i d n c) as [res c'] eqn:Eu
  end.
  simpl in Hu. subst c'.
  assert (Hk : othersOf userId
            (snd (updateFirst (hasId id)
                    (applySet (mkPartial (ReminderTools.ifTruthy
                                            (ReminderTools.u_title input))
                                 (ReminderTools.u_description input)
                                 (ReminderTools.u_scheduledFor input) None) now)
                    (docs coll)))
          = othersOf userId (docs coll)).
  { eapply othersOf_updateFirst; [apply applySet_keeps_owner| |exact Eo].
    apply Hres. reflexivity. }
  destruct res as [[updated|]|e]; simpl; exact Hk.
Qed.

Lemma delete_keeps_others `{Platform} (userId : ObjectId) (args : ToolArgs)
  (now : Date) (coll : Collection Reminder.t) :
  othersOf userId
    (docs (snd (invoke (ReminderTools.deleteReminderTool userId) args now coll)))
  = othersOf userId (docs coll).
Proof.
  unfold invoke. simpl.
  destruct (ReminderTools.deleteSchema now args) as [input|e]; [|reflexivity].
  unfold ReminderTools.deleteFunc, ReminderTools.newObjectId.
  destruct (parseObjectId (ReminderTools.d_reminderId input)) as [id|];
    [|reflexivity].
  unfold_monad.
  pose proof (findById_reads id coll) as Hr.
  pose proof (findById_result id coll) as Hres.
  destruct (ReminderRepository.findById id coll) as [found c].
  cbn [fst snd] in Hr, Hres. subst c.
  destruct found as [[existing|]|e]; simpl; try reflexivity.
  destruct (Reminder.userId existing =? userId)%nat eqn:Eo; simpl; [|reflexivity].
  apply Nat.eqb_eq in Eo.
  unfold ReminderRepository.cancelReminder, ReminderRepository.updateStatus.
  match goal with
  | |- context [ReminderRepository.update ?i ?d ?n ?c] =>
      pose proof (update_world i d n c) as Hu;
      destruct (ReminderRepository.update i d n c) as [res c'] eqn:Eu
  end.
  simpl in Hu. subst c'.
  assert (Hk : othersOf userId
            (snd (updateFirst (hasId id)
                    (applySet (mkPartial None None None (Some CANCELLED)) now)
                    (docs coll)))
          = othersOf userId (docs coll)).
  { eapply othersOf_updateFirst; [apply applySet_keeps_owner| |exact Eo].
    apply Hres. reflexivity. }
  destruct res as [r|e]; simpl; exact Hk.
Qed.

Lemma tools_keep_others `{Platform} (userId conversationId : ObjectId)
  (phoneNumber : string) (tool : DynamicStructuredTool) (args : ToolArgs)
  (now : Date) :
  In tool (ReminderTools.getAllTools userId conversationId phoneNumber) ->
  preserves (othersIn userId) (onReminders (invoke tool args now)).
Proof.
  intros Hin w. unfold othersIn, onReminders.
  assert (Hk : othersOf userId (docs (snd (invoke tool args now (reminders w))))
               = othersOf userId (docs (reminders w))).
  { destruct Hin as [<-|[<-|[<-|[<-|[]]]]].
    - apply create_keeps_others.
    - now rewrite list_keeps_store.
    - apply update_keeps_others.
    - apply delete_keeps_others. }
  destruct (invoke tool args now (reminders w)); exact Hk.
Qed.

Lemma reminders_others {A} (userId : ObjectId) (m : M World A) :
  preserves reminders m -> preserves (othersIn userId) m.
Proof. intros Hm w. unfold othersIn. now rewrite Hm. Qed.

Lemma onConversations_reminders {A} (m : M (Collection Conversation.t) A) :
  preserves reminders (onConversations m).
Proof. intros w. unfold onConversations. now destruct (m (conversations w)). Qed.

Lemma onEvent_reminders (e : AgentEvent) : preserves reminders (onEvent e).
Proof. intros w. reflexivity. Qed.

Lemma logCall_reminders (messages : list BaseMessage) :
  preserves reminders (logCall messages).
Proof. intros w. reflexivity. Qed.

Lemma appendMessage_reminders (id : ObjectId) (r : Role) (text : string) :
  preserves reminders (AgentService.appendMessage id r text).
Proof.
  unfold AgentService.appendMessage.
  apply preserves_bind; [apply preserves_newDate|intros now].
  apply preserves_bind; [apply onConversations_reminders|intros ?].
  apply preserves_ret.
Qed.

Lemma resolveConversation_reminders (userId : ObjectId) (phoneNumber : string)
  (conversationId : option ObjectId) :
  preserves reminders
    (AgentService.resolveConversation userId phoneNumber conversationId).
Proof.
  unfold AgentService.resolveConversation. destruct conversationId as [id|].
  - apply preserves_bind; [apply onConversations_reminders|intros [c|]];
      [apply preserves_ret|apply preserves_throw].
  - apply preserves_bind; [apply preserves_newDate|intros now].
    apply onConversations_reminders.
Qed.

Section ToolsKeep.

Context `{Platform} {X : Type} (proj : World -> X).
Variable tools : list DynamicStructuredTool.
Hypothesis tools_keep :
  forall tool args now,
    In tool tools -> preserves proj (onReminders (invoke tool args now)).
Hypothesis events_keep : forall e, preserves proj (onEvent e).
Hypothesis calls_keep : forall messages, preserves proj (logCall messages).

Lemma dispatchToolCall_keeps (emit : bool) (messages : list BaseMessage)
  (toolCall : ToolCall) :
  preserves proj (AgentService.dispatchToolCall emit tools messages toolCall).
Proof.
  unfold AgentService.dispatchToolCall, AgentService.emitIf.
  destruct (AgentService.findTool tools (tc_name toolCall)) as [tool|] eqn:Ef;
    [|apply preserves_ret].
  unfold AgentService.findTool in Ef. apply find_some in Ef. destruct Ef as [Hin _].
  apply preserves_bind;
    [destruct emit; [apply events_keep|apply preserves_ret]|intros _].
  apply preserves_bind; [apply preserves_newDate|intros now].
  apply preserves_bind.
  - apply preserves_tryCatch; [|intros e; apply preserves_ret].
    apply preserves_bind; [now apply tools_keep|intros j; apply preserves_ret].
  - intros output.
    apply preserves_bind;
      [destruct emit; [apply events_keep|apply preserves_ret]|intros _].
    apply preserves_ret.
Qed.

Lemma streamLoop_keeps (llm : CompletionClient) (n : nat) :
  forall messages finalResponse,
    preserves proj (AgentService.streamLoop llm tools n messages finalResponse).
Proof.
  induction n as [|n IH]; intros messages finalResponse; simpl.
  - apply preserves_ret.
  - apply preserves_bind; [apply calls_keep|intros k].
    apply preserves_bind.
    { apply preserves_forEach. intros b a.
      apply consumeChunk_preserves. exact events_keep. }
    intros st. destruct (streamError _); [apply preserves_throw|].
    destruct (fst st); [|apply preserves_ret].
    destruct (0 <? _)%nat; [|apply preserves_ret].
    apply preserves_bind; [|intros messages'; apply IH].
    apply preserves_forEach. intros ? ?. apply dispatchToolCall_keeps.
Qed.

Lemma invokeLoop_keeps (llm : CompletionClient) (n : nat) :
  forall messages, preserves proj (AgentService.invokeLoop llm tools n messages).
Proof.
  induction n as [|n IH]; intros messages; simpl.
  - apply preserves_ret.
  - apply preserves_bind; [apply calls_keep|intros k].
    apply preserves_bind; [apply preserves_liftResult|intros reply].
    destruct (0 <? _)%nat; [|apply preserves_ret].
    apply preserves_bind; [|intros messages'; apply IH].
    apply preserves_forEach. intros ? ?. apply dispatchToolCall_keeps.
Qed.

End ToolsKeep.

(** X15. A run of the agent for one user, through either entry point and
    whatever the completion client replies or asks the tools to do, leaves
    the reminders of every other user exactly as they were: same documents,
    same order. *)
Theorem X15_other_users_reminders_untouched `{Platform} (llm : CompletionClient)
  (userId : ObjectId) (phoneNumber message : string)
  (conversationId : option ObjectId) (w : World) :
  othersIn userId
    (snd (AgentService.processMessage llm userId phoneNumber message
            conversationId w))
  = othersIn userId w
  /\ othersIn userId
       (snd (AgentService.processMessageStream llm userId phoneNumber message
               conversationId w))
     = othersIn userId w.
Proof.
  split.
  - revert w. change (preserves (othersIn userId)
      (AgentService.processMessage llm userId phoneNumber message conversationId)).
    unfold AgentService.processMessage.
    apply preserves_bind;
      [apply reminders_others, resolveConversation_reminders|intros c].
    apply preserves_bind; [apply idOf_preserves|intros id].
    apply preserves_bind;
      [apply reminders_others, appendMessage_reminders|intros _].
    apply preserves_bind; [apply prepareMessages_preserves|intros messages].
    apply preserves_bind.
    + apply invokeLoop_keeps.
      * intros tool args now Hin. eapply tools_keep_others; exact Hin.
      * intros e. apply reminders_others, onEvent_reminders.
      * intros m. apply reminders_others, logCall_reminders.
    + intros finalResponse.
      apply preserves_bind;
        [apply reminders_others, appendMessage_reminders|intros _].
      apply preserves_ret.
  - revert w. change (preserves (othersIn userId)
      (AgentService.processMessageStream llm userId phoneNumber message
         conversationId)).
    unfold AgentService.processMessageStream.
    apply preserves_bind;
      [apply reminders_others, resolveConversation_reminders|intros c].
    apply preserves_bind; [apply idOf_preserves|intros id].
    apply preserves_bind; [apply reminders_others, onEvent_reminders|intros _].
    apply preserves_bind;
      [apply reminders_others, appendMessage_reminders|intros _].
    apply preserves_bind; [apply prepareMessages_preserves|intros messages].
    apply preserves_bind.
    + apply streamLoop_keeps.
      * intros tool args now Hin. eapply tools_keep_others; exact Hin.
      * intros e. apply reminders_others, onEvent_reminders.
      * intros m. apply reminders_others, logCall_reminders.
    + intros finalResponse. destruct (AgentService.nonEmpty finalResponse);
        [apply reminders_others, appendMessage_reminders|apply preserves_ret].
Qed.


(** ** Listing *)

Lemma insertByDate_perm (r : Reminder.t) (l : list Reminder.t) :
  Permutation (insertByDate r l) (r :: l).
Proof.
  induction l as [|x rest IH]; cbn [insertByDate]; [reflexivity|].
  destruct (Reminder.scheduledFor r <? Reminder.scheduledFor x)%Z; [reflexivity|].
  rewrite IH. apply perm_swap.
Qed.

Lemma insertByDate_sorted (r : Reminder.t) (l : list Reminder.t) :
  StronglySorted notAfter l -> StronglySorted notAfter (insertByDate r l).
Proof.
  induction 1 as [|x rest Hs IH Hall]; cbn [insertByDate].
  - constructor; constructor.
  - destruct (Reminder.scheduledFor r <? Reminder.scheduledFor x)%Z eqn:E.
    + apply Z.ltb_lt in E. constructor; [now constructor|].
      constructor; [unfold notAfter; lia|].
      eapply Forall_impl; [|exact Hall]. unfold notAfter. intros y Hy. lia.
    + apply Z.ltb_ge in E. constructor; [exact IH|].
      eapply Permutation_Forall; [symmetry; apply insertByDate_perm|].
      constructor; [exact E|exact Hall].
Qed.

Lemma sortByDate_acc (l acc : list Reminder.t) :
  StronglySorted notAfter acc ->
  StronglySorted notAfter (fold_left (fun acc r => insertByDate r acc) l acc)
  /\ Permutation (fold_left (fun acc r => insertByDate r acc) l acc) (l ++ acc).
Proof.
  revert acc. induction l as [|x l IH]; intros acc Hs; cbn [fold_left app].
  - split; [exact Hs|reflexivity].
  - destruct (IH (insertByDate x acc) (insertByDate_sorted x acc Hs)) as [H1 H2].
    split; [exact H1|].
    rewrite H2, insertByDate_perm. symmetry. apply Permutation_middle.
Qed.

Lemma sortByDate_sorted (l : list Reminder.t) :
  StronglySorted notAfter (sortByDate l) /\ Permutation (sortByDate l) l.
Proof.
  unfold sortByDate.
  destruct (sortByDate_acc l [] (SSorted_nil _)) as [H1 H2].
  split; [exact H1|]. now rewrite app_nil_r in H2.
Qed.

Lemma filter_sorted (p : Reminder.t -> bool) (l : list Reminder.t) :
  StronglySorted notAfter l -> StronglySorted notAfter (filter p l).
Proof.
  induction 1 as [|x rest Hs IH Hall]; cbn [filter]; [constructor|].
  destruct (p x); [|exact IH].
  constructor; [exact IH|].
  apply Forall_forall. intros y Hy. apply filter_In in Hy.
  rewrite Forall_forall in Hall. now apply Hall.
Qed.

Lemma filter_perm {A} (p : A -> bool) (l l' : list A) :
  Permutation l l' -> Permutation (filter p l) (filter p l').
Proof.
  induction 1 as [|x l l' _ IH|x y l|l l' l'' _ IH1 _ IH2]; cbn [filter].
  - constructor.
  - destruct (p x); [now constructor|exact IH].
  - destruct (p x), (p y); try reflexivity. apply perm_swap.
  - now transitivity (filter p l').
Qed.

Lemma filter_listed (userId : ObjectId) (status : option ReminderStatus)
  (l : list Reminder.t) :
  match status with
  | Some s =>
      filter (fun r => ReminderStatus_eqb (Reminder.status r) s)
        (filter (fun d => (Reminder.userId d =? userId)%nat) l)
  | None => filter (fun d => (Reminder.userId d =? userId)%nat) l
  end
  = filter (listed userId status) l.
Proof.
  unfold listed. induction l as [|x l IH]; [now destruct status|].
  destruct status as [s|]; cbn [filter] in *.
  - destruct (Reminder.userId x =? userId)%nat; cbn [filter andb]; [|exact IH].
    destruct (ReminderStatus_eqb (Reminder.status x) s); now rewrite IH.
  - destruct (Reminder.userId x =? userId)%nat; cbn [andb]; now rewrite ?IH, ?andb_true_r.
Qed.

(** X16. [list_reminders] is a read: the store is left as it is. When the
    stored reminders of the caller satisfy the reminder schema, the reply
    lists exactly the caller's reminders (those of the requested status
    when one is given), each once, no reminder of another user, ordered by
    ascending [scheduledFor]. *)
Theorem X16_list_reminders `{Platform} (userId : ObjectId) (args : ToolArgs)
  (status : option ReminderStatus) (now : Date) (coll : Collection Reminder.t) :
  zOptional zStatus (arg_status args) = Ok status ->
  (forall r, In r (docs coll) -> Reminder.userId r = userId ->
             Reminder.schemaOk r = true) ->
  exists message l,
    invoke (ReminderTools.listRemindersTool userId) args now coll
    = (Ok (JsonList message (map ReminderTools.summary l)), coll)
    /\ Permutation l (filter (listed userId status) (docs coll))
    /\ StronglySorted notAfter l.
Proof.
  intros Hs Hvalid. unfold invoke. simpl.
  unfold ReminderTools.listSchema. rewrite Hs.
  unfold ReminderTools.listFunc, ReminderRepository.findByUserId,
    ReminderRepository.findMany, coll_find.
  unfold_monad. cbn [ReminderTools.l_status].
  set (mine := filter (fun d => (Reminder.userId d =? userId)%nat) (docs coll)).
  set (found := cursorOrder mine).
  destruct (sortByDate_sorted found) as [Hsorted Hfound].
  assert (Hperm : Permutation (sortByDate found) mine).
  { etransitivity; [exact Hfound|apply cursorOrder_perm]. }
  assert (Hok : Forall (fun r => Reminder.schemaOk r = true) (sortByDate found)).
  { eapply Permutation_Forall; [symmetry; exact Hperm|].
    apply Forall_forall. intros r Hr. apply filter_In in Hr. destruct Hr as [Hr Hu].
    apply Nat.eqb_eq in Hu. now apply Hvalid. }
  rewrite (mapResult_fromDocument_valid _ Hok).
  set (reminders0 := match status with
                     | Some s => filter (fun r => ReminderStatus_eqb (Reminder.status r) s)
                                   (sortByDate found)
                     | None => sortByDate found
                     end).
  assert (Hp : Permutation reminders0 (filter (listed userId status) (docs coll))).
  { rewrite <- filter_listed. fold mine. subst reminders0.
    destruct status as [s|]; [now apply filter_perm|exact Hperm]. }
  assert (Hso : StronglySorted notAfter reminders0).
  { subst reminders0. destruct status as [s|]; [now apply filter_sorted|exact Hsorted]. }
  destruct (List.length reminders0 =? 0)%nat eqn:El.
  - apply Nat.eqb_eq in El. apply length_zero_iff_nil in El.
    eexists. exists []. split; [reflexivity|].
    split; [now rewrite <- El|constructor].
  - eexists. exists reminders0. split; [reflexivity|]. now split.
Qed.

Lemma X16_list_reminders_witness :
  exists message l,
    invoke (@ReminderTools.listRemindersTool examplePlatform 7%nat)
           (mkArgs None None None None (Some (JString "pending"))) 1000%Z
           (reminders tickWorld)
    = (Ok (JsonList message (map (@ReminderTools.summary examplePlatform) l)),
       reminders tickWorld)
    /\ Permutation l (filter (listed 7%nat (Some PENDING)) (docs (reminders tickWorld)))
    /\ StronglySorted notAfter l.
Proof.
  apply (@X16_list_reminders examplePlatform 7%nat
           (mkArgs None None None None (Some (JString "pending")))
           (Some PENDING) 1000%Z (reminders tickWorld)).
  - reflexivity.
  - intros r Hr _. simpl in Hr.
    destruct Hr as [<-|[<-|[<-|[<-|[]]]]]; reflexivity.
Defined.


(** ** Updates and deletions by the owner *)

Lemma updateFirst_fst {D} (p : D -> bool) (f : D -> D) (l : list D) (d : D) :
  find p l = Some d -> fst (updateFirst p f l) = Some (f d).
Proof.
  induction l as [|x r IH]; cbn [find updateFirst]; [discriminate|].
  destruct (p x); [intros E; injection E as ->; reflexivity|].
  intros E. destruct (updateFirst p f r). cbn [fst] in *. now apply IH.
Qed.

Lemma updateFirst_length {D} (p : D -> bool) (f : D -> D) (l : list D) :
  List.length (snd (updateFirst p f l)) = List.length l.
Proof.
  induction l as [|x r IH]; cbn [updateFirst]; [reflexivity|].
  destruct (p x); [reflexivity|].
  destruct (updateFirst p f r). simpl in *. now rewrite IH.
Qed.

Lemma update_found (id : ObjectId) (data : PartialReminder) (now : Date)
  (coll : Collection Reminder.t) (existing : Reminder.t) :
  find (hasId id) (docs coll) = Some existing ->
  Reminder.schemaOk (applySet data now existing) = true ->
  ReminderRepository.update id data now coll
  = (Ok (Some (applySet data now existing)),
     mkCollection (snd (updateFirst (hasId id) (applySet data now) (docs coll)))
                  (nextId coll)).
Proof.
  intros Hf Hok. unfold ReminderRepository.update, coll_findOneAndUpdate.
  unfold_monad.
  pose proof (updateFirst_fst (hasId id) (applySet data now) (docs coll) existing Hf)
    as Hfst.
  destruct (updateFirst (hasId id) (applySet data now) (docs coll)) as [o l].
  cbn [fst] in Hfst. subst o. rewrite (fromDocument_reminder _ Hok). reflexivity.
Qed.

Lemma zStringBetween_ok (lo hi : nat) (v : option JsonValue) (s : string) :
  zStringBetween lo hi v = Ok s -> (lo <= String.length s <= hi)%nat.
Proof.
  unfold zStringBetween, zString. destruct v as [[x|]|]; try discriminate.
  destruct (_ && _) eqn:E; [|discriminate]. intros Eq. injection Eq as <-.
  apply andb_prop in E. destruct E as [E1 E2].
  apply Nat.leb_le in E1. apply Nat.leb_le in E2. auto.
Qed.

Lemma zOptional_ok {A} (schema0 : option JsonValue -> Result A)
  (v : option JsonValue) (a : A) :
  zOptional schema0 v = Ok (Some a) -> schema0 v = Ok a.
Proof.
  unfold zOptional. destruct v as [x|]; [|discriminate].
  destruct (schema0 (Some x)); [|discriminate]. intros E. now injection E as ->.
Qed.

Lemma futureISODateSchema_ok `{Platform} (now : Date) (v : option JsonValue)
  (t : Date) :
  DateValidator.futureISODateSchema now v = Ok t -> (now < t)%Z.
Proof.
  unfold DateValidator.futureISODateSchema, DateValidator.validateFutureISODate.
  destruct v as [[s|]|]; try discriminate.
  destruct (DateValidator.validateISODate s) as [date|]; [|discriminate].
  unfold DateValidator.isFutureDate.
  destruct (now <? date)%Z eqn:E; cbn [negb]; [|discriminate].
  intros Eq. injection Eq as <-. now apply Z.ltb_lt.
Qed.

Lemma updateSchema_ok `{Platform} (now : Date) (args : ToolArgs)
  (input : ReminderTools.UpdateInput) :
  ReminderTools.updateSchema now args = Ok input ->
  zOptional (zStringBetween 1 200) (arg_title args)
  = Ok (ReminderTools.u_title input)
  /\ zOptional (zStringBetween 0 1000) (arg_description args)
     = Ok (ReminderTools.u_description input)
  /\ zOptional (DateValidator.futureISODateSchema now) (arg_scheduledFor args)
     = Ok (ReminderTools.u_scheduledFor input).
Proof.
  unfold ReminderTools.updateSchema.
  destruct (zString (arg_reminderId args));
    destruct (zOptional (zStringBetween 1 200) (arg_title args));
    destruct (zOptional (zStringBetween 0 1000) (arg_description args));
    destruct (zOptional (DateValidator.futureISODateSchema now)
                (arg_scheduledFor args));
    intros Heq; inversion Heq; repeat split.
Qed.

Lemma ifTruthy_nonempty (t : string) :
  (1 <= String.length t)%nat -> ReminderTools.ifTruthy (Some t) = Some t.
Proof. destruct t; cbn [String.length]; [lia|reflexivity]. Qed.

Lemma schemaOk_parts (r : Reminder.t) :
  Reminder.schemaOk r = true <->
  isE164 (Reminder.phoneNumber r) = true
  /\ (1 <= String.length (Reminder.title r) <= 200)%nat
  /\ Reminder.description r <> null
  /\ (forall d, Reminder.description r = defined d ->
                (String.length d <= 1000)%nat).
Proof.
  unfold Reminder.schemaOk. rewrite !andb_true_iff, !Nat.leb_le. split.
  - intros [[[Hp H1] H2] Hd]. repeat split; try assumption.
    + intros Ed. rewrite Ed in Hd. discriminate.
    + intros d Ed. rewrite Ed in Hd. now apply Nat.leb_le.
  - intros [Hp [[H1 H2] [Hn Hd]]]. repeat split; try assumption.
    destruct (Reminder.description r) as [| |d]; [reflexivity|congruence|].
    apply Nat.leb_le. now apply Hd.
Qed.

(** X17. [update_reminder] called by the owner with arguments the schema
    accepts, on a stored reminder that satisfies the reminder schema. The
    call succeeds; the stored reminder takes the title, description and
    date that were given and keeps the others; its status, owner,
    conversation, phone number and creation date are kept and [updatedAt]
    is the instant of the call; a new date is strictly later than that
    instant; the reminder still satisfies the schema, and every other
    reminder is as before. *)
Theorem X17_update_by_owner `{Platform} (userId : ObjectId) (args : ToolArgs)
  (input : ReminderTools.UpdateInput) (id : ObjectId) (existing : Reminder.t)
  (now : Date) (coll : Collection Reminder.t) :
  ReminderTools.updateSchema now args = Ok input ->
  parseObjectId (ReminderTools.u_reminderId input) = Some id ->
  find (hasId id) (docs coll) = Some existing ->
  Reminder.schemaOk existing = true ->
  Reminder.userId existing = userId ->
  let updated :=
    Reminder.mk (Some id) (Reminder.userId existing)
      (Reminder.conversationId existing) (Reminder.phoneNumber existing)
      (orElse (ReminderTools.u_title input) (Reminder.title existing))
      (match ReminderTools.u_description input with
       | Some x => defined x
       | None => Reminder.description existing
       end)
      (orElse (ReminderTools.u_scheduledFor input) (Reminder.scheduledFor existing))
      (Reminder.status existing) (Reminder.createdAt existing) now in
  let outcome := invoke (ReminderTools.updateReminderTool userId) args now coll in
  fst outcome
  = Ok (JsonUpdated "Reminder updated successfully!"
          (mkSummary (Some id) (Reminder.title updated) (Reminder.description updated)
             (toISOString (Reminder.scheduledFor updated))
             (Reminder.status existing) None))
  /\ find (hasId id) (docs (snd outcome)) = Some updated
  /\ (forall j, j <> id ->
        find (hasId j) (docs (snd outcome)) = find (hasId j) (docs coll))
  /\ Reminder.schemaOk updated = true
  /\ (forall t, ReminderTools.u_scheduledFor input = Some t -> (now < t)%Z).
Proof.
  intros Hs Hp Hf Hok Hu updated outcome.
  destruct (updateSchema_ok now args input Hs) as [Ht [Hd Hw]].
  destruct (find_hasId_id _ _ _ Hf) as [_ Hid]. cbn [docId Reminder_Document] in Hid.
  assert (Htitle : ReminderTools.ifTruthy (ReminderTools.u_title input)
                   = ReminderTools.u_title input).
  { destruct (ReminderTools.u_title input) as [t|] eqn:Et; [|reflexivity].
    apply ifTruthy_nonempty.
    apply zOptional_ok in Ht. apply zStringBetween_ok in Ht. lia. }
  assert (Hset : applySet (mkPartial (ReminderTools.ifTruthy
                                        (ReminderTools.u_title input))
                             (ReminderTools.u_description input)
                             (ReminderTools.u_scheduledFor input) None) now existing
                 = updated).
  { subst updated. unfold applySet. cbn [set_title set_description set_scheduledFor
      set_status orElse]. rewrite Htitle, Hid. reflexivity. }
  assert (Hok' : Reminder.schemaOk updated = true).
  { apply schemaOk_parts in Hok. destruct Hok as [Hph [Hti [Hnn Hde]]].
    apply schemaOk_parts. subst updated.
    cbn [Reminder.phoneNumber Reminder.title Reminder.description].
    split; [exact Hph|]. split; [|split].
    - destruct (ReminderTools.u_title input) as [t|]; cbn [orElse]; [|exact Hti].
      apply zOptional_ok in Ht. now apply zStringBetween_ok in Ht.
    - destruct (ReminderTools.u_description input) as [x|];
        [discriminate|exact Hnn].
    - intros d. destruct (ReminderTools.u_description input) as [x|]; [|apply Hde].
      intros E. injection E as ->.
      apply zOptional_ok in Hd. apply zStringBetween_ok in Hd. lia. }
  assert (Hrun : outcome
            = (Ok (JsonUpdated "Reminder updated successfully!"
                     (mkSummary (Some id) (Reminder.title updated)
                        (Reminder.description updated)
                        (toISOString (Reminder.scheduledFor updated))
                        (Reminder.status existing) None)),
               mkCollection
                 (snd (updateFirst (hasId id)
                         (applySet (mkPartial (ReminderTools.ifTruthy
                                                 (ReminderTools.u_title input))
                                      (ReminderTools.u_description input)
                                      (ReminderTools.u_scheduledFor input) None) now)
                         (docs coll)))
                 (nextId coll))).
  { subst outcome. unfold invoke. simpl. rewrite Hs.
    unfold ReminderTools.updateFunc, ReminderTools.newObjectId. rewrite Hp.
    unfold_monad. rewrite (findById_found _ _ _ Hf Hok).
    rewrite Hu, Nat.eqb_refl. cbn [negb].
    rewrite (update_found id _ now coll existing Hf); [|rewrite Hset; exact Hok'].
    rewrite Hset. reflexivity. }
  rewrite Hrun. cbn [fst snd docs].
  split; [reflexivity|]. split.
  - rewrite (updateFirst_find_same _ (applySet_keeps_id _ now) id (docs coll)).
    rewrite Hf. cbn [option_map]. now rewrite Hset.
  - split.
    + intros j Hj.
      apply (updateFirst_find_other _ (applySet_keeps_id _ now) j id (docs coll) Hj).
    + split; [exact Hok'|].
      intros t Et. rewrite Et in Hw. apply zOptional_ok in Hw.
      now apply futureISODateSchema_ok in Hw.
Qed.

Lemma X17_update_by_owner_witness :
  let outcome :=
    invoke (@ReminderTools.updateReminderTool examplePlatform 7%nat)
           (argsReschedule "1" "2000") 1000%Z remindersOfUser7 in
  fst outcome
  = Ok (JsonUpdated "Reminder updated successfully!"
          (mkSummary (Some 1%nat) "water the plants" (defined "on the balcony")
             "2000" PENDING None))
  /\ find (hasId 1%nat) (docs (snd outcome))
     = Some (Reminder.mk (Some 1%nat) 7%nat 3%nat "+15551234567" "water the plants"
               (defined "on the balcony") 2000%Z PENDING 100%Z 1000%Z).
Proof.
  pose proof (@X17_update_by_owner examplePlatform 7%nat
                (argsReschedule "1" "2000")
                (ReminderTools.mkUpdateInput "1" None None (Some 2000%Z))
                1%nat reminderOfUser7 1000%Z remindersOfUser7
                eq_refl eq_refl eq_refl eq_refl eq_refl) as [H1 [H2 _]].
  split; [exact H1|exact H2].
Defined.

(** X18. [delete_reminder] called by the owner never removes a document.
    On a stored reminder that satisfies the reminder schema the call
    succeeds whatever the status of the reminder; the stored reminder is
    the one [Reminder.cancel] gives, with status [cancelled] and
    [updatedAt] the instant of the call; the collection keeps its length
    and its ids, and every other reminder is as before. *)
Theorem X18_delete_is_a_cancellation `{Platform} (userId : ObjectId)
  (args : ToolArgs) (rid : string) (id : ObjectId) (existing : Reminder.t)
  (now : Date) (coll : Collection Reminder.t) :
  arg_reminderId args = Some (JString rid) ->
  parseObjectId rid = Some id ->
  find (hasId id) (docs coll) = Some existing ->
  Reminder.schemaOk existing = true ->
  Reminder.userId existing = userId ->
  let outcome := invoke (ReminderTools.deleteReminderTool userId) args now coll in
  fst outcome
  = Ok (JsonDeleted ("Reminder " ++ dq ++ Reminder.title existing ++ dq
                     ++ " has been cancelled."))
  /\ find (hasId id) (docs (snd outcome)) = Some (Reminder.cancel existing now)
  /\ (forall j, j <> id ->
        find (hasId j) (docs (snd outcome)) = find (hasId j) (docs coll))
  /\ List.length (docs (snd outcome)) = List.length (docs coll)
  /\ idsOf (docs (snd outcome)) = idsOf (docs coll).
Proof.
  intros Hr Hp Hf Hok Hu outcome.
  assert (Hrun : outcome
            = (Ok (JsonDeleted ("Reminder " ++ dq ++ Reminder.title existing ++ dq
                                ++ " has been cancelled.")),
               mkCollection
                 (snd (updateFirst (hasId id)
                         (applySet (mkPartial None None None (Some CANCELLED)) now)
                         (docs coll)))
                 (nextId coll))).
  { subst outcome. unfold invoke. simpl. unfold ReminderTools.deleteSchema.
    rewrite Hr. cbn [zString].
    unfold ReminderTools.deleteFunc, ReminderTools.newObjectId.
    cbn [ReminderTools.d_reminderId]. rewrite Hp.
    unfold_monad. rewrite (findById_found _ _ _ Hf Hok).
    rewrite Hu, Nat.eqb_refl. cbn [negb].
    unfold ReminderRepository.cancelReminder, ReminderRepository.updateStatus.
    rewrite (update_found id _ now coll existing Hf); [reflexivity|exact Hok]. }
  rewrite Hrun. cbn [fst snd docs].
  split; [reflexivity|]. split.
  - rewrite (updateFirst_find_same _ (applySet_keeps_id _ now) id (docs coll)).
    rewrite Hf. reflexivity.
  - split.
    + intros j Hj.
      apply (updateFirst_find_other _ (applySet_keeps_id _ now) j id (docs coll) Hj).
    + split; [apply updateFirst_length|].
      apply updateFirst_idsOf. apply applySet_keeps_id.
Qed.

Lemma X18_delete_is_a_cancellation_witness :
  let outcome :=
    invoke (@ReminderTools.deleteReminderTool examplePlatform 7%nat)
           (argsId "1") 1000%Z remindersOfUser7 in
  find (hasId 1%nat) (docs (snd outcome))
  = Some (Reminder.mk (Some 1%nat) 7%nat 3%nat "+15551234567" "water the plants"
            (defined "on the balcony") 500%Z CANCELLED 100%Z 1000%Z)
  /\ List.length (docs (snd outcome)) = 1%nat.
Proof.
  pose proof (@X18_delete_is_a_cancellation examplePlatform 7%nat (argsId "1") "1"
                1%nat reminderOfUser7 1000%Z remindersOfUser7
                eq_refl eq_refl eq_refl eq_refl eq_refl) as [_ [H2 [_ [H4 _]]]].
  split; [exact H2|exact H4].
Defined.


(** ** The store stays well formed *)

Lemma wellFormed_sound (l : list Reminder.t) :
  wellFormed l <-> NoDup (idsOf l) /\ Forall sound l.
Proof.
  unfold wellFormed, sound. split.
  - intros [Hnd [Hid Hok]]. split; [exact Hnd|].
    rewrite Forall_forall in *. intros r Hr. split; auto.
  - intros [Hnd Hall]. split; [exact Hnd|].
    rewrite Forall_forall in Hall. split; apply Forall_forall; intros r Hr;
      now apply Hall.
Qed.

Lemma updateFirst_Forall {D} (P : D -> Prop) (p : D -> bool) (f : D -> D)
  (l : list D) :
  (forall d, P d -> P (f d)) -> Forall P l -> Forall P (snd (updateFirst p f l)).
Proof.
  intros Hf. induction 1 as [|x r Hx Hr IH]; cbn [updateFirst]; [constructor|].
  destruct (p x); cbn [snd]; [constructor; auto|].
  destruct (updateFirst p f r). cbn [snd] in *. now constructor.
Qed.

Lemma applySet_sound (data : PartialReminder) (now : Date) (d : Reminder.t) :
  (forall t, set_title data = Some t -> (1 <= String.length t <= 200)%nat) ->
  (forall x, set_description data = Some x -> (String.length x <= 1000)%nat) ->
  sound d -> sound (applySet data now d).
Proof.
  intros Ht Hd [Hid Hok]. split; [exact Hid|].
  apply schemaOk_parts in Hok. destruct Hok as [Hph [Hti [Hnn Hde]]].
  apply schemaOk_parts. unfold applySet.
  cbn [Reminder.phoneNumber Reminder.title Reminder.description].
  split; [exact Hph|]. split; [|split].
  - destruct (set_title data) as [t|]; cbn [orElse]; [now apply Ht|exact Hti].
  - destruct (set_description data) as [y|]; [discriminate|exact Hnn].
  - intros x. destruct (set_description data) as [y|]; [|apply Hde].
    intros E. injection E as ->. now apply Hd.
Qed.

Lemma ifTruthy_Some (s : option string) (t : string) :
  ReminderTools.ifTruthy s = Some t -> s = Some t.
Proof. unfold ReminderTools.ifTruthy. destruct (truthy s); [auto|discriminate]. Qed.

Lemma perform_create `{Platform} (now : Date) (u c : ObjectId) (p : string)
  (args : ToolArgs) (w : World) :
  reminders (perform now (create_reminder u c p args) w)
  = snd (invoke (ReminderTools.createReminderTool u c p) args now (reminders w)).
Proof.
  unfold perform, onReminders. cbn [reminders atInstant].
  now destruct (invoke _ args now (reminders w)).
Qed.

(** What [create_reminder] leaves in the store: the documents as they
    were, or one more, with the description as the database writes it. *)
Lemma create_docs `{Platform} (userId conversationId : ObjectId)
  (phoneNumber : string) (args : ToolArgs) (now : Date)
  (coll : Collection Reminder.t) :
  let after :=
    docs (snd (invoke (ReminderTools.createReminderTool userId conversationId
                         phoneNumber) args now coll)) in
  after = docs coll
  \/ exists input,
       ReminderTools.createSchema now args = Ok input
       /\ isE164 phoneNumber = true
       /\ after
          = docs coll
            ++ [Reminder.mk (Some (nextId coll)) userId conversationId phoneNumber
                  (ReminderTools.c_title input)
                  (storedDescription (ReminderTools.c_description input))
                  (ReminderTools.c_scheduledFor input) PENDING now now].
Proof.
  intros after. subst after.
  pose proof (create_outcome userId conversationId phoneNumber args now coll) as Ho.
  destruct (ReminderTools.createSchema now args) as [input|e] eqn:Hs.
  - destruct (isE164 phoneNumber && negb (existsb (hasId (nextId coll)) (docs coll)))
      eqn:Ec.
    + right. exists input. apply andb_prop in Ec.
      split; [reflexivity|]. split; [apply Ec|]. now rewrite Ho.
    + left. destruct Ho as [e [c [Ho Hc]]]. now rewrite Ho.
  - left. now rewrite Ho.
Qed.

Lemma create_sound `{Platform} (userId conversationId : ObjectId)
  (phoneNumber : string) (args : ToolArgs) (now : Date)
  (coll : Collection Reminder.t) :
  arg_description args <> None ->
  Forall sound (docs coll) ->
  Forall sound
    (docs (snd (invoke (ReminderTools.createReminderTool userId conversationId
                          phoneNumber) args now coll))).
Proof.
  intros Hdesc Hall.
  destruct (create_docs userId conversationId phoneNumber args now coll)
    as [->|[input [Hs [Hph ->]]]]; [exact Hall|].
  apply Forall_app. split; [exact Hall|].
  constructor; [|constructor]. split; [discriminate|].
  destruct (createSchema_inv now args input Hs) as [[_ Ht] [Hd _]].
  apply schemaOk_parts.
  cbn [Reminder.phoneNumber Reminder.title Reminder.description].
  split; [exact Hph|]. split; [exact Ht|].
  unfold descriptionAccepted in Hd.
  destruct (ReminderTools.c_description input) as [d|]; [|contradiction].
  cbn [storedDescription]. split; [discriminate|].
  intros x E. injection E as <-. apply Hd.
Qed.

(** A reminder that [create_reminder] stores without description is one
    the model cannot read. *)
Lemma create_undescribed `{Platform} (userId conversationId : ObjectId)
  (phoneNumber : string) (args : ToolArgs) (now : Date)
  (coll : Collection Reminder.t) :
  arg_description args = None ->
  let after :=
    docs (snd (invoke (ReminderTools.createReminderTool userId conversationId
                         phoneNumber) args now coll)) in
  after = docs coll
  \/ exists r, after = docs coll ++ [r]
               /\ Reminder._id r = Some (nextId coll)
               /\ Reminder.description r = null
               /\ Reminder.status r = PENDING
               /\ Reminder.schemaOk r = false.
Proof.
  intros Hnone after. subst after.
  destruct (create_docs userId conversationId phoneNumber args now coll)
    as [->|[input [Hs [Hph ->]]]]; [now left|].
  right. eexists. split; [reflexivity|].
  destruct (createSchema_inv now args input Hs) as [_ [Hd _]].
  unfold descriptionAccepted in Hd.
  destruct (ReminderTools.c_description input) as [d|];
    [destruct Hd; congruence|].
  cbn [storedDescription]. repeat split.
  unfold Reminder.schemaOk. cbn [Reminder.description]. apply andb_false_r.
Qed.

Lemma update_sound `{Platform} (userId : ObjectId) (args : ToolArgs)
  (now : Date) (coll : Collection Reminder.t) :
  Forall sound (docs coll) ->
  Forall sound
    (docs (snd (invoke (ReminderTools.updateReminderTool userId) args now coll))).
Proof.
  intros Hall. unfold invoke. simpl.
  destruct (ReminderTools.updateSchema now args) as [input|e] eqn:Hs; [|exact Hall].
  destruct (updateSchema_ok now args input Hs) as [Ht [Hd _]].
  unfold ReminderTools.updateFunc, ReminderTools.newObjectId.
  destruct (parseObjectId (ReminderTools.u_reminderId input)) as [id|];
    [|exact Hall].
  unfold_monad.
  pose proof (findById_reads id coll) as Hr.
  destruct (ReminderRepository.findById id coll) as [found c].
  cbn [snd] in Hr. subst c.
  destruct found as [[existing|]|e]; simpl; try exact Hall.
  destruct (Reminder.userId existing =? userId)%nat; simpl; [|exact Hall].
  match goal with
  | |- context [ReminderRepository.update ?i ?d ?n ?c] =>
      pose proof (update_world i d n c) as Hu;
      destruct (ReminderRepository.update i d n c) as [res c'] eqn:Eu
  end.
  simpl in Hu. subst c'.
  assert (Hk : Forall sound
            (snd (updateFirst (hasId id)
                    (applySet (mkPartial (ReminderTools.ifTruthy
                                            (ReminderTools.u_title input))
                                 (ReminderTools.u_description input)
                                 (ReminderTools.u_scheduledFor input) None) now)
                    (docs coll)))).
  { apply updateFirst_Forall; [|exact Hall]. intros d. apply applySet_sound.
    - cbn [set_title]. intros t Et. apply ifTruthy_Some in Et. rewrite Et in Ht.
      apply zOptional_ok in Ht. now apply zStringBetween_ok in Ht.
    - cbn [set_description]. intros x Ex. rewrite Ex in Hd.
      apply zOptional_ok in Hd. apply zStringBetween_ok in Hd. lia. }
  destruct res as [[updated|]|e]; simpl; exact Hk.
Qed.

Lemma status_sound (s : ReminderStatus) (now : Date) (d : Reminder.t) :
  sound d -> sound (applySet (mkPartial None None None (Some s)) now d).
Proof. apply applySet_sound; cbn [set_title set_description]; discriminate. Qed.

Lemma delete_sound `{Platform} (userId : ObjectId) (args : ToolArgs)
  (now : Date) (coll : Collection Reminder.t) :
  Forall sound (docs coll) ->
  Forall sound
    (docs (snd (invoke (ReminderTools.deleteReminderTool userId) args now coll))).
Proof.
  intros Hall. unfold invoke. simpl.
  destruct (ReminderTools.deleteSchema now args) as [input|e]; [|exact Hall].
  unfold ReminderTools.deleteFunc, ReminderTools.newObjectId.
  destruct (parseObjectId (ReminderTools.d_reminderId input)) as [id|];
    [|exact Hall].
  unfold_monad.
  pose proof (findById_reads id coll) as Hr.
  destruct (ReminderRepository.findById id coll) as [found c].
  cbn [snd] in Hr. subst c.
  destruct found as [[existing|]|e]; simpl; try exact Hall.
  destruct (Reminder.userId existing =? userId)%nat; simpl; [|exact Hall].
  unfold ReminderRepository.cancelReminder, ReminderRepository.updateStatus.
  match goal with
  | |- context [ReminderRepository.update ?i ?d ?n ?c] =>
      pose proof (update_world i d n c) as Hu;
      destruct (ReminderRepository.update i d n c) as [res c'] eqn:Eu
  end.
  simpl in Hu. subst c'.
  assert (Hk : Forall sound
            (snd (updateFirst (hasId id)
                    (applySet (mkPartial None None None (Some CANCELLED)) now)
                    (docs coll)))).
  { apply updateFirst_Forall; [|exact Hall]. intros d. apply status_sound. }
  destruct res as [r|e]; simpl; exact Hk.
Qed.

Lemma loop_sound `{Platform} (twilio : nat -> string -> string -> bool)
  (rest : list Reminder.t) (w : World) :
  Forall sound (docs (reminders w)) ->
  Forall sound (docs (reminders (fold_left (afterSend twilio) rest w))).
Proof.
  revert w. induction rest as [|r rest IH]; intros w Hall; cbn [fold_left];
    [exact Hall|].
  apply IH. unfold afterSend. cbn [reminders].
  destruct (Reminder._id r); [|exact Hall].
  destruct (twilio _ _ _); [|exact Hall]. cbn [docs].
  apply updateFirst_Forall; [|exact Hall]. intros d. apply status_sound.
Qed.

Lemma perform_sound `{Platform} (now : Date) (op : Operation) (w : World) :
  describes op ->
  Forall sound (docs (reminders w)) ->
  Forall sound (docs (reminders (perform now op w))).
Proof.
  intros Hdesc Hall.
  destruct op as [u c p args|u args|u args|twilio|twilio r].
  - rewrite perform_create. now apply create_sound.
  - pose proof (update_sound u args now (reminders w) Hall) as Ha.
    unfold perform, onReminders. simpl.
    destruct (invoke _ args now (reminders w)); exact Ha.
  - pose proof (delete_sound u args now (reminders w) Hall) as Ha.
    unfold perform, onReminders. simpl.
    destruct (invoke _ args now (reminders w)); exact Ha.
  - unfold perform.
    destruct (tick_world twilio (atInstant now w)) as [E|E]; rewrite E; cbn [snd];
      [exact Hall|].
    apply loop_sound. exact Hall.
  - unfold perform. rewrite sendReminder_effect. cbn [snd].
    apply (loop_sound twilio [r] (atInstant now w)). exact Hall.
Qed.

(** X19. The writers of the reminder store (the three mutating tools as
    the agent loop invokes them, the scheduler tick and a single send of
    it, with any channel) keep the store readable as long as every
    [create_reminder] among them passes a description: after any sequence
    of them every document still has an [_id], the ids are still distinct,
    and every document still satisfies the reminder schema. A
    [create_reminder] without description that stores its reminder ends
    this: the stored document has a [null] description and the store is
    not readable in full any more. *)
Theorem X19_store_stays_well_formed `{Platform} (ops : list (Date * Operation))
  (w : World) :
  wellFormed (docs (reminders w)) ->
  (Forall (fun x => describes (snd x)) ops ->
   wellFormed (docs (reminders (run ops w))))
  /\ (forall (now : Date) (u c : ObjectId) (p : string) (args : ToolArgs),
         arg_description args = None ->
         let w' := perform now (create_reminder u c p args) w in
         docs (reminders w') <> docs (reminders w) ->
         ~ wellFormed (docs (reminders w'))).
Proof.
  intros Hwf. split.
  - revert Hwf. rewrite !wellFormed_sound. intros [Hnd Hall] Hops. split.
    + now apply (run_advances ops w).
    + clear Hnd. revert w Hall.
      induction Hops as [|[now op] ops Hop _ IH]; intros w Hall; [exact Hall|].
      unfold run in *. cbn [fold_left fst snd]. apply IH.
      now apply perform_sound.
  - intros now u c p args Hnone w' Hchanged [_ [_ Hok]]. subst w'.
    rewrite perform_create in *.
    destruct (create_undescribed u c p args now (reminders w) Hnone)
      as [Hsame|[r [Hafter [_ [_ [_ Hbad]]]]]]; [contradiction|].
    rewrite Hafter in Hok. apply Forall_app in Hok. destruct Hok as [_ Hr].
    inversion Hr as [|? ? Hr0 _]. congruence.
Qed.

Lemma X19_store_stays_well_formed_witness :
  wellFormed
    (docs (reminders (@run examplePlatform (createThenTick ++ thenDelete) emptyWorld)))
  /\ ~ wellFormed
         (docs (reminders
                  (@perform examplePlatform 100%Z
                     (create_reminder 7%nat 3%nat "+15551234567"
                        (argsCreate "water the plants" "500")) emptyWorld))).
Proof.
  destruct (@X19_store_stays_well_formed examplePlatform
              (createThenTick ++ thenDelete) emptyWorld) as [Hkeeps Hends].
  - repeat split; constructor.
  - split.
    + apply Hkeeps. repeat constructor; discriminate.
    + apply (Hends 100%Z 7%nat 3%nat "+15551234567"
               (argsCreate "water the plants" "500") eq_refl).
      discriminate.
Defined.


(** ** Deliveries over several ticks *)

Lemma find_hasId_notin {D} `{Document D} (l : list D) (i : ObjectId) :
  ~ In i (idsOf l) -> find (hasId i) l = None.
Proof.
  induction l as [|x r IH]; intros Hn; [reflexivity|].
  cbn [find]. unfold idsOf in Hn. cbn [flat_map] in Hn.
  rewrite in_app_iff in Hn. unfold hasId at 1.
  destruct (docId x) as [j|] eqn:Ej.
  - destruct (j =? i)%nat eqn:E.
    + apply Nat.eqb_eq in E. subst j. exfalso. apply Hn. left. now left.
    + apply IH. intros Hin. apply Hn. now right.
  - apply IH. intros Hin. apply Hn. now right.
Qed.

Lemma docs_by_find {D} `{Document D} (g : D -> D) (l : list D) :
  (forall d, docId (g d) = docId d) ->
  Forall (fun r => docId r <> None) l ->
  NoDup (idsOf l) ->
  forall l',
    Forall (fun r => docId r <> None) l' ->
    idsOf l' = idsOf l ->
    (forall i, find (hasId i) l' = option_map g (find (hasId i) l)) ->
    l' = map g l.
Proof.
  intros Hg. induction l as [|x r IH]; intros Hall Hnd l' Hall' Hids Hfind.
  - destruct l' as [|x' r']; [reflexivity|].
    inversion Hall' as [|? ? Hx' _]. unfold idsOf in Hids. cbn [flat_map] in Hids.
    destruct (docId x'); [discriminate|congruence].
  - inversion Hall as [|? ? Hx Hr]. subst.
    destruct (docId x) as [i|] eqn:Ei; [|congruence].
    unfold idsOf in Hnd, Hids. cbn [flat_map] in Hnd, Hids. rewrite Ei in Hnd, Hids.
    cbn [app] in Hnd, Hids. inversion Hnd as [|? ? Hni Hnd']. subst.
    destruct l' as [|x' r']; [discriminate|].
    inversion Hall' as [|? ? Hx' Hr']. subst.
    cbn [flat_map] in Hids.
    destruct (docId x') as [i'|] eqn:Ei'; [|congruence].
    cbn [app] in Hids. injection Hids as -> Hids.
    assert (Hhx : hasId i x = true) by (unfold hasId; now rewrite Ei, Nat.eqb_refl).
    assert (Hhx' : hasId i x' = true) by (unfold hasId; now rewrite Ei', Nat.eqb_refl).
    pose proof (Hfind i) as Hi. cbn [find] in Hi. rewrite Hhx, Hhx' in Hi.
    cbn [option_map] in Hi. injection Hi as ->.
    cbn [map]. f_equal.
    apply IH; try assumption.
    intros j. destruct (Nat.eq_dec j i) as [->|Hne].
    + rewrite (find_hasId_notin r i Hni).
      rewrite (find_hasId_notin r' i); [reflexivity|].
      unfold idsOf. rewrite Hids. exact Hni.
    + pose proof (Hfind j) as Hj. cbn [find] in Hj.
      assert (Hjx : hasId j x = false).
      { unfold hasId. rewrite Ei. apply Nat.eqb_neq. congruence. }
      assert (Hjx' : hasId j (g x) = false).
      { unfold hasId. rewrite Ei'. apply Nat.eqb_neq. congruence. }
      now rewrite Hjx, Hjx' in Hj.
Qed.

Lemma sound_schemaOk (l : list Reminder.t) :
  Forall sound l -> Forall (fun r => Reminder.schemaOk r = true) l.
Proof. apply Forall_impl. now intros r [_ Hok]. Qed.

Lemma sound_id (l : list Reminder.t) :
  Forall sound l -> Forall (fun r => docId r <> None) l.
Proof. apply Forall_impl. now intros r [Hid _]. Qed.

Lemma tick_docs `{Platform} (twilio : nat -> string -> string -> bool) (w : World) :
  wellFormed (docs (reminders w)) ->
  (forall k to message, twilio k to message = true) ->
  docs (reminders (snd (ReminderScheduler.checkAndSendReminders twilio w)))
  = map (fun r => if due (clock w) r then setSent (clock w) r else r)
        (docs (reminders w)).
Proof.
  intros Hwf Hacc. apply wellFormed_sound in Hwf. destruct Hwf as [Hnd Hall].
  rewrite (tick_world_valid twilio w (sound_schemaOk _ Hall)). cbn [snd].
  destruct (loop_find twilio (dueReminders w) w (dueReminders_NoDup w Hnd))
    as [Hother Hnth].
  apply docs_by_find.
  - intros d. destruct (due (clock w) d); [apply applySet_keeps_id|reflexivity].
  - now apply sound_id.
  - exact Hnd.
  - apply sound_id. now apply loop_sound.
  - apply loop_idsOf.
  - intros i.
    destruct (in_dec Nat.eq_dec i (idsOf (dueReminders w))) as [Hin|Hnotin].
    + unfold idsOf in Hin. apply in_flat_map in Hin. destruct Hin as [r [Hr Hid]].
      destruct (docId r) as [j|] eqn:Ej; simpl in Hid; [|contradiction].
      destruct Hid as [->|[]].
      destruct (In_nth_error _ _ Hr) as [k Hk].
      rewrite (Hnth k r i Hk Ej), Hacc.
      apply dueReminders_In in Hr. destruct Hr as [Hr Hdue].
      rewrite (find_hasId_unique _ i r Hnd Hr Ej). cbn [option_map].
      now rewrite Hdue.
    + rewrite (Hother i Hnotin).
      destruct (find (hasId i) (docs (reminders w))) as [r|] eqn:Ef; [|reflexivity].
      cbn [option_map]. destruct (due (clock w) r) eqn:Ed; [|reflexivity].
      exfalso. apply Hnotin. destruct (find_hasId_id _ _ _ Ef) as [Hr Hid].
      apply (idsOf_In _ r i); [|exact Hid]. apply dueReminders_In. now split.
Qed.

Lemma due_after_send (c later : Date) (l : list Reminder.t) :
  filter (due later) (map (fun r => if due c r then setSent c r else r) l)
  = filter (fun r => due later r && negb (due c r)) l.
Proof.
  induction l as [|x l IH]; [reflexivity|]. cbn [map filter].
  destruct (due c x) eqn:Ec.
  - rewrite andb_false_r.
    replace (due later (setSent c x)) with false by reflexivity. exact IH.
  - rewrite andb_true_r. destruct (due later x); now rewrite IH.
Qed.

Lemma filter_never {A} (p : A -> bool) (l : list A) :
  (forall x, p x = false) -> filter p l = [].
Proof.
  intros Hp. induction l as [|x l IH]; [reflexivity|].
  cbn [filter]. now rewrite Hp.
Qed.

(** X20. Exactly-once delivery under an accepting channel. On a store
    that can be read in full, after a tick in which the channel accepted
    every message, a tick at any instant hands to the channel exactly the
    reminders that are due at that instant and were not due at the first
    tick, each once, in some order: nothing delivered by the first tick is
    sent again, and a second tick at the same instant sends nothing. *)
Theorem X20_no_second_delivery `{Platform}
  (twilio twilio' : nat -> string -> string -> bool) (w : World) (later : Date) :
  wellFormed (docs (reminders w)) ->
  (forall k to message, twilio k to message = true) ->
  let w1 := snd (ReminderScheduler.checkAndSendReminders twilio w) in
  let w2 := snd (ReminderScheduler.checkAndSendReminders twilio' (atInstant later w1)) in
  (exists sent,
      Permutation sent
        (filter (fun r => Reminder.isDue r later
                          && negb (Reminder.isDue r (clock w)))
                (docs (reminders w)))
      /\ smsAttempts w2
         = smsAttempts w1
           ++ map (fun r => (Reminder.phoneNumber r,
                             ReminderScheduler.formatReminderMessage r)) sent)
  /\ (later = clock w -> smsAttempts w2 = smsAttempts w1).
Proof.
  intros Hwf Hacc w1 w2.
  pose proof (tick_docs twilio w Hwf Hacc) as Hdocs. fold w1 in Hdocs.
  assert (Hall1 : Forall sound (docs (reminders w1))).
  { apply wellFormed_sound in Hwf. destruct Hwf as [_ Hall]. subst w1.
    rewrite (tick_world_valid twilio w (sound_schemaOk _ Hall)). cbn [snd].
    now apply loop_sound. }
  assert (Hsent : Permutation (dueReminders (atInstant later w1))
                    (filter (fun r => due later r && negb (due (clock w) r))
                       (docs (reminders w)))).
  { rewrite <- due_after_send, <- Hdocs.
    apply (dueReminders_perm (atInstant later w1)). }
  assert (Hsms : smsAttempts w2
                 = smsAttempts w1
                   ++ map (fun r => (Reminder.phoneNumber r,
                                     ReminderScheduler.formatReminderMessage r))
                          (dueReminders (atInstant later w1))).
  { subst w2.
    rewrite (tick_world_valid twilio' (atInstant later w1));
      [|exact (sound_schemaOk _ Hall1)].
    cbn [snd].
    destruct (loop_frame twilio' (dueReminders (atInstant later w1))
                (atInstant later w1)) as [_ [_ [_ [_ Hsms]]]].
    exact Hsms. }
  split.
  - exists (dueReminders (atInstant later w1)). split; [exact Hsent|exact Hsms].
  - intros ->. rewrite Hsms.
    rewrite (filter_never _ (docs (reminders w))) in Hsent
      by (intros x; apply andb_negb_r). apply Permutation_sym, Permutation_nil in Hsent. rewrite Hsent.
    apply app_nil_r.
Qed.

Lemma X20_no_second_delivery_witness :
  let w1 := snd (@ReminderScheduler.checkAndSendReminders examplePlatform
                   alwaysAccept tickWorld) in
  let w2 := snd (@ReminderScheduler.checkAndSendReminders examplePlatform
                   failFirst (atInstant 1001%Z w1)) in
  exists sent,
    Permutation sent
      (filter (fun r => Reminder.isDue r 1001%Z
                        && negb (Reminder.isDue r (clock tickWorld)))
              (docs (reminders tickWorld)))
    /\ smsAttempts w2
       = smsAttempts w1
         ++ map (fun r => (Reminder.phoneNumber r,
                           @ReminderScheduler.formatReminderMessage examplePlatform r))
                sent.
Proof.
  apply (@X20_no_second_delivery examplePlatform alwaysAccept failFirst tickWorld
           1001%Z).
  - split; [|split].
    + repeat (constructor; [simpl; intuition discriminate|]). constructor.
    + repeat (constructor; [discriminate|]). constructor.
    + repeat (constructor; [reflexivity|]). constructor.
  - reflexivity.
Defined.


(** ** Events of a streamed run *)

Lemma loopEvents_app (a b : list AgentEvent) :
  loopEvents a -> loopEvents b -> loopEvents (a ++ b).
Proof.
  induction 1; intros Hb; cbn [app]; [exact Hb| |]; constructor; auto.
Qed.

Lemma emits_preserves {A} (m : M World A) : preserves events m -> emits m.
Proof.
  intros Hm w. exists []. rewrite app_nil_r. split; [apply Hm|constructor].
Qed.

Lemma emits_bind {A B} (m : M World A) (k : A -> M World B) :
  emits m -> (forall a, emits (k a)) -> emits (bind m k).
Proof.
  intros Hm Hk w. unfold bind. destruct (Hm w) as [l [E P]].
  destruct (m w) as [[a|e] w1]; cbn [snd] in *.
  - destruct (Hk a w1) as [l2 [E2 P2]]. exists (l ++ l2).
    rewrite E2, E, app_assoc. split; [reflexivity|now apply loopEvents_app].
  - exists l. now split.
Qed.

Lemma emits_forEach {A B} (xs : list A) (body : B -> A -> M World B) (acc : B) :
  (forall b a, emits (body b a)) -> emits (forEach xs body acc).
Proof.
  intros Hb. revert acc. induction xs as [|x xs IH]; intros acc; cbn [forEach].
  - apply emits_preserves, preserves_ret.
  - apply emits_bind; [apply Hb|apply IH].
Qed.

Lemma onReminders_events {A} (m : M (Collection Reminder.t) A) :
  preserves events (onReminders m).
Proof. intros w. unfold onReminders. now destruct (m (reminders w)). Qed.

Lemma onConversations_events {A} (m : M (Collection Conversation.t) A) :
  preserves events (onConversations m).
Proof. intros w. unfold onConversations. now destruct (m (conversations w)). Qed.

Lemma logCall_events (messages : list BaseMessage) :
  preserves events (logCall messages).
Proof. intros w. reflexivity. Qed.

Lemma appendMessage_events (id : ObjectId) (r : Role) (text : string) :
  preserves events (AgentService.appendMessage id r text).
Proof.
  unfold AgentService.appendMessage.
  apply preserves_bind; [apply preserves_newDate|intros now].
  apply preserves_bind; [apply onConversations_events|intros ?].
  apply preserves_ret.
Qed.

Lemma resolveConversation_events (userId : ObjectId) (phoneNumber : string)
  (conversationId : option ObjectId) :
  preserves events
    (AgentService.resolveConversation userId phoneNumber conversationId).
Proof.
  unfold AgentService.resolveConversation. destruct conversationId as [id|].
  - apply preserves_bind; [apply onConversations_events|intros [c|]];
      [apply preserves_ret|apply preserves_throw].
  - apply preserves_bind; [apply preserves_newDate|intros now].
    apply onConversations_events.
Qed.

Lemma consumeChunk_emits (st : option AIMessageChunk * string)
  (chunk : AIMessageChunk) :
  emits (AgentService.consumeChunk st chunk).
Proof.
  unfold AgentService.consumeChunk.
  destruct (AgentService.nonEmpty (chunk_content chunk));
    [|apply emits_preserves, preserves_ret].
  apply emits_bind; [|intros _; apply emits_preserves, preserves_ret].
  destruct (_ =? _)%nat; [|apply emits_preserves, preserves_ret].
  intros w. exists [token (chunk_content chunk)].
  split; [reflexivity|repeat constructor].
Qed.

Lemma dispatchToolCall_emits (tools : list DynamicStructuredTool)
  (messages : list BaseMessage) (toolCall : ToolCall) :
  emits (AgentService.dispatchToolCall true tools messages toolCall).
Proof.
  unfold AgentService.dispatchToolCall, AgentService.emitIf.
  destruct (AgentService.findTool tools (tc_name toolCall)) as [tool|];
    [|apply emits_preserves, preserves_ret].
  intros w. unfold bind, tryCatch, ret, onEvent, newDate, onReminders.
  cbn [fst snd reminders clock events conversations llmCalls smsAttempts].
  destruct (invoke tool (tc_args toolCall) (clock w) (reminders w)) as [[j|e] c];
    cbn [fst snd events]; eexists; (split; [rewrite <- app_assoc; reflexivity|]);
    repeat constructor.
Qed.

Lemma streamLoop_emits `{Platform} (llm : CompletionClient)
  (tools : list DynamicStructuredTool) (n : nat) :
  forall messages finalResponse,
    emits (AgentService.streamLoop llm tools n messages finalResponse).
Proof.
  induction n as [|n IH]; intros messages finalResponse; simpl.
  - apply emits_preserves, preserves_ret.
  - apply emits_bind; [apply emits_preserves, logCall_events|intros k].
    apply emits_bind.
    { apply emits_forEach. intros b a. apply consumeChunk_emits. }
    intros st. destruct (streamError _); [apply emits_preserves, preserves_throw|].
    destruct (fst st); [|apply emits_preserves, preserves_ret].
    destruct (0 <? _)%nat; [|apply emits_preserves, preserves_ret].
    apply emits_bind; [|intros messages'; apply IH].
    apply emits_forEach. intros ? ?. apply dispatchToolCall_emits.
Qed.

Lemma resolve_by_id (userId : ObjectId) (phoneNumber : string) (id : ObjectId)
  (c : Conversation.t) (w : World) :
  fst (AgentService.resolveConversation userId phoneNumber (Some id) w) = Ok c ->
  Conversation._id c = Some id.
Proof.
  unfold AgentService.resolveConversation, onConversations,
    ConversationRepository.findById, ConversationRepository.findOne, coll_findOne.
  unfold_monad.
  destruct (find (hasId id) (docs (conversations w))) as [d|] eqn:Ef;
    [|discriminate].
  destruct (find_hasId_id _ _ _ Ef) as [_ Hid].
  unfold Conversation.fromDocument, Conversation.new.
  destruct (Conversation.validate d); cbn [fst]; [|discriminate].
  intros E. injection E as <-. exact Hid.
Qed.

Lemma dispatchToolCall_silent (tools : list DynamicStructuredTool)
  (messages : list BaseMessage) (toolCall : ToolCall) :
  preserves events (AgentService.dispatchToolCall false tools messages toolCall).
Proof.
  unfold AgentService.dispatchToolCall, AgentService.emitIf.
  destruct (AgentService.findTool tools (tc_name toolCall)); [|apply preserves_ret].
  apply preserves_bind; [apply preserves_ret|intros _].
  apply preserves_bind; [apply preserves_newDate|intros now].
  apply preserves_bind.
  - apply preserves_tryCatch; [|intros e; apply preserves_ret].
    apply preserves_bind; [apply onReminders_events|intros j; apply preserves_ret].
  - intros output. apply preserves_bind; intros; apply preserves_ret.
Qed.

Lemma invokeLoop_silent (llm : CompletionClient)
  (tools : list DynamicStructuredTool) (n : nat) :
  forall messages, preserves events (AgentService.invokeLoop llm tools n messages).
Proof.
  induction n as [|n IH]; intros messages; simpl.
  - apply preserves_ret.
  - apply preserves_bind; [apply logCall_events|intros k].
    apply preserves_bind; [apply preserves_liftResult|intros reply].
    destruct (0 <? _)%nat; [|apply preserves_ret].
    apply preserves_bind; [|intros messages'; apply IH].
    apply preserves_forEach. intros ? ?. apply dispatchToolCall_silent.
Qed.

(** X21. What a client of the streaming entry point observes. Either the
    conversation could not be resolved, the call fails and no event is
    reported; or the first event is [conversation_id], naming the requested
    conversation when one was requested, and it is followed only by
    tokens and by tool reports in which every [tool_start] is directly
    followed by the [tool_end] of the same tool, also when the tool throws.
    The non-streaming entry point reports no event. *)
Theorem X21_events_of_a_streamed_run `{Platform} (llm : CompletionClient)
  (userId : ObjectId) (phoneNumber message : string)
  (conversationId : option ObjectId) (w : World) :
  (let outcome :=
     AgentService.processMessageStream llm userId phoneNumber message
       conversationId w in
   (events (snd outcome) = events w /\ exists e, fst outcome = Throw e)
   \/ exists id rest,
        events (snd outcome) = events w ++ conversation_id id :: rest
        /\ loopEvents rest
        /\ (forall requested, conversationId = Some requested -> id = requested))
  /\ events (snd (AgentService.processMessage llm userId phoneNumber message
                    conversationId w))
     = events w.
Proof.
  split.
  - intros outcome.
    pose proof (resolveConversation_events userId phoneNumber conversationId w)
      as Hres.
    pose proof (fun id => resolve_by_id userId phoneNumber id) as Hby.
    destruct (AgentService.resolveConversation userId phoneNumber conversationId w)
      as [[c|e] w1] eqn:Er; cbn [snd] in Hres.
    + destruct (Conversation._id c) as [id|] eqn:Eid.
      * right.
        assert (Hout : exists m w0,
                   outcome = m w0 /\ emits m
                   /\ events w0 = events w ++ [conversation_id id]).
        { subst outcome. unfold AgentService.processMessageStream.
          unfold bind at 1. rewrite Er. unfold bind at 1, AgentService.idOf.
          rewrite Eid. unfold ret at 1. unfold bind at 1, onEvent at 1.
          eexists. eexists. split; [reflexivity|]. split.
          - apply emits_bind;
              [apply emits_preserves, appendMessage_events|intros _].
            apply emits_bind;
              [apply emits_preserves, prepareMessages_preserves|intros messages].
            apply emits_bind; [apply streamLoop_emits|intros finalResponse].
            destruct (AgentService.nonEmpty finalResponse);
              [apply emits_preserves, appendMessage_events
              |apply emits_preserves, preserves_ret].
          - cbn [events]. now rewrite Hres. }
        destruct Hout as [m [w0 [-> [Hm Hw0]]]].
        destruct (Hm w0) as [l [E P]].
        exists id, l. split; [|split].
        -- rewrite E, Hw0, <- app_assoc. reflexivity.
        -- exact P.
        -- intros requested ->. specialize (Hby requested c w).
           rewrite Er in Hby. specialize (Hby eq_refl). congruence.
      * left.
        assert (Hout : outcome = (Throw "TypeError", w1)).
        { subst outcome. unfold AgentService.processMessageStream.
          unfold bind at 1. rewrite Er. unfold bind at 1, AgentService.idOf.
          now rewrite Eid. }
        rewrite Hout. cbn [fst snd]. split; [exact Hres|now eexists].
    + left.
      assert (Hout : outcome = (Throw e, w1)).
      { subst outcome. unfold AgentService.processMessageStream.
        unfold bind at 1. now rewrite Er. }
      rewrite Hout. cbn [fst snd]. split; [exact Hres|now eexists].
  - revert w. change (preserves events
      (AgentService.processMessage llm userId phoneNumber message conversationId)).
    unfold AgentService.processMessage.
    apply preserves_bind; [apply resolveConversation_events|intros c].
    apply preserves_bind; [apply idOf_preserves|intros id].
    apply preserves_bind; [apply appendMessage_events|intros _].
    apply preserves_bind; [apply prepareMessages_preserves|intros messages].
    apply preserves_bind; [apply invokeLoop_silent|intros finalResponse].
    apply preserves_bind; [apply appendMessage_events|intros _].
    apply preserves_ret.
Qed.


(** ** Streamed tokens and the stored reply *)














(** ** Failed tool calls *)

Lemma update_failure_writes_nothing `{Platform} (userId : ObjectId)
  (args : ToolArgs) (now : Date) (coll : Collection Reminder.t) :
  Forall sound (docs coll) ->
  match fst (invoke (ReminderTools.updateReminderTool userId) args now coll) with
  | Ok j =>
      success j = false ->
      docs (snd (invoke (ReminderTools.updateReminderTool userId) args now coll))
      = docs coll
  | Throw _ =>
      docs (snd (invoke (ReminderTools.updateReminderTool userId) args now coll))
      = docs coll
  end.
Proof.
  intros Hall. unfold invoke. simpl.
  destruct (ReminderTools.updateSchema now args) as [input|e] eqn:Hs; [|reflexivity].
  destruct (updateSchema_ok now args input Hs) as [Ht [Hd _]].
  unfold ReminderTools.updateFunc, ReminderTools.newObjectId.
  destruct (parseObjectId (ReminderTools.u_reminderId input)) as [id|];
    [|intros _; reflexivity].
  unfold_monad.
  pose proof (findById_reads id coll) as Hr.
  pose proof (findById_result id coll) as Hres.
  destruct (ReminderRepository.findById id coll) as [found c].
  cbn [fst snd] in Hr, Hres. subst c.
  destruct found as [[existing|]|e]; cbn [fst snd]; try (intros _; reflexivity).
  specialize (Hres existing eq_refl).
  destruct (Reminder.userId existing =? userId)%nat; cbn [negb fst snd];
    [|intros _; reflexivity].
  assert (Hex : sound existing).
  { destruct (find_hasId_id _ _ _ Hres) as [Hin _].
    exact (proj1 (Forall_forall _ _) Hall existing Hin). }
  rewrite (update_found id _ now coll existing Hres).
  - cbn [fst snd success]. discriminate.
  - apply applySet_sound; [| |exact Hex].
    + cbn [set_title]. intros t Et. apply ifTruthy_Some in Et. rewrite Et in Ht.
      apply zOptional_ok in Ht. now apply zStringBetween_ok in Ht.
    + cbn [set_description]. intros x Ex. rewrite Ex in Hd.
      apply zOptional_ok in Hd. apply zStringBetween_ok in Hd. lia.
Qed.

Lemma delete_failure_writes_nothing `{Platform} (userId : ObjectId)
  (args : ToolArgs) (now : Date) (coll : Collection Reminder.t) :
  Forall sound (docs coll) ->
  match fst (invoke (ReminderTools.deleteReminderTool userId) args now coll) with
  | Ok j =>
      success j = false ->
      docs (snd (invoke (ReminderTools.deleteReminderTool userId) args now coll))
      = docs coll
  | Throw _ =>
      docs (snd (invoke (ReminderTools.deleteReminderTool userId) args now coll))
      = docs coll
  end.
Proof.
  intros Hall. unfold invoke. simpl.
  destruct (ReminderTools.deleteSchema now args) as [input|e]; [|reflexivity].
  unfold ReminderTools.deleteFunc, ReminderTools.newObjectId.
  destruct (parseObjectId (ReminderTools.d_reminderId input)) as [id|];
    [|intros _; reflexivity].
  unfold_monad.
  pose proof (findById_reads id coll) as Hr.
  pose proof (findById_result id coll) as Hres.
  destruct (ReminderRepository.findById id coll) as [found c].
  cbn [fst snd] in Hr, Hres. subst c.
  destruct found as [[existing|]|e]; cbn [fst snd]; try (intros _; reflexivity).
  specialize (Hres existing eq_refl).
  destruct (Reminder.userId existing =? userId)%nat; cbn [negb fst snd];
    [|intros _; reflexivity].
  assert (Hex : sound existing).
  { destruct (find_hasId_id _ _ _ Hres) as [Hin _].
    exact (proj1 (Forall_forall _ _) Hall existing Hin). }
  unfold ReminderRepository.cancelReminder, ReminderRepository.updateStatus.
  rewrite (update_found id _ now coll existing Hres).
  - cbn [fst snd success]. discriminate.
  - now apply status_sound.
Qed.

Lemma create_failure_writes_nothing `{Platform} (userId conversationId : ObjectId)
  (phoneNumber : string) (args : ToolArgs) (now : Date)
  (coll : Collection Reminder.t) :
  match fst (invoke (ReminderTools.createReminderTool userId conversationId
                       phoneNumber) args now coll) with
  | Ok j =>
      success j = false ->
      docs (snd (invoke (ReminderTools.createReminderTool userId conversationId
                           phoneNumber) args now coll))
      = docs coll
  | Throw _ =>
      docs (snd (invoke (ReminderTools.createReminderTool userId conversationId
                           phoneNumber) args now coll))
      = docs coll
  end.
Proof.
  unfold invoke. simpl.
  destruct (ReminderTools.createSchema now args) as [input|e]; [|reflexivity].
  unfold ReminderTools.createFunc, ReminderRepository.create, coll_insertOne.
  unfold_monad.
  destruct (Reminder.new _) as [r|e] eqn:Er; cbn [fst snd];
    [|intros _; reflexivity].
  unfold Reminder.new in Er. destruct (Reminder.validate _); [|discriminate].
  injection Er as <-. simpl.
  destruct (existsb (hasId (nextId coll)) (docs coll)) eqn:Ex; cbn [fst snd success];
    [intros _; reflexivity|discriminate].
Qed.

(** X23. A tool call that fails has written nothing. On a well-formed
    store, whenever one of the four tools, invoked with any arguments,
    throws or returns an object whose [success] is false (arguments the
    schema refuses, an id that cannot be parsed, a reminder that is not
    found or belongs to someone else, a reminder the schema refuses), the
    stored reminders are exactly as before the call. *)
Theorem X23_failed_tool_call_writes_nothing `{Platform}
  (userId conversationId : ObjectId) (phoneNumber : string)
  (tool : DynamicStructuredTool) (args : ToolArgs) (now : Date)
  (coll : Collection Reminder.t) :
  In tool (ReminderTools.getAllTools userId conversationId phoneNumber) ->
  wellFormed (docs coll) ->
  match fst (invoke tool args now coll) with
  | Ok j => success j = false -> docs (snd (invoke tool args now coll)) = docs coll
  | Throw _ => docs (snd (invoke tool args now coll)) = docs coll
  end.
Proof.
  intros Hin Hwf. apply wellFormed_sound in Hwf. destruct Hwf as [_ Hall].
  destruct Hin as [<-|[<-|[<-|[<-|[]]]]].
  - apply create_failure_writes_nothing.
  - rewrite list_keeps_store. now destruct (fst _).
  - now apply update_failure_writes_nothing.
  - now apply delete_failure_writes_nothing.
Qed.

Lemma X23_failed_tool_call_writes_nothing_witness :
  match fst (invoke (@ReminderTools.updateReminderTool examplePlatform 7%nat)
               (argsId "9") 1000%Z remindersOfUser7) with
  | Ok j =>
      success j = false ->
      docs (snd (invoke (@ReminderTools.updateReminderTool examplePlatform 7%nat)
                   (argsId "9") 1000%Z remindersOfUser7))
      = docs remindersOfUser7
  | Throw _ =>
      docs (snd (invoke (@ReminderTools.updateReminderTool examplePlatform 7%nat)
                   (argsId "9") 1000%Z remindersOfUser7))
      = docs remindersOfUser7
  end.
Proof.
  apply (@X23_failed_tool_call_writes_nothing examplePlatform 7%nat 3%nat
           "+15551234567" (@ReminderTools.updateReminderTool examplePlatform 7%nat)
           (argsId "9") 1000%Z remindersOfUser7).
  - right. right. left. reflexivity.
  - split; [|split].
    + repeat (constructor; [simpl; intuition discriminate|]). constructor.
    + repeat (constructor; [discriminate|]). constructor.
    + repeat (constructor; [reflexivity|]). constructor.
Defined.


(** ** Starting and stopping the scheduler *)

Lemma existsb_eqb_In (j : nat) (l : list nat) :
  existsb (Nat.eqb j) l = true <-> In j l.
Proof.
  rewrite existsb_exists. split.
  - intros [x [Hx E]]. apply Nat.eqb_eq in E. now subst.
  - intros Hin. exists j. split; [exact Hin|apply Nat.eqb_refl].
Qed.

Lemma live_stopped (stopped0 rest : list nat) :
  (forall j, In j rest -> ~ In j stopped0) ->
  filter (fun job => negb (existsb (Nat.eqb job) stopped0)) (stopped0 ++ rest) = rest.
Proof.
  intros Hrest. rewrite filter_app.
  assert (H1 : forall l, (forall j, In j l -> In j stopped0) ->
               filter (fun job => negb (existsb (Nat.eqb job) stopped0)) l = []).
  { induction l as [|x l IH]; intros Hl; [reflexivity|]. cbn [filter].
    rewrite (proj2 (existsb_eqb_In x stopped0)); [|apply Hl; now left].
    cbn [negb]. apply IH. intros j Hj. apply Hl. now right. }
  rewrite H1; [|auto]. cbn [app].
  induction rest as [|x rest IH]; [reflexivity|]. cbn [filter].
  destruct (existsb (Nat.eqb x) stopped0) eqn:E.
  - apply existsb_eqb_In in E. exfalso. apply (Hrest x); [now left|exact E].
  - cbn [negb]. f_equal. apply IH. intros j Hj. apply Hrest. now right.
Qed.

(** X24. Whatever calls of [start] and [stop] are made on a new scheduler,
    in whatever order, at most one cron task fires: the task held in
    [cronJob] when [isRunning] is set, and none otherwise. A second
    [start] schedules nothing and a [stop] leaves nothing firing. *)
Theorem X24_at_most_one_task_fires (calls0 : list SchedulerControl.Call) :
  let s := fold_left SchedulerControl.call calls0 SchedulerControl.initial in
  SchedulerControl.live s
  = match SchedulerControl.cronJob s with
    | Some job => [job]
    | None => []
    end
  /\ (SchedulerControl.isRunning s = true <-> SchedulerControl.cronJob s <> None)
  /\ SchedulerControl.live (SchedulerControl.start (SchedulerControl.start s))
     = SchedulerControl.live (SchedulerControl.start s)
  /\ SchedulerControl.live (SchedulerControl.stop s) = [].
Proof.
  intros s.
  assert (Hinv : SchedulerControl.scheduled s
                 = SchedulerControl.stopped s
                   ++ match SchedulerControl.cronJob s with
                      | Some job => [job]
                      | None => []
                      end
                 /\ SchedulerControl.scheduled s
                    = seq 0 (List.length (SchedulerControl.scheduled s))
                 /\ SchedulerControl.isRunning s
                    = match SchedulerControl.cronJob s with
                      | Some _ => true
                      | None => false
                      end).
  { subst s. induction calls0 as [|c cs IH] using rev_ind.
    - repeat split.
    - rewrite fold_left_app. cbn [fold_left]. destruct IH as [H1 [H2 H3]].
      set (s := fold_left SchedulerControl.call cs SchedulerControl.initial) in *.
      destruct s as [job running sched stop0]. cbn in H1, H2, H3. subst running.
      destruct c; cbn.
      + destruct job as [j|]; cbn; [repeat split; assumption|].
        rewrite app_nil_r in H1. subst stop0. repeat split.
        rewrite length_app. cbn [List.length]. rewrite Nat.add_1_r, seq_S.
        now rewrite <- H2.
      + destruct job as [j|]; cbn; [|repeat split; assumption].
        rewrite app_nil_r. repeat split; assumption. }
  destruct Hinv as [H1 [H2 H3]].
  assert (Hfresh : forall j, SchedulerControl.cronJob s = Some j ->
                             ~ In j (SchedulerControl.stopped s)).
  { intros j Ej Hin. rewrite Ej in H1.
    assert (Hnd : NoDup (SchedulerControl.scheduled s))
      by (rewrite H2; apply seq_NoDup).
    rewrite H1 in Hnd. apply NoDup_remove_2 in Hnd. apply Hnd.
    rewrite app_nil_r. exact Hin. }
  assert (Hlive : SchedulerControl.live s
                  = match SchedulerControl.cronJob s with
                    | Some job => [job]
                    | None => []
                    end).
  { unfold SchedulerControl.live. rewrite H1. apply live_stopped.
    destruct (SchedulerControl.cronJob s) as [j|]; [|intros j []].
    intros j' [<-|[]]. now apply Hfresh. }
  split; [exact Hlive|]. split.
  - rewrite H3. destruct (SchedulerControl.cronJob s); split; congruence.
  - split.
    + unfold SchedulerControl.start at 1.
      destruct (SchedulerControl.isRunning (SchedulerControl.start s)) eqn:E;
        [reflexivity|].
      unfold SchedulerControl.start in E.
      destruct (SchedulerControl.isRunning s) eqn:E'; [congruence|discriminate].
    + unfold SchedulerControl.stop. rewrite H3.
      destruct (SchedulerControl.cronJob s) as [j|] eqn:Ej.
      * unfold SchedulerControl.live. cbn [SchedulerControl.stopped
          SchedulerControl.scheduled]. rewrite H1.
        pose proof (live_stopped (SchedulerControl.stopped s ++ [j]) []) as Hl.
        rewrite app_nil_r in Hl. apply Hl. intros ? [].
      * exact Hlive.
Qed.


(** ** From creation to delivery *)

Lemma createSchema_ok `{Platform} (now : Date) (args : ToolArgs)
  (input : ReminderTools.CreateInput) :
  ReminderTools.createSchema now args = Ok input ->
  DateValidator.futureISODateSchema now (arg_scheduledFor args)
  = Ok (ReminderTools.c_scheduledFor input).
Proof.
  unfold ReminderTools.createSchema.
  destruct (zStringBetween 1 200 (arg_title args));
    destruct (zOptional (zStringBetween 0 1000) (arg_description args));
    destruct (DateValidator.futureISODateSchema now (arg_scheduledFor args));
    intros Heq; inversion Heq; reflexivity.
Qed.

Lemma create_success `{Platform} (userId conversationId : ObjectId)
  (phoneNumber : string) (args : ToolArgs) (now : Date)
  (coll : Collection Reminder.t) (message : string) (rid : option ObjectId)
  (iso : string) :
  fst (invoke (ReminderTools.createReminderTool userId conversationId phoneNumber)
         args now coll)
  = Ok (JsonCreated message rid iso) ->
  exists input,
    ReminderTools.createSchema now args = Ok input
    /\ rid = Some (nextId coll)
    /\ existsb (hasId (nextId coll)) (docs coll) = false
    /\ isE164 phoneNumber = true
    /\ snd (invoke (ReminderTools.createReminderTool userId conversationId
                      phoneNumber) args now coll)
       = mkCollection
           (docs coll
            ++ [Reminder.mk (Some (nextId coll)) userId conversationId phoneNumber
                  (ReminderTools.c_title input)
                  (storedDescription (ReminderTools.c_description input))
                  (ReminderTools.c_scheduledFor input) PENDING now now])
           (S (nextId coll)).
Proof.
  intros Hrun.
  pose proof (create_outcome userId conversationId phoneNumber args now coll) as Ho.
  destruct (ReminderTools.createSchema now args) as [input|e] eqn:Hs;
    [|rewrite Ho in Hrun; discriminate].
  destruct (isE164 phoneNumber && negb (existsb (hasId (nextId coll)) (docs coll)))
    eqn:Ec.
  - rewrite Ho in *. cbn [fst snd] in *. injection Hrun as _ <- _.
    apply andb_prop in Ec. destruct Ec as [Hph Hfresh].
    apply negb_true_iff in Hfresh. exists input. repeat split; assumption.
  - destruct Ho as [e [c [Ho _]]]. rewrite Ho in Hrun. discriminate.
Qed.

(** The document [create_reminder] stores satisfies the reminder schema
    exactly when a description was passed. *)
Lemma created_schemaOk `{Platform} (userId conversationId : ObjectId)
  (phoneNumber : string) (args : ToolArgs) (now : Date) (id : ObjectId)
  (input : ReminderTools.CreateInput) :
  ReminderTools.createSchema now args = Ok input ->
  isE164 phoneNumber = true ->
  Reminder.schemaOk
    (Reminder.mk (Some id) userId conversationId phoneNumber
       (ReminderTools.c_title input)
       (storedDescription (ReminderTools.c_description input))
       (ReminderTools.c_scheduledFor input) PENDING now now)
  = match arg_description args with Some _ => true | None => false end.
Proof.
  intros Hs Hph.
  destruct (createSchema_inv now args input Hs) as [[_ [Ht1 Ht2]] [Hd _]].
  unfold Reminder.schemaOk.
  cbn [Reminder.phoneNumber Reminder.title Reminder.description].
  apply Nat.leb_le in Ht1. apply Nat.leb_le in Ht2. rewrite Hph, Ht1, Ht2.
  unfold descriptionAccepted in Hd.
  destruct (ReminderTools.c_description input) as [d|]; cbn [storedDescription].
  - destruct Hd as [-> Hl]. apply Nat.leb_le in Hl. now rewrite Hl.
  - now rewrite Hd.
Qed.

Lemma tick_on_reminder `{Platform} (twilio : nat -> string -> string -> bool)
  (w : World) (r : Reminder.t) (i : ObjectId) :
  NoDup (idsOf (docs (reminders w))) ->
  Forall (fun d => Reminder.schemaOk d = true) (docs (reminders w)) ->
  find (hasId i) (docs (reminders w)) = Some r ->
  let w' := snd (ReminderScheduler.checkAndSendReminders twilio w) in
  (due (clock w) r = false -> find (hasId i) (docs (reminders w')) = Some r)
  /\ (due (clock w) r = true ->
      exists k,
        nth_error (smsAttempts w') (List.length (smsAttempts w) + k)
        = Some (Reminder.phoneNumber r, ReminderScheduler.formatReminderMessage r)
        /\ find (hasId i) (docs (reminders w'))
           = Some (if twilio (List.length (smsAttempts w) + k)%nat
                        (Reminder.phoneNumber r)
                        (ReminderScheduler.formatReminderMessage r)
                   then Reminder.markAsSent r (clock w)
                   else r)).
Proof.
  intros Hnd Hok Hf w'. subst w'. rewrite (tick_world_valid twilio w Hok). cbn [snd].
  destruct (find_hasId_id _ _ _ Hf) as [Hin Hid].
  destruct (loop_frame twilio (dueReminders w) w) as [_ [_ [_ [_ Hsms]]]].
  destruct (loop_find twilio (dueReminders w) w (dueReminders_NoDup w Hnd))
    as [Hother Hnth].
  split.
  - intros Hdue. rewrite Hother; [exact Hf|].
    intros Hi. unfold idsOf in Hi. apply in_flat_map in Hi.
    destruct Hi as [x [Hx Hxi]]. apply dueReminders_In in Hx.
    destruct Hx as [Hx Hxdue].
    assert (x = r).
    { destruct (docId x) as [j|] eqn:Ej; simpl in Hxi; [|contradiction].
      destruct Hxi as [<-|[]].
      pose proof (find_hasId_unique _ j x Hnd Hx Ej) as H1. congruence. }
    subst x. congruence.
  - intros Hdue.
    assert (Hinf : In r (dueReminders w)) by (apply dueReminders_In; now split).
    destruct (In_nth_error _ _ Hinf) as [k Hk]. exists k. split.
    + rewrite Hsms, nth_error_app2 by lia.
      replace (List.length (smsAttempts w) + k - List.length (smsAttempts w))%nat
        with k by lia.
      now apply (map_nth_error
                   (fun r0 => (Reminder.phoneNumber r0,
                               ReminderScheduler.formatReminderMessage r0))).
    + rewrite (Hnth k r i Hk Hid), Hf. destruct (twilio _ _ _); reflexivity.
Qed.

(** X25. From creation to delivery. When [create_reminder] reports success
    on a store that can be read in full, the id it reports is new and
    names a stored reminder of the caller, pending, for the caller's phone
    number and scheduled strictly after the instant of the call. When a
    description was passed, a scheduler tick on that store before the
    scheduled instant leaves the reminder as it is; a tick at or after it
    hands the reminder's text for that phone number to the channel, and
    the reminder becomes sent exactly when the channel accepts that
    message. When no description was passed, the stored description is
    [null] and the reminder is never delivered: a tick at or after the
    scheduled instant sends nothing at all and leaves the world as it
    was, whatever the channel. *)
Theorem X25_created_reminder_is_delivered_when_due `{Platform}
  (userId conversationId : ObjectId) (phoneNumber : string) (args : ToolArgs)
  (now : Date) (coll : Collection Reminder.t) (message : string)
  (rid : option ObjectId) (iso : string)
  (twilio : nat -> string -> string -> bool) (w : World) :
  wellFormed (docs coll) ->
  fst (invoke (ReminderTools.createReminderTool userId conversationId phoneNumber)
         args now coll)
  = Ok (JsonCreated message rid iso) ->
  reminders w
  = snd (invoke (ReminderTools.createReminderTool userId conversationId phoneNumber)
           args now coll) ->
  exists i r,
    rid = Some i
    /\ ~ In i (idsOf (docs coll))
    /\ find (hasId i) (docs (reminders w)) = Some r
    /\ Reminder.userId r = userId
    /\ Reminder.phoneNumber r = phoneNumber
    /\ Reminder.status r = PENDING
    /\ (now < Reminder.scheduledFor r)%Z
    /\ (arg_description args <> None ->
        let w' := snd (ReminderScheduler.checkAndSendReminders twilio w) in
        ((clock w < Reminder.scheduledFor r)%Z ->
         find (hasId i) (docs (reminders w')) = Some r)
        /\ ((Reminder.scheduledFor r <= clock w)%Z ->
            exists k,
              nth_error (smsAttempts w') (List.length (smsAttempts w) + k)
              = Some (phoneNumber, ReminderScheduler.formatReminderMessage r)
              /\ find (hasId i) (docs (reminders w'))
                 = Some (if twilio (List.length (smsAttempts w) + k)%nat phoneNumber
                              (ReminderScheduler.formatReminderMessage r)
                         then Reminder.markAsSent r (clock w)
                         else r)))
    /\ (arg_description args = None ->
        Reminder.description r = null
        /\ ((Reminder.scheduledFor r <= clock w)%Z ->
            ReminderScheduler.checkAndSendReminders twilio w = (Ok tt, w))).
Proof.
  intros Hwf Hrun Hw.
  destruct (create_success _ _ _ _ _ _ _ _ _ Hrun)
    as [input [Hs [-> [Hfresh [Hph Hcoll]]]]].
  rewrite Hcoll in Hw.
  apply wellFormed_sound in Hwf. destruct Hwf as [Hnd Hall].
  pose proof (created_schemaOk userId conversationId phoneNumber args now
                (nextId coll) input Hs Hph) as Hok.
  set (r := Reminder.mk (Some (nextId coll)) userId conversationId phoneNumber
              (ReminderTools.c_title input)
              (storedDescription (ReminderTools.c_description input))
              (ReminderTools.c_scheduledFor input) PENDING now now) in *.
  pose proof (existsb_hasId_notin _ _ Hfresh) as Hnotin.
  assert (Hf : find (hasId (nextId coll)) (docs (reminders w)) = Some r).
  { rewrite Hw. cbn [docs]. apply find_hasId_unique.
    - rewrite idsOf_app. apply NoDup_snoc; assumption.
    - apply in_or_app. right. now left.
    - reflexivity. }
  assert (Hnd' : NoDup (idsOf (docs (reminders w)))).
  { rewrite Hw. cbn [docs]. rewrite idsOf_app. apply NoDup_snoc; assumption. }
  exists (nextId coll), r. split; [reflexivity|]. split; [exact Hnotin|].
  split; [exact Hf|]. split; [reflexivity|]. split; [reflexivity|].
  split; [reflexivity|]. split; [|split].
  - apply createSchema_ok in Hs. now apply futureISODateSchema_ok in Hs.
  - intros Hdesc.
    assert (Hok' : Forall (fun d => Reminder.schemaOk d = true)
                     (docs (reminders w))).
    { rewrite Hw. cbn [docs]. apply Forall_app. split.
      - now apply sound_schemaOk.
      - constructor; [|constructor]. rewrite Hok.
        destruct (arg_description args); [reflexivity|contradiction]. }
    destruct (tick_on_reminder twilio w r (nextId coll) Hnd' Hok' Hf) as [Hno Hyes].
    split.
    + intros Hlt. apply Hno. unfold due. apply andb_false_intro2.
      apply Z.leb_gt. exact Hlt.
    + intros Hle. apply Hyes. unfold due. apply andb_true_intro. split.
      * reflexivity.
      * apply Z.leb_le. exact Hle.
  - intros Hnone. rewrite Hnone in Hok.
    destruct (createSchema_inv now args input Hs) as [_ [Hd _]].
    unfold descriptionAccepted in Hd.
    assert (Hnull : Reminder.description r = null).
    { subst r. cbn [Reminder.description].
      destruct (ReminderTools.c_description input) as [d|];
        [destruct Hd; congruence|reflexivity]. }
    split; [exact Hnull|].
    intros Hle. apply (tick_world_refused twilio w r).
    + destruct (find_hasId_id _ _ _ Hf) as [Hin _]. exact Hin.
    + unfold due. apply andb_true_intro. split; [reflexivity|].
      apply Z.leb_le. exact Hle.
    + exact Hok.
Qed.

Lemma X25_created_reminder_is_delivered_when_due_witness :
  exists i r,
    Some 0%nat = Some i
    /\ find (hasId i)
         (docs (snd (invoke (@ReminderTools.createReminderTool examplePlatform 7%nat
                               3%nat "+15551234567")
                       (argsDescribed "water the plants" "on the balcony" "2000")
                       1000%Z emptyCollection)))
       = Some r
    /\ (1000 < Reminder.scheduledFor r)%Z.
Proof.
  destruct (@X25_created_reminder_is_delivered_when_due examplePlatform 7%nat 3%nat
              "+15551234567"
              (argsDescribed "water the plants" "on the balcony" "2000") 1000%Z
              emptyCollection
              ("Reminder created successfully! I'll send you a reminder " ++ dq
               ++ "water the plants" ++ dq ++ " on 2000.")%string
              (Some 0%nat) "2000"
              alwaysAccept
              (mkWorld emptyCollection
                 (snd (invoke (@ReminderTools.createReminderTool examplePlatform 7%nat
                                 3%nat "+15551234567")
                         (argsDescribed "water the plants" "on the balcony" "2000")
                         1000%Z emptyCollection))
                 2000%Z [] [] []))
    as [i [r [Hi [_ [Hf [_ [_ [_ [Hlt _]]]]]]]]].
  - repeat split; constructor.
  - vm_compute. reflexivity.
  - reflexivity.
  - exists i, r. repeat split; assumption.
Defined.
